(** * get_fit_data.py: beams, scans and tables of fitacf records

    A shallow embedding of [src/py/get_fit_data.py] (classes [Gate], [Beam],
    [Scan] and [FetchData]) and the properties of its beam/scan segmentation,
    its table conversions and its ground-scatter classifier.

    Conventions of the embedding.
    - Python objects are values of the type [value]: [None], integers,
      binary64 floats (the kernel's primitive floats, so NaN is a float),
      [datetime] objects, strings and lists ([VList]).
    - A numpy array that the code makes with [np.array] is an [ndarray]: its
      elements in the dtype that numpy finds for them (int64 or float64).
      An attribute of a beam is kept as the list of its elements; where the
      behaviour of the code depends on whether an attribute is a list or an
      array, in the arithmetic of [gs_estimation], the attribute is read as
      an [attr], which tells the two apart.
    - A Python [dict] keyed by field names is a [gmap string value]; the
      instance dictionary of a [Beam] (filled by [setattr]) is one too.
    - A raised exception is the [Err] branch of [result]; a method that
      mutates [self] takes the object and returns the updated one.
    - A pandas [DataFrame] is its dictionary of columns, with the cells as
      they were inserted.  pandas stores them so when the cells of a column
      are of one type; the statements on cells read back from a table are
      for such columns ([typed_columns]).
    - [numpy.mean] is a parameter of the development. *)

From Stdlib Require Import ZArith Floats String Ascii List Lia Bool Sorted.
From stdpp Require Import gmap strings list fin_maps pretty.

Set Warnings "-register-all,-inexact-float".

Open Scope string_scope.
Open Scope list_scope.
Open Scope Z_scope.

(** ** Exceptions and the error monad *)

Inductive pyexn : Type :=
| IndexError (msg : string)
| KeyError (key : string)
| AttributeError (attr : string)
| TypeError (msg : string)
| ValueError (msg : string).

(** The text carried by an exception (what [str(e)] shows). *)
Definition exn_message (e : pyexn) : string :=
  match e with
  | IndexError m | KeyError m | AttributeError m | TypeError m | ValueError m => m
  end.

Inductive result (A : Type) : Type :=
| Ok (a : A)
| Err (e : pyexn).
Arguments Ok {A} a.
Arguments Err {A} e.

#[global] Instance result_ret : MRet result := fun A a => Ok a.
#[global] Instance result_bind : MBind result := fun A B f m =>
  match m with
  | Ok a => f a
  | Err e => Err e
  end.

(** A [for] loop whose body may raise: the state is threaded left to right. *)
Fixpoint foldM {S A : Type} (body : S -> A -> result S) (s : S) (l : list A) : result S :=
  match l with
  | [] => Ok s
  | x :: l' => s' ← body s x; foldM body s' l'
  end.

(** ** datetime *)

Record datetime : Type := mk_dt {
  dt_yr : Z; dt_mo : Z; dt_dy : Z; dt_hr : Z; dt_mt : Z; dt_sc : Z; dt_us : Z
}.

Definition is_leap (y : Z) : bool :=
  (y mod 4 =? 0) && (negb (y mod 100 =? 0) || (y mod 400 =? 0)).

Definition days_in_month (y m : Z) : Z :=
  if m =? 2 then (if is_leap y then 29 else 28)
  else if (m =? 4) || (m =? 6) || (m =? 9) || (m =? 11) then 30 else 31.

Definition in_range (lo hi x : Z) : bool := (lo <=? x) && (x <=? hi).

(** The checks of the [datetime.datetime] constructor on integer arguments. *)
Definition datetime_valid (t : datetime) : bool :=
  in_range 1 9999 (dt_yr t) && in_range 1 12 (dt_mo t) &&
  in_range 1 (days_in_month (dt_yr t) (dt_mo t)) (dt_dy t) &&
  in_range 0 23 (dt_hr t) && in_range 0 59 (dt_mt t) &&
  in_range 0 59 (dt_sc t) && in_range 0 999999 (dt_us t).

Definition dt_fields (t : datetime) : list Z :=
  [dt_yr t; dt_mo t; dt_dy t; dt_hr t; dt_mt t; dt_sc t; dt_us t].

Fixpoint lex_compare (a b : list Z) : comparison :=
  match a, b with
  | [], [] => Eq
  | [], _ :: _ => Lt
  | _ :: _, [] => Gt
  | x :: a', y :: b' =>
      match x ?= y with
      | Eq => lex_compare a' b'
      | c => c
      end
  end.

Definition dt_compare (a b : datetime) : comparison :=
  lex_compare (dt_fields a) (dt_fields b).

Definition dt_eqb (a b : datetime) : bool :=
  match dt_compare a b with Eq => true | _ => false end.
Definition dt_ltb (a b : datetime) : bool :=
  match dt_compare a b with Lt => true | _ => false end.
Definition dt_leb (a b : datetime) : bool :=
  match dt_compare a b with Gt => false | _ => true end.

(** ** Python values *)

Inductive value : Type :=
| VNone
| VInt (z : Z)
| VFloat (x : float)
| VTime (t : datetime)
| VStr (s : string)
| VList (l : list value).

Definition nan : value := VFloat PrimFloat.nan.

Definition is_nan_value (v : value) : bool :=
  match v with
  | VFloat x => PrimFloat.is_nan x
  | _ => false
  end.

(** The order of an integer and a float, compared by exact value as Python
    does ([None] when the float is NaN). *)
Definition int_float_compare (z : Z) (x : float) : option comparison :=
  match Prim2SF x with
  | S754_nan => None
  | S754_zero _ => Some (z ?= 0)
  | S754_infinity s => Some (if s then Gt else Lt)
  | S754_finite s m e =>
      let n := if s then Z.neg m else Z.pos m in
      Some (if 0 <=? e then z ?= n * 2 ^ e else z * 2 ^ (- e) ?= n)
  end.

Definition is_cmp (c : comparison) (o : option comparison) : bool :=
  match o with
  | Some c' => match c, c' with Eq, Eq | Lt, Lt | Gt, Gt => true | _, _ => false end
  | None => false
  end.

(** Python's [a == b]. *)
Fixpoint py_eq (a b : value) {struct a} : bool :=
  match a, b with
  | VNone, VNone => true
  | VInt x, VInt y => x =? y
  | VFloat x, VFloat y => PrimFloat.eqb x y
  | VInt x, VFloat y => is_cmp Eq (int_float_compare x y)
  | VFloat x, VInt y => is_cmp Eq (int_float_compare y x)
  | VTime x, VTime y => dt_eqb x y
  | VStr x, VStr y => String.eqb x y
  | VList xs, VList ys =>
      (fix go (xs ys : list value) {struct xs} : bool :=
         match xs, ys with
         | [], [] => true
         | x :: xs', y :: ys' => py_eq x y && go xs' ys'
         | _, _ => false
         end) xs ys
  | _, _ => false
  end.

(** Python's [a != b]. *)
Definition py_ne (a b : value) : bool := negb (py_eq a b).

Definition type_name (v : value) : string :=
  match v with
  | VNone => "NoneType"
  | VInt _ => "int"
  | VFloat _ => "float"
  | VTime _ => "datetime.datetime"
  | VStr _ => "str"
  | VList _ => "list"
  end.

Definition not_ordered (a b : value) : pyexn :=
  TypeError ("'<' not supported between instances of '" ++ type_name a ++
             "' and '" ++ type_name b ++ "'").

(** Python's [a < b]; values of unrelated types raise [TypeError]. *)
Fixpoint py_lt (a b : value) {struct a} : result bool :=
  match a, b with
  | VInt x, VInt y => Ok (x <? y)
  | VFloat x, VFloat y => Ok (PrimFloat.ltb x y)
  | VInt x, VFloat y => Ok (is_cmp Lt (int_float_compare x y))
  | VFloat x, VInt y => Ok (is_cmp Gt (int_float_compare y x))
  | VTime x, VTime y => Ok (dt_ltb x y)
  | VStr x, VStr y => Ok (String.ltb x y)
  | VList xs, VList ys =>
      (fix go (xs ys : list value) {struct xs} : result bool :=
         match xs, ys with
         | [], [] => Ok false
         | [], _ :: _ => Ok true
         | _ :: _, [] => Ok false
         | x :: xs', y :: ys' => if py_eq x y then go xs' ys' else py_lt x y
         end) xs ys
  | _, _ => Err (not_ordered a b)
  end.

(** Python's [a > b], which for these types is [b < a]. *)
Definition py_gt (a b : value) : result bool := py_lt b a.

(** ** Built-in operations on sequences *)

(** [len(v)]: sequences and strings have a length. *)
Definition py_len (v : value) : result nat :=
  match v with
  | VList l => Ok (length l)
  | VStr s => Ok (String.length s)
  | _ => Err (TypeError ("object of type '" ++ type_name v ++ "' has no len()"))
  end.

(** [l[i]] on a list: a negative index counts from the end. *)
Definition list_index {A : Type} (l : list A) (i : Z) : result A :=
  let j := if i <? 0 then i + Z.of_nat (length l) else i in
  if j <? 0 then Err (IndexError "list index out of range")
  else match l !! Z.to_nat j with
       | Some x => Ok x
       | None => Err (IndexError "list index out of range")
       end.

Definition chars (s : string) : list value :=
  map (fun c => VStr (String c EmptyString)) (list_ascii_of_string s).

(** [v[i]] for an integer [i]. *)
Definition py_getitem (v : value) (i : Z) : result value :=
  match v with
  | VList l => list_index l i
  | VStr s =>
      match list_index (chars s) i with
      | Ok c => Ok c
      | Err _ => Err (IndexError "string index out of range")
      end
  | _ => Err (TypeError ("'" ++ type_name v ++ "' object is not subscriptable"))
  end.

(** The items produced by iterating over [v] (as [list.extend] does). *)
Definition py_iter (v : value) : result (list value) :=
  match v with
  | VList l => Ok l
  | VStr s => Ok (chars s)
  | _ => Err (TypeError ("'" ++ type_name v ++ "' object is not iterable"))
  end.

(** [min(l)] and [max(l)]: the first item is the candidate, and a later item
    replaces it when it compares strictly below (above) it. *)
Definition py_min (l : list value) : result value :=
  match l with
  | [] => Err (ValueError "min() arg is an empty sequence")
  | x :: l' => foldM (fun m y => b ← py_lt y m; mret (if b : bool then y else m)) x l'
  end.

Definition py_max (l : list value) : result value :=
  match l with
  | [] => Err (ValueError "max() arg is an empty sequence")
  | x :: l' => foldM (fun m y => b ← py_gt y m; mret (if b : bool then y else m)) x l'
  end.

(** [dict[key]]. *)
Definition dict_get {V : Type} (d : gmap string V) (key : string) : result V :=
  match d !! key with
  | Some v => Ok v
  | None => Err (KeyError key)
  end.

(** [key in d.keys()]. *)
Definition dict_has {V : Type} (d : gmap string V) (key : string) : bool :=
  bool_decide (is_Some (d !! key)).

(** ** numpy *)

(** Conversion of an integer to binary64. *)
Definition Z2F (z : Z) : float := SF2Prim (binary_normalize 53 1024 z 0 false).

(** [float(v)] *)
Definition to_float (v : value) : result float :=
  match v with
  | VFloat x => Ok x
  | VInt z => Ok (Z2F z)
  | _ => Err (TypeError ("float() argument must be a number, not '" ++ type_name v ++ "'"))
  end.

(** A one-dimensional numpy array with its dtype.  An array of dtype int64
    holds integers, and its arithmetic wraps around; an array of dtype
    float64 holds binary64 floats; an [ObjectArray] holds anything else
    (dtype object or a string dtype; integers that do not fit int64 are
    counted here): arithmetic and [np.isnan] raise [TypeError] on it.
    Arrays of other dtypes (float32, int32, ...) are not represented. *)
Inductive ndarray : Type :=
| Int64Array (a : list Z)
| Float64Array (a : list float)
| ObjectArray (a : list value).

Inductive dtype : Type := Int64 | Float64 | Object.

(** The elements of an array, as Python values. *)
Definition elements (a : ndarray) : list value :=
  match a with
  | Int64Array l => map VInt l
  | Float64Array l => map VFloat l
  | ObjectArray l => l
  end.

(** [len(a)] *)
Definition size (a : ndarray) : nat := length (elements a).

Definition in_int64 (z : Z) : bool := (- 2 ^ 63 <=? z) && (z <? 2 ^ 63).

(** The value of an int64 operation whose exact result is [z]. *)
Definition wrap64 (z : Z) : Z := (z + 2 ^ 63) mod 2 ^ 64 - 2 ^ 63.

Definition is_VInt (v : value) : bool :=
  match v with VInt _ => true | _ => false end.
Definition is_int64 (v : value) : bool :=
  match v with VInt z => in_int64 z | _ => false end.
Definition is_number (v : value) : bool :=
  match v with VInt _ | VFloat _ => true | _ => false end.
Definition int_of (v : value) : Z :=
  match v with VInt z => z | _ => 0 end.
Definition float_of (v : value) : float :=
  match v with VInt z => Z2F z | VFloat x => x | _ => PrimFloat.nan end.

(** The dtype that [np.array] finds for the cells of a list: int64 when all
    are integers (that fit), float64 when all are numbers and one is a float,
    and for no cell at all. *)
Definition common_dtype (cells : list value) : dtype :=
  match cells with
  | [] => Float64
  | _ =>
      if forallb is_VInt cells then (if forallb is_int64 cells then Int64 else Object)
      else if forallb is_number cells then Float64
      else Object
  end.

(** The cells converted to the dtype [t]. *)
Definition astype (t : dtype) (cells : list value) : ndarray :=
  match t with
  | Int64 => Int64Array (map int_of cells)
  | Float64 => Float64Array (map float_of cells)
  | Object => ObjectArray cells
  end.

(** [np.array(l)] for a flat list [l]. *)
Definition np_array (cells : list value) : ndarray :=
  astype (common_dtype cells) cells.

Definition row_length (v : value) : option nat :=
  match v with
  | VList r => Some (length r)
  | _ => None
  end.

Definition is_VList (v : value) : bool :=
  match v with VList _ => true | _ => false end.

Definition row_cells (v : value) : list value :=
  match v with VList r => r | _ => [] end.

(** [np.array(v)[i, :]]: row [i] of a two-dimensional array, in the dtype
    that [np.array] finds for all the cells of [v].  A sequence whose items
    are not all rows of one length is not a two-dimensional array. *)
Definition np_row (v : value) (i : Z) : result ndarray :=
  match v with
  | VList (VList r0 :: rows) =>
      if forallb (fun r => bool_decide (row_length r = Some (length r0))) rows then
        match list_index (VList r0 :: rows) i with
        | Ok r => Ok (astype (common_dtype (concat (map row_cells (VList r0 :: rows))))
                        (row_cells r))
        | Err _ => Err (IndexError "index is out of bounds for axis 0")
        end
      else Err (ValueError "inhomogeneous shape")
  | VList rows =>
      if existsb is_VList rows then Err (ValueError "inhomogeneous shape")
      else Err (IndexError "too many indices for array")
  | _ => Err (IndexError "too many indices for array")
  end.

(** [np.isnan(a)] *)
Definition np_isnan (a : ndarray) : result (list bool) :=
  match a with
  | Int64Array l => Ok (map (fun _ => false) l)
  | Float64Array l => Ok (map PrimFloat.is_nan l)
  | ObjectArray _ => Err (TypeError "ufunc 'isnan' not supported for the input types")
  end.

(** [a[mask]] for a boolean mask of the length of [a]. *)
Fixpoint take_mask {A : Type} (mask : list bool) (a : list A) : list A :=
  match mask, a with
  | m :: mask', x :: a' => if m then x :: take_mask mask' a' else take_mask mask' a'
  | _, _ => []
  end.

Definition compress (mask : list bool) (a : ndarray) : ndarray :=
  match a with
  | Int64Array l => Int64Array (take_mask mask l)
  | Float64Array l => Float64Array (take_mask mask l)
  | ObjectArray l => ObjectArray (take_mask mask l)
  end.

(** [np.argwhere(mask)] for a one-dimensional [mask]: one row [[j]] per
    position [j] that holds [True] (an array of shape (n, 1)); [j0] is the
    position of the head of [mask]. *)
Fixpoint argwhere (j0 : Z) (mask : list bool) : list value :=
  match mask with
  | [] => []
  | m :: mask' =>
      if m then VList [VInt j0] :: argwhere (j0 + 1) mask' else argwhere (j0 + 1) mask'
  end.

(** [np.unique] on a column: its distinct cells in ascending order, compared
    with [<] and [==]; NaN cells sort last and count as one value. *)
Definition lt_nan_last (x y : value) : result bool :=
  if is_nan_value y then Ok (negb (is_nan_value x))
  else if is_nan_value x then Ok false
  else py_lt x y.

Definition eq_nan (x y : value) : bool :=
  py_eq x y || (is_nan_value x && is_nan_value y).

Fixpoint insert_unique (x : value) (acc : list value) : result (list value) :=
  match acc with
  | [] => Ok [x]
  | y :: acc' =>
      if eq_nan x y then Ok acc
      else
        b ← lt_nan_last x y;
        if b : bool then Ok (x :: acc)
        else r ← insert_unique x acc'; mret (y :: r)
  end.

Fixpoint np_unique (col : list value) : result (list value) :=
  match col with
  | [] => Ok []
  | x :: col' => r ← np_unique col'; insert_unique x r
  end.

(** Elementwise arithmetic on one-dimensional float64 arrays, with numpy's
    broadcasting of an array of length one. *)
Definition np_binop (f : float -> float -> float) (a b : list float) : result (list float) :=
  if Nat.eqb (length a) (length b) then Ok (zip_with f a b)
  else match a, b with
       | [x], _ => Ok (map (f x) b)
       | _, [y] => Ok (map (fun x => f x y) a)
       | _, _ => Err (ValueError "operands could not be broadcast together")
       end.

Definition no_loop (op : string) : pyexn :=
  TypeError ("unsupported operand type(s) for " ++ op).

(** The elements of a numeric array as binary64 numbers: what an operation
    with a float operand computes on. *)
Definition as_floats (op : string) (a : ndarray) : result (list float) :=
  match a with
  | Int64Array l => Ok (map Z2F l)
  | Float64Array l => Ok l
  | ObjectArray _ => Err (no_loop op)
  end.

(** [np.abs(a)] *)
Definition np_abs (a : ndarray) : result ndarray :=
  match a with
  | Int64Array l => Ok (Int64Array (map (fun z => wrap64 (Z.abs z)) l))
  | Float64Array l => Ok (Float64Array (map PrimFloat.abs l))
  | ObjectArray _ => Err (no_loop "abs()")
  end.

(** [a + k] for a Python integer [k]. *)
Definition np_add_int (a : ndarray) (k : Z) : result ndarray :=
  match a with
  | Int64Array l => Ok (Int64Array (map (fun z => wrap64 (z + k)) l))
  | Float64Array l => Ok (Float64Array (map (fun x => x + Z2F k)%float l))
  | ObjectArray _ => Err (no_loop "+")
  end.

(** [a**2] *)
Definition np_square (a : ndarray) : result ndarray :=
  match a with
  | Int64Array l => Ok (Int64Array (map (fun z => wrap64 (z * z)) l))
  | Float64Array l => Ok (Float64Array (map (fun x => x * x)%float l))
  | ObjectArray _ => Err (no_loop "**")
  end.

(** [(a < c).astype(int)]. *)
Definition below (c : float) (a : list float) : list Z :=
  map (fun x => if PrimFloat.ltb x c then 1 else 0) a.

(** How an attribute of an object holds a sequence: as a Python value (a
    list), or as a numpy array. *)
Inductive attr : Type :=
| PyValue (v : value)
| NdArray (a : ndarray).

(** [len(x)] *)
Definition attr_len (x : attr) : result nat :=
  match x with
  | PyValue v => py_len v
  | NdArray a => Ok (size a)
  end.

(** [np.array(x)]; a value that is no list makes an array without
    dimension, which broadcasts as an array of length one does. *)
Definition asarray (x : attr) : ndarray :=
  match x with
  | NdArray a => a
  | PyValue (VList l) => np_array l
  | PyValue v => np_array [v]
  end.

(** The array operand of an arithmetic operation of numpy; a Python list or
    string has no such operation, and [msg] is the [TypeError] raised. *)
Definition operand (msg : string) (x : attr) : result ndarray :=
  match x with
  | NdArray a => Ok a
  | PyValue _ => Err (TypeError msg)
  end.

(** ** class Beam *)

(** The instance dictionary of a beam, and the ground-scatter flags that
    [gs_estimation] attaches to it (keyed by the index of the criterion). *)
Record Beam : Type := mk_Beam {
  attrs : gmap string value;
  gsflg : option (gmap Z (list Z))
}.

(** [Beam()] *)
Definition Beam_init : Beam := mk_Beam ∅ None.

Definition setattr (self : Beam) (p : string) (v : value) : Beam :=
  mk_Beam (<[p := v]> (attrs self)) (gsflg self).

Definition getattr (self : Beam) (p : string) : result value :=
  match attrs self !! p with
  | Some v => Ok v
  | None => Err (AttributeError p)
  end.

Module Beam.

(** [Beam.set(self, time, d, s_params, v_params, k=None)] *)
Definition set_scalar (d : gmap string value) (k : option Z)
    (self : Beam) (p : string) : result Beam :=
  match d !! p with
  | Some x =>
      if String.eqb p "scan" && py_ne x (VInt 0) then Ok (setattr self p (VInt 1))
      else match k with
           | None => Ok (setattr self p x)
           | Some i => y ← py_getitem x i; mret (setattr self p y)
           end
  | None => Ok (setattr self p VNone)
  end.

Definition set_vector (d : gmap string value) (self : Beam) (p : string) : result Beam :=
  match d !! p with
  | Some x => Ok (setattr self p x)
  | None => Ok (setattr self p (VList []))
  end.

Definition set (self : Beam) (time : value) (d : gmap string value)
    (s_params v_params : list string) (k : option Z) : result Beam :=
  self ← foldM (set_scalar d k) self s_params;
  self ← foldM (set_vector d) self v_params;
  mret (setattr self "time" time).

(** [Beam.set_nc(self, time, d, i, s_params, v_params)] *)
Definition set_nc_scalar (d : gmap string value) (i : Z)
    (self : Beam) (p : string) : result Beam :=
  match d !! p with
  | Some x => y ← py_getitem x i; mret (setattr self p y)
  | None => Ok (setattr self p VNone)
  end.

Definition set_nc_vector (d : gmap string value) (i : Z) (v_params : list string)
    (self : Beam) (p : string) : result Beam :=
  match d !! p with
  | Some x =>
      row ← np_row x i;
      let self := setattr self p (VList (elements row)) in
      self ← (if negb (bool_decide ("slist" ∈ v_params)) && String.eqb p "v" then
                isnan ← np_isnan row;
                mret (setattr self "slist" (VList (argwhere 0 (map negb isnan))))
              else Ok self);
      isnan ← np_isnan row;
      mret (setattr self p (VList (elements (compress (map negb isnan) row))))
  | None => Ok (setattr self p (VList []))
  end.

Definition set_nc (self : Beam) (time : value) (d : gmap string value) (i : Z)
    (s_params v_params : list string) : result Beam :=
  self ← foldM (set_nc_scalar d i) self s_params;
  self ← foldM (set_nc_vector d i v_params) self v_params;
  mret (setattr self "time" time).

(** [Beam.gs_estimation(self)].  Its arithmetic depends on how the beam
    holds [v] and [w_l]: [get] reads an attribute of [self], as a Python
    value or as a numpy array. *)
Definition has_both (get : string -> result attr) : result bool :=
  v ← get "v";
  n ← attr_len v;
  if Nat.ltb 0 n then
    w ← get "w_l";
    m ← attr_len w;
    mret (Nat.ltb 0 m)
  else Ok false.

(** [np.abs(self.v)], as binary64 numbers *)
Definition abs_v (get : string -> result attr) : result (list float) :=
  v ← get "v";
  a ← np_abs (asarray v);
  as_floats "+" a.

(** [self.w_l/3.], [self.w_l*0.4] and [0.139*self.w_l] *)
Definition scaled_w (get : string -> result attr) (msg : string) (f : float -> float)
    : result (list float) :=
  w ← get "w_l";
  a ← operand msg w;
  wf ← as_floats "*" a;
  mret (map f wf).

(** [(|v| + w/3.) < 30.] *)
Definition criterion0 (get : string -> result attr) : result (list Z) :=
  a ← abs_v get;
  q ← scaled_w get "unsupported operand type(s) for /: 'list' and 'float'"
        (fun x => x / 3)%float;
  s ← np_binop PrimFloat.add a q;
  mret (below 30 s).

(** [(|v| + w*0.4) < 60.] *)
Definition criterion1 (get : string -> result attr) : result (list Z) :=
  a ← abs_v get;
  q ← scaled_w get "can't multiply sequence by non-int of type 'float'"
        (fun x => x * 0.4)%float;
  s ← np_binop PrimFloat.add a q;
  mret (below 60 s).

(** [(|v| - 0.139*w + 0.00113*w**2) < 33.1] *)
Definition criterion2 (get : string -> result attr) : result (list Z) :=
  a ← abs_v get;
  q ← scaled_w get "can't multiply sequence by non-int of type 'float'"
        (fun x => 0.139 * x)%float;
  d ← np_binop PrimFloat.sub a q;
  w ← get "w_l";
  wa ← operand "unsupported operand type(s) for ** or pow(): 'list' and 'int'" w;
  sq ← np_square wa;
  sf ← as_floats "*" sq;
  s ← np_binop PrimFloat.add d (map (fun x => 0.00113 * x)%float sf);
  mret (below 33.1 s).

(** [(np.array(w) - (50 - (0.7*(np.array(v)+5)**2))) < 0] *)
Definition criterion3 (get : string -> result attr) : result (list Z) :=
  w ← get "w_l";
  v ← get "v";
  v5 ← np_add_int (asarray v) 5;
  sq ← np_square v5;
  sf ← as_floats "*" sq;
  wf ← as_floats "-" (asarray w);
  s ← np_binop PrimFloat.sub wf (map (fun x => 50 - 0.7 * x)%float sf);
  mret (below 0 s).

Definition gs_guarded (crit : (string -> result attr) -> result (list Z))
    (get : string -> result attr) (i : Z) (g : gmap Z (list Z))
    : result (gmap Z (list Z)) :=
  c ← has_both get;
  if c : bool then
    fl ← crit get;
    mret (<[i := fl]> g)
  else Ok g.

(** The dictionary [self.gsflg] that [gs_estimation] builds. *)
Definition gs_flags (get : string -> result attr) : result (gmap Z (list Z)) :=
  let g : gmap Z (list Z) := ∅ in
  g ← gs_guarded criterion0 get 0 g;
  g ← gs_guarded criterion1 get 1 g;
  g ← gs_guarded criterion2 get 2 g;
  fl ← criterion3 get;
  mret (<[3 := fl]> g).

(** [gs_estimation] on a beam whose attributes are Python values, as
    [Beam.set] stores them from a dictionary of lists. *)
Definition gs_estimation (self : Beam) : result Beam :=
  g ← gs_flags (fun p => x ← getattr self p; mret (PyValue x));
  mret (mk_Beam (attrs self) (Some g)).

(** [Beam.copy(self, bm)]: every entry of the instance dictionary of [bm],
    the flags of [gs_estimation] among them, is set on [self]. *)
Definition copy (self bm : Beam) : Beam :=
  let self := map_fold (fun p v self => setattr self p v) self (attrs bm) in
  match gsflg bm with
  | Some g => mk_Beam (attrs self) (Some g)
  | None => self
  end.

End Beam.

(** ** class Gate *)

(** The instance dictionary of a gate. *)
Record Gate : Type := mk_Gate {
  gate_attrs : gmap string value
}.

Module Gate.

(** The body of the loop of [Gate.__init__]: parameter [p] of the beam at
    index [i], or NaN when the sequence is not longer than [i]. *)
Definition set_param (bm : Beam) (i : Z) (self : Gate) (p : string) : result Gate :=
  a ← getattr bm p;
  n ← py_len a;
  if i <? Z.of_nat n then
    a ← getattr bm p;
    x ← py_getitem a i;
    mret (mk_Gate (<[p := x]> (gate_attrs self)))
  else Ok (mk_Gate (<[p := nan]> (gate_attrs self))).

(** [getattr(bm, "gsflg")[gflg_type]] *)
Definition flags_of (bm : Beam) (gflg_type : Z) : result (list Z) :=
  match gsflg bm with
  | Some g =>
      match g !! gflg_type with
      | Some fl => Ok fl
      | None => Err (KeyError (pretty gflg_type))
      end
  | None => Err (AttributeError "gsflg")
  end.

(** [Gate(bm, i, params, gflg_type)] *)
Definition __init__ (bm : Beam) (i : Z) (params : list string) (gflg_type : Z)
    : result Gate :=
  self ← foldM (set_param bm i) (mk_Gate ∅) params;
  if 0 <=? gflg_type then
    fl ← flags_of bm gflg_type;
    if Nat.ltb 0 (length fl) then
      fl ← flags_of bm gflg_type;
      x ← list_index fl i;
      mret (mk_Gate (<["gflg" := VInt x]> (gate_attrs self)))
    else Ok self
  else Ok self.

End Gate.

(** ** class Scan *)

(** [f] and [nsky] are attributes that exist only once [update_time] has run. *)
Record Scan : Type := mk_Scan {
  stime : value;
  etime : value;
  s_mode : value;
  beams : list Beam;
  f : option value;
  nsky : option value
}.

(** [Scan(stime, etime, s_mode)] *)
Definition Scan_init (stime etime s_mode : value) : Scan :=
  mk_Scan stime etime s_mode [] None None.

(** [sc.beams.append(b)] and [sc.beams.extend(bs)] *)
Definition beams_extend (sc : Scan) (bs : list Beam) : Scan :=
  mk_Scan (stime sc) (etime sc) (s_mode sc) (beams sc ++ bs) (f sc) (nsky sc).
Definition beams_append (sc : Scan) (b : Beam) : Scan := beams_extend sc [b].

Module Scan.
Section WithMean.

(** [numpy.mean] on a list of attribute values. *)
Variable np_mean : list value -> result value.

Definition avg_fields (b : Beam) : result (value * value) :=
  x ← getattr b "tfreq";
  y ← getattr b "noise.sky";
  mret (x, y).

(** [Scan._populate_avg_params(self)] *)
Definition _populate_avg_params (self : Scan) : result Scan :=
  fn ← mapM avg_fields (beams self);
  mf ← np_mean (map fst fn);
  mn ← np_mean (map snd fn);
  mret (mk_Scan (stime self) (etime self) (s_mode self) (beams self) (Some mf) (Some mn)).

Definition beam_times (self : Scan) : result (list value) :=
  mapM (fun b => getattr b "time") (beams self).

(** [Scan.update_time(self)] *)
Definition update_time (self : Scan) : result Scan :=
  ts ← beam_times self;
  lo ← py_min ts;
  ts ← beam_times self;
  hi ← py_max ts;
  _populate_avg_params
    (mk_Scan lo hi (s_mode self) (beams self) (f self) (nsky self)).

End WithMean.
End Scan.

(** ** class FetchData *)

(** Of the instance only [date_range = [start, end]] is read by the methods
    modelled here. *)
Record FetchData : Type := mk_FetchData {
  date_range : datetime * datetime
}.

(** [datetime.datetime(yr, mo, dy, hr, mt, sc, us)] *)
Definition as_int (v : value) : result Z :=
  match v with
  | VInt z => Ok z
  | _ => Err (TypeError ("an integer is required (got type " ++ type_name v ++ ")"))
  end.

Definition datetime_new (yr mo dy hr mt sc us : value) : result datetime :=
  yr ← as_int yr; mo ← as_int mo; dy ← as_int dy; hr ← as_int hr;
  mt ← as_int mt; sc ← as_int sc; us ← as_int us;
  let t := mk_dt yr mo dy hr mt sc us in
  if datetime_valid t then Ok t
  else Err (ValueError "datetime field is out of range").

(** ** Tables *)

(** A pandas [DataFrame]: its columns by name.  [from_records] accepts a
    dictionary of columns only when they all have one length. *)
Abbreviation DataFrame := (gmap string (list value)) (only parsing).

Definition same_length (o : gmap string (list value)) : bool :=
  match map_to_list o with
  | [] => true
  | (_, c) :: _ => bool_decide (map_Forall (fun _ c' => length c' = length c) o)
  end.

(** [pd.DataFrame.from_records(o)] *)
Definition from_records (o : gmap string (list value)) : result DataFrame :=
  if same_length o then Ok o
  else Err (ValueError "All arrays must be of the same length").

(** [df.name]: a column read as an attribute of the frame. *)
Definition df_column (df : DataFrame) (name : string) : result (list value) :=
  match df !! name with
  | Some c => Ok c
  | None => Err (AttributeError name)
  end.

(** The entries of a column at the rows where the mask holds. *)
Fixpoint select (mask : list bool) (c : list value) : list value :=
  match mask, c with
  | m :: mask', x :: c' => if m then x :: select mask' c' else select mask' c'
  | _, _ => []
  end.

(** [df[df.name == v]] *)
Definition eq_mask (col : list value) (v : value) : list bool :=
  map (fun c => py_eq c v) col.

Definition df_where (df : DataFrame) (name : string) (v : value) : result DataFrame :=
  col ← df_column df name;
  mret (select (eq_mask col v) <$> df).

(** [dict(zip(cols, ([] for _ in cols)))]: every key gets an empty list of
    its own. *)
Definition new_table (cols : list string) : gmap string (list value) :=
  foldr (fun p o => <[p := []]> o) ∅ cols.

(** [_o[p].extend(xs)] *)
Definition col_extend (o : gmap string (list value)) (p : string)
    (xs : list value) : result (gmap string (list value)) :=
  c ← dict_get o p;
  mret (<[p := c ++ xs]> o).

Module FetchData.
Section WithMean.

Variable np_mean : list value -> result value.

(** The timestamp assembled from a raw record. *)
Definition record_time (d : gmap string value) : result datetime :=
  yr ← dict_get d "time.yr"; mo ← dict_get d "time.mo"; dy ← dict_get d "time.dy";
  hr ← dict_get d "time.hr"; mt ← dict_get d "time.mt"; sc ← dict_get d "time.sc";
  us ← dict_get d "time.us";
  datetime_new yr mo dy hr mt sc us.

(** [time >= self.date_range[0] and time <= self.date_range[1]] *)
Definition in_window (self : FetchData) (t : datetime) : bool :=
  dt_leb (fst (date_range self)) t && dt_leb t (snd (date_range self)).

(** The body of the first loop of [_parse_data]. *)
Definition parse_record (self : FetchData) (s_params v_params : list string)
    (_b : list Beam) (d : gmap string value) : result (list Beam) :=
  time ← record_time d;
  if in_window self time then
    bm ← Beam.set Beam_init (VTime time) d s_params v_params None;
    mret (_b ++ [bm])
  else Ok _b.

(** [enumerate(l)] *)
Definition enumerate {A : Type} (l : list A) : list (Z * A) :=
  imap (fun i x => (Z.of_nat i, x)) l.

(** The test [d.scan == 1 and d.time != _b[_ix].time]. *)
Definition starts_scan (_b : list Beam) (_ix : Z) (d : Beam) : result bool :=
  flag ← getattr d "scan";
  if py_eq flag (VInt 1) then
    t ← getattr d "time";
    p ← list_index _b _ix;
    tp ← getattr p "time";
    mret (py_ne t tp)
  else Ok false.

(** The body of the second loop of [_parse_data]; the state is [(_s, sc)]. *)
Definition scan_step (_b : list Beam) (scan_prop : gmap string value)
    (st : list Scan * Scan) (ixd : Z * Beam) : result (list Scan * Scan) :=
  let '(_s, sc) := st in
  let '(_ix, d) := ixd in
  new ← starts_scan _b _ix d;
  if new : bool then
    sc ← Scan.update_time np_mean sc;
    let _s := _s ++ [sc] in
    mode ← dict_get scan_prop "s_mode";
    mret (_s, beams_append (Scan_init VNone VNone mode) d)
  else Ok (_s, beams_append sc d).

(** [FetchData._parse_data(self, data, s_params, v_params, by, scan_prop)] *)
Definition _parse_data (self : FetchData) (data : list (gmap string value))
    (s_params v_params : list string) (by_ : string)
    (scan_prop : gmap string value) : result (list Beam * list Scan) :=
  _b ← foldM (parse_record self s_params v_params) [] data;
  if String.eqb by_ "scan" then
    mode ← dict_get scan_prop "s_mode";
    let sc := Scan_init VNone VNone mode in
    b0 ← list_index _b 0;
    let sc := beams_append sc b0 in
    '(_s, sc) ← foldM (scan_step _b scan_prop) ([], sc) (enumerate (tail _b));
    mret (_b, _s ++ [sc])
  else Ok (_b, []).

(** [_o[p].extend(getattr(b, p))] *)
Definition extend_vector (b : Beam) (o : gmap string (list value)) (p : string)
    : result (gmap string (list value)) :=
  c ← dict_get o p;
  v ← getattr b p;
  xs ← py_iter v;
  mret (<[p := c ++ xs]> o).

(** [_o[p].extend([getattr(b, p)]*l)] *)
Definition extend_scalar (b : Beam) (l : nat) (o : gmap string (list value)) (p : string)
    : result (gmap string (list value)) :=
  c ← dict_get o p;
  v ← getattr b p;
  mret (<[p := c ++ replicate l v]> o).

(** The rows that one beam adds to the columns. *)
Definition beam_rows (s_params v_params : list string)
    (o : gmap string (list value)) (b : Beam) : result (gmap string (list value)) :=
  sl ← getattr b "slist";
  l ← py_len sl;
  o ← foldM (extend_vector b) o v_params;
  foldM (extend_scalar b l) o s_params.

(** The padding loop: every column shorter than [L = len(_o["slist"])] is
    extended by NaN up to [L]. *)
Definition pad_column (L : nat) (o : gmap string (list value)) (p : string)
    : result (gmap string (list value)) :=
  c ← dict_get o p;
  mret (if Nat.ltb (length c) L
        then <[p := c ++ replicate (L - length c)%nat nan]> o
        else o).

Definition pad_columns (cols : list string) (o : gmap string (list value))
    : result (gmap string (list value)) :=
  sl ← dict_get o "slist";
  foldM (pad_column (length sl)) o cols.

(** [FetchData.convert_to_pandas(self, beams, s_params, v_params)] *)
Definition convert_to_pandas (beams : list Beam) (s_params v_params : list string)
    : result DataFrame :=
  let _o := new_table (s_params ++ v_params) in
  _o ← foldM (beam_rows s_params v_params) _o beams;
  _o ← pad_columns (s_params ++ v_params) _o;
  from_records _o.

Definition new_cols : list string := ["scnum"; "sbnum"].

(** The rows that beam [idh] of scan number [scnum] adds to the columns. *)
Definition scan_beam_rows (s_params v_params : list string) (scnum : Z)
    (o : gmap string (list value)) (hb : Z * Beam) : result (gmap string (list value)) :=
  let '(idh, b) := hb in
  sl ← getattr b "slist";
  l ← py_len sl;
  o ← foldM (extend_vector b) o v_params;
  o ← foldM (extend_scalar b l) o s_params;
  o ← col_extend o "scnum" (replicate l (VInt scnum));
  col_extend o "sbnum" (replicate l (VInt idh)).

(** One round of the outer loop: the rows of a scan, then the padding. *)
Definition scan_rows (s_params v_params : list string) (start_scnum : Z)
    (o : gmap string (list value)) (ns : Z * Scan) : result (gmap string (list value)) :=
  let '(idn, s) := ns in
  o ← foldM (scan_beam_rows s_params v_params (idn + start_scnum)) o (enumerate (beams s));
  pad_columns (s_params ++ v_params ++ new_cols) o.

(** [FetchData.scans_to_pandas(self, scans, s_params, v_params, start_scnum)] *)
Definition scans_to_pandas (scans : list Scan) (s_params v_params : list string)
    (start_scnum : Z) : result DataFrame :=
  let _o := new_table (s_params ++ v_params ++ new_cols) in
  _o ← foldM (scan_rows s_params v_params start_scnum) _o (enumerate scans);
  from_records _o.

(** [d[p] = d[p][0]] *)
Definition first_row (d : gmap string value) (p : string) : result (gmap string value) :=
  x ← dict_get d p;
  y ← py_getitem x 0;
  mret (<[p := y]> d).

(** The body of the loop of [pandas_to_beams]: the beam of the rows whose
    [bmnum] equals [bm]. *)
Definition beam_of_group (df : DataFrame) (s_params v_params : list string)
    (bm : value) : result Beam :=
  o ← df_where df "bmnum" bm;
  let d : gmap string value := VList <$> o in
  d ← foldM first_row d s_params;
  times ← df_column o "time";
  t ← list_index times 0;
  Beam.set Beam_init t d s_params v_params None.

(** [FetchData.pandas_to_beams(self, df, s_params, v_params)] *)
Definition pandas_to_beams (df : DataFrame) (s_params v_params : list string)
    : result (list Beam) :=
  col ← df_column df "bmnum";
  us ← np_unique col;
  mapM (beam_of_group df s_params v_params) us.

(** The inner loop of [pandas_to_scans]: the beams of sub-scan number [bn]. *)
Definition sub_beams (s_params v_params : list string) (o : DataFrame)
    (bs : list Beam) (bn : value) : result (list Beam) :=
  ox ← df_where o "sbnum" bn;
  b ← pandas_to_beams ox s_params v_params;
  mret (bs ++ b).

(** The outer loop of [pandas_to_scans]; the state is [(bmax, scans)]. *)
Definition scan_of_group (df : DataFrame) (smode : value) (s_params v_params : list string)
    (st : nat * list Scan) (sn : value) : result (nat * list Scan) :=
  let '(bmax, scans) := st in
  o ← df_where df "scnum" sn;
  col ← df_column o "sbnum";
  us ← np_unique col;
  bs ← foldM (sub_beams s_params v_params o) [] us;
  let bmax := if Nat.ltb bmax (length bs) then length bs else bmax in
  let sc := beams_extend (Scan_init VNone VNone smode) bs in
  sc ← Scan.update_time np_mean sc;
  mret (bmax, scans ++ [sc]).

Definition reconstruct_scans (df : DataFrame) (smode : value)
    (s_params v_params : list string) : result (nat * list Scan) :=
  col ← df_column df "scnum";
  us ← np_unique col;
  foldM (scan_of_group df smode s_params v_params) (0%nat, []) us.

(** The three-scan heuristic at the end of [pandas_to_scans]. *)
Definition merge_first_scans (scans : list Scan) : result (list Scan) :=
  s0 ← list_index scans 0;
  s1 ← list_index scans 1;
  s2 ← list_index scans 2;
  mscans ← (if Nat.eqb (length (beams s0) + length (beams s1)) (length (beams s2)) then
              let sc := Scan_init VNone VNone (s_mode s0) in
              let sc := beams_extend sc (beams s0) in
              let sc := beams_extend sc (beams s1) in
              sc ← Scan.update_time np_mean sc;
              mret ([sc] ++ drop 2 scans)
            else Ok []);
  mret (if Nat.ltb 0 (length mscans) then mscans else scans).

(** [FetchData.pandas_to_scans(self, df, smode, s_params, v_params)] *)
Definition pandas_to_scans (df : DataFrame) (smode : value)
    (s_params v_params : list string) : result (list Scan * nat) :=
  '(bmax, scans) ← reconstruct_scans df smode s_params v_params;
  scans ← merge_first_scans scans;
  mret (scans, bmax).

End WithMean.
End FetchData.

(** * Definitions used in the statements *)

(** ** Beam construction *)

(** The value that [Beam.set] stores for a scalar field and for a vector
    field of the record [d]. *)
Definition scalar_of (d : gmap string value) (p : string) : value :=
  match d !! p with
  | Some x => if String.eqb p "scan" && py_ne x (VInt 0) then VInt 1 else x
  | None => VNone
  end.

Definition vector_of (d : gmap string value) (p : string) : value :=
  match d !! p with
  | Some x => x
  | None => VList []
  end.

(** Successive [setattr]s of fields whose value is a function of the name. *)
Definition assign (g : string -> value) (l : list string) (m : gmap string value)
    : gmap string value :=
  foldl (fun m p => <[p := g p]> m) m l.

(** A raw record that holds only the field [scan]. *)
Definition raw_scan (z : Z) : gmap string value := {["scan" := VInt z]}.

(** The raw [scan] value of the record is one that [Beam.set] stores as it is. *)
Definition scan_is_flag (d : gmap string value) : Prop :=
  forall x, d !! "scan" = Some x -> py_ne x (VInt 0) = true -> x = VInt 1.

(** The entries of a numeric array that are not NaN, in their order. *)
Definition without_nan (row : ndarray) : option (list value) :=
  match row with
  | Int64Array l => Some (map VInt l)
  | Float64Array l => Some (map VFloat (List.filter (fun x => negb (PrimFloat.is_nan x)) l))
  | ObjectArray _ => None
  end.

(** Equivalent inputs of the two construction paths: row [i] of the columnar
    record set [dc] holds the record [d].  A scalar of [d] is the entry of
    its column at [i]; a vector of [d] is row [i] of its array, an array of
    numbers, without the NaN entries (the entries are those of the array:
    floats when the array holds a float or a NaN); a field absent from one
    is absent from the other. *)
Definition scalar_agrees (d dc : gmap string value) (i : Z) (p : string) : Prop :=
  match d !! p with
  | Some x => exists col, dc !! p = Some col /\ py_getitem col i = Ok x
  | None => dc !! p = None
  end.

Definition vector_agrees (d dc : gmap string value) (i : Z) (p : string) : Prop :=
  match d !! p with
  | Some x => exists arr row kept,
      dc !! p = Some arr /\ np_row arr i = Ok row /\ without_nan row = Some kept /\
      x = VList kept
  | None => dc !! p = None
  end.

Definition equivalent_inputs (d dc : gmap string value) (i : Z)
    (s_params v_params : list string) : Prop :=
  (forall p, p ∈ s_params -> scalar_agrees d dc i p) /\
  (forall p, p ∈ v_params -> vector_agrees d dc i p).

(** The two paths build the same beam. *)
Definition same_beam (time : value) (d dc : gmap string value) (i : Z)
    (s_params v_params : list string) : Prop :=
  exists b, Beam.set Beam_init time d s_params v_params None = Ok b /\
            Beam.set_nc Beam_init time dc i s_params v_params = Ok b.

(** A record with one velocity, and the columnar set whose row 0 holds it
    in an array two gates wide. *)
Definition rec_v : gmap string value := {["v" := VList [VFloat 12.5]]}.
Definition col_v : gmap string value := {["v" := VList [VList [VFloat 12.5; nan]]]}.

(** A record with the raw scan flag 7, and the columnar set that holds it. *)
Definition col_scan (z : Z) : gmap string value := {["scan" := VList [VInt z]]}.

(** A record with its scan flag, one velocity at gate 3, and the columnar
    set whose row 1 holds it (row 0 holds another beam). *)
Definition rec_row : gmap string value :=
  <["scan" := VInt 1]> (<["v" := VList [VFloat 12.5]]> (<["slist" := VList [VFloat 3]]> ∅)).

Definition col_rows : gmap string value :=
  <["scan" := VList [VInt 0; VInt 1]]>
    (<["v" := VList [VList [VFloat 7; VFloat 8]; VList [VFloat 12.5; nan]]]>
       (<["slist" := VList [VList [VInt 0; VInt 1]; VList [VInt 3; nan]]]> ∅)).

(** ** Ground scatter *)




(** A beam that holds only the one-element lists [v = [v]] and [w_l = [w]]. *)
Definition beam_vw (v w : value) : Beam :=
  mk_Beam (<["v" := VList [v]]> (<["w_l" := VList [w]]> ∅)) None.

(** ** Records and beams *)

(** The beam that [_parse_data] builds from a record [d] whose assembled
    timestamp is [t]: what [Beam.set] assigns on a fresh [Beam()]. *)
Definition beam_of_record (s_params v_params : list string)
    (t : datetime) (d : gmap string value) : Beam :=
  mk_Beam (<["time" := VTime t]>
             (assign (vector_of d) v_params (assign (scalar_of d) s_params ∅)))
          None.

(** The beams of the records whose timestamp lies in the window of [self],
    in the order of the records; [tds] pairs each record with its timestamp. *)
Definition kept_beams (self : FetchData) (s_params v_params : list string)
    (tds : list (datetime * gmap string value)) : list Beam :=
  map (fun td => beam_of_record s_params v_params (fst td) (snd td))
      (List.filter (fun td => FetchData.in_window self (fst td)) tds).

(** The order of timestamps, written out: [a] is not later than [b] when
    their fields, from the year down to the microsecond, are equal, or the
    first field that differs is smaller in [a]. *)
Fixpoint lex_le (a b : list Z) : Prop :=
  match a, b with
  | [], _ => True
  | _ :: _, [] => False
  | x :: a', y :: b' => x < y \/ (x = y /\ lex_le a' b')
  end.

Definition not_later (a b : datetime) : Prop :=
  lex_le [dt_yr a; dt_mo a; dt_dy a; dt_hr a; dt_mt a; dt_sc a; dt_us a]
         [dt_yr b; dt_mo b; dt_dy b; dt_hr b; dt_mt b; dt_sc b; dt_us b].

(** [lo <= t <= hi], both ends included. *)
Definition within (lo hi t : datetime) : Prop := not_later lo t /\ not_later t hi.

#[global] Instance lex_le_dec (a b : list Z) : Decision (lex_le a b).
Proof. revert b. induction a as [|x a IH]; intros [|y b]; cbn [lex_le]; apply _. Defined.

#[global] Instance within_dec (lo hi t : datetime) : Decision (within lo hi t).
Proof. unfold within, not_later. apply _. Defined.

(** The beams of the records whose timestamp [t] satisfies [lo <= t <= hi],
    in the order of the records. *)
Definition beams_within (lo hi : datetime) (s_params v_params : list string)
    (tds : list (datetime * gmap string value)) : list Beam :=
  map (fun td => beam_of_record s_params v_params (fst td) (snd td))
      (List.filter (fun td => bool_decide (within lo hi (fst td))) tds).

(** An instance of [numpy.mean] for closed examples: the numbers are summed
    from left to right in binary64 and divided by their count. *)
Definition mean_seq (l : list value) : result value :=
  xs ← mapM to_float l;
  mret (VFloat (fold_left PrimFloat.add xs 0%float / Z2F (Z.of_nat (length xs)))%float).

(** The failure that the specification asks of an empty segmentation. *)
Definition no_data_error {A : Type} (r : result A) : Prop :=
  exists e, r = Err e /\ exn_message e = "no data to segment".

(** A session window and the default [scan_prop] of [fetch_data]. *)
Definition window_2015 : FetchData :=
  mk_FetchData (mk_dt 2015 3 17 3 0 0 0, mk_dt 2015 3 17 3 20 0 0).

Definition default_scan_prop : gmap string value :=
  <["s_time" := VInt 1]> (<["s_mode" := VStr "normal"]> ∅).

(** A raw record at 2015-03-17 03:mt:sc with beam number, scan flag,
    frequency, sky noise and one gate. *)
Definition record_at (mt sc : Z) (bmnum scan : Z) : gmap string value :=
  list_to_map
    [("time.yr", VInt 2015); ("time.mo", VInt 3); ("time.dy", VInt 17);
     ("time.hr", VInt 3); ("time.mt", VInt mt); ("time.sc", VInt sc);
     ("time.us", VInt 0); ("bmnum", VInt bmnum); ("scan", VInt scan);
     ("tfreq", VInt 10500); ("noise.sky", VFloat 2.5);
     ("slist", VList [VInt 4]); ("v", VList [VFloat 12.5])].

Definition fields_s : list string := ["bmnum"; "noise.sky"; "tfreq"; "scan"].
Definition fields_v : list string := ["v"; "slist"].

(** Four records: the first at the start of the window, the third at its
    end (each with the scan flag set), the second between them, and the
    fourth after the window. *)
Definition records_4 : list (gmap string value) :=
  [record_at 0 0 0 1; record_at 1 3 1 0; record_at 20 0 0 1; record_at 30 0 1 0].

Definition times_4 : list datetime :=
  [mk_dt 2015 3 17 3 0 0 0; mk_dt 2015 3 17 3 1 3 0;
   mk_dt 2015 3 17 3 20 0 0; mk_dt 2015 3 17 3 30 0 0].

(** The beam of one record inside the window. *)
Definition beam_1 : Beam :=
  beam_of_record fields_s fields_v (mk_dt 2015 3 17 3 1 0 0) (record_at 1 0 0 1).

(** ** Segmentation *)

(** A scan on which [update_time] has not run: no time bounds, no averages. *)
Definition not_finalized (sc : Scan) : Prop :=
  stime sc = VNone /\ etime sc = VNone /\ f sc = None /\ nsky sc = None.

(** A scan as [update_time] leaves it. *)
Definition finalized (np_mean : list value -> result value) (sc : Scan) : Prop :=
  exists sc0, Scan.update_time np_mean sc0 = Ok sc.

(** The boundary test of the segmentation on attribute values: the flag of
    [d] equals 1 and its timestamp differs from that of the beam before it. *)
Definition boundary (prev d : Beam) : bool :=
  match attrs d !! "scan" with
  | Some flag =>
      py_eq flag (VInt 1) &&
      match attrs d !! "time", attrs prev !! "time" with
      | Some t, Some tp => py_ne t tp
      | _, _ => false
      end
  | None => false
  end.

(** The segmentation in the words of the specification: the first beam opens
    a scan; each later beam either starts a new scan (at a boundary) or joins
    the open scan; the open scan is emitted at the end.  [cur] holds the
    beams of the open scan and [prev] is the beam before [rest]. *)
Fixpoint group_scans (prev : Beam) (cur rest : list Beam) : list (list Beam) :=
  match rest with
  | [] => [cur]
  | d :: rest' =>
      if boundary prev d then cur :: group_scans d [d] rest'
      else group_scans d (cur ++ [d]) rest'
  end.

Definition segments (_b : list Beam) : list (list Beam) :=
  match _b with
  | [] => []
  | b0 :: rest => group_scans b0 [b0] rest
  end.

(** The beams and the scans that [_parse_data] returns for the four records. *)
Definition beams_4 : list Beam :=
  match FetchData._parse_data mean_seq window_2015 records_4 fields_s fields_v "scan"
          default_scan_prop with
  | Ok (_b, _) => _b
  | Err _ => []
  end.

Definition scans_4 : list Scan :=
  match FetchData._parse_data mean_seq window_2015 records_4 fields_s fields_v "scan"
          default_scan_prop with
  | Ok (_, _s) => _s
  | Err _ => []
  end.

(** ** The three-scan heuristic *)

(** The scan that the heuristic builds from the first two scans, before
    [update_time] runs on it. *)
Definition merged (s0 s1 : Scan) : Scan :=
  mk_Scan VNone VNone (s_mode s0) (beams s0 ++ beams s1) None None.

(** Synthetic scans: [n] one-gate beams numbered 0 .. n-1, one per minute
    from minute [start]; and the table of a list of such scans. *)
Definition fields_st : list string := fields_s ++ ["time"].

Definition scan_of (start : Z) (n : nat) : Scan :=
  mk_Scan VNone VNone (VStr "normal")
    (map (fun j => beam_of_record fields_s fields_v
                     (mk_dt 2015 3 17 3 (start + j) 0 0)
                     (record_at (start + j) 0 j (if j =? 0 then 1 else 0)))
         (seqZ 0 (Z.of_nat n)))
    None None.

Definition table_of (scans : list Scan) : gmap string (list value) :=
  match FetchData.scans_to_pandas scans fields_st fields_v 0 with
  | Ok df => df
  | Err _ => ∅
  end.

Definition table_235 : gmap string (list value) :=
  table_of [scan_of 0 2; scan_of 2 3; scan_of 5 5; scan_of 10 2].
Definition table_236 : gmap string (list value) :=
  table_of [scan_of 0 2; scan_of 2 3; scan_of 5 6].
Definition table_23 : gmap string (list value) :=
  table_of [scan_of 0 2; scan_of 2 3].

(** The scans that the loop of [pandas_to_scans] rebuilds from a table. *)
Definition rebuilt (df : gmap string (list value)) : list Scan :=
  match FetchData.reconstruct_scans mean_seq df (VStr "normal") fields_st fields_v with
  | Ok (_, scans) => scans
  | Err _ => []
  end.

Definition beam_counts (scans : list Scan) : list nat :=
  map (fun s => length (beams s)) scans.

Definition scan_at (df : gmap string (list value)) (i : nat) : Scan :=
  default (Scan_init VNone VNone VNone) (rebuilt df !! i).

(** The behaviour that the specification asks of the heuristic on a table
    with fewer than three scans: the rebuilt scans are returned as they are. *)
Definition heuristic_is_noop (df : gmap string (list value)) : Prop :=
  forall bmax scans,
    FetchData.reconstruct_scans mean_seq df (VStr "normal") fields_st fields_v
      = Ok (bmax, scans) ->
    (length scans < 3)%nat ->
    FetchData.pandas_to_scans mean_seq df (VStr "normal") fields_st fields_v
      = Ok (scans, bmax).

(** ** Padding *)

(** A column padded on the right with NaN up to [L] rows (unchanged when it
    has [L] rows or more). *)
Definition pad (L : nat) (c : list value) : list value :=
  c ++ replicate (L - length c)%nat nan.

(** Every column of the table has [L] rows. *)
Definition uniform (L : nat) (df : gmap string (list value)) : Prop :=
  forall p col, df !! p = Some col -> length col = L.


(** Two beams of two gates and one gate, for which the field [elv] was
    requested but is absent from the records; and their table. *)
Definition fields_ve : list string := ["v"; "slist"; "elv"].

Definition beam_2g : Beam :=
  beam_of_record fields_s fields_ve (mk_dt 2015 3 17 3 1 0 0)
    (<["slist" := VList [VInt 4; VInt 7]]>
       (<["v" := VList [VFloat 12.5; VFloat (-3)]]> (record_at 1 0 0 1))).

Definition beam_1g : Beam :=
  beam_of_record fields_s fields_ve (mk_dt 2015 3 17 3 1 3 0) (record_at 1 3 1 0).

Definition table_elv : gmap string (list value) :=
  match FetchData.convert_to_pandas [beam_2g; beam_1g] fields_st fields_ve with
  | Ok df => df
  | Err _ => ∅
  end.

(** ** The round trip *)

(** The gate count of a beam: the length of its [slist]. *)
Definition gates (b : Beam) : nat :=
  match attrs b !! "slist" with
  | Some (VList l) => length l
  | _ => 0%nat
  end.

Definition beam_number (b : Beam) : option Z :=
  match attrs b !! "bmnum" with
  | Some (VInt z) => Some z
  | _ => None
  end.

(** The beam number of a beam (0 when it has none). *)
Definition number (b : Beam) : Z := default 0 (beam_number b).

Definition numbers (B : list Beam) : list Z := map number B.

(** The entries of a vector field (none when it is not a sequence). *)
Definition vec (b : Beam) (p : string) : list value :=
  match attrs b !! p with
  | Some (VList l) => l
  | _ => []
  end.

(** A vector field is either filled in every beam (one entry per gate) or
    empty in every beam (a field that the records do not have). *)
Definition field_filled (B : list Beam) (p : string) : Prop :=
  forall b, b ∈ B -> exists l, attrs b !! p = Some (VList l) /\ length l = gates b.
Definition field_empty (B : list Beam) (p : string) : Prop :=
  forall b, b ∈ B -> attrs b !! p = Some (VList []).

(** The distinct numbers of a list in ascending order, built as [np.unique]
    builds its result. *)
Fixpoint insert_number (z : Z) (acc : list Z) : list Z :=
  match acc with
  | [] => [z]
  | y :: acc' =>
      if z =? y then acc
      else if z <? y then z :: acc
      else y :: insert_number z acc'
  end.

Definition unique_numbers (zs : list Z) : list Z := foldr insert_number [] zs.

(** The beams for which the round trip through a table is exact. *)
Record flattenable (s_params v_params : list string) (B : list Beam) : Prop := {
  fl_nodup : NoDup (s_params ++ v_params);
  fl_slist : "slist" ∈ v_params;
  fl_bmnum : "bmnum" ∈ s_params;
  fl_time : "time" ∈ s_params;
  fl_gates : forall b, b ∈ B -> (0 < gates b)%nat;
  fl_vector : forall p, p ∈ v_params -> field_filled B p \/ field_empty B p;
  fl_scalar : forall b p, b ∈ B -> p ∈ s_params -> is_Some (attrs b !! p);
  fl_number : forall b, b ∈ B -> is_Some (beam_number b);
  fl_scan : forall b, b ∈ B -> scan_is_flag (attrs b);
  fl_distinct : NoDup (numbers B)
}.

(** What the round trip preserves of a beam [b] in its image [b']: the
    scalar fields, and the vector fields up to NaN padding to the gate count. *)
Definition same_fields (s_params v_params : list string) (b b' : Beam) : Prop :=
  (forall p, p ∈ s_params -> attrs b' !! p = attrs b !! p) /\
  (forall p, p ∈ v_params ->
     exists l, attrs b !! p = Some (VList l) /\
               attrs b' !! p = Some (VList (pad (gates b) l))).

(** The rows of beam [b] in column [p] of the padded table. *)
Definition cells (s_params v_params : list string) (b : Beam) (p : string) : list value :=
  if decide (p ∈ v_params) then pad (gates b) (vec b p)
  else match attrs b !! p with
       | Some v => replicate (gates b) v
       | None => []
       end.

(** The type of a cell, as pandas sees it when it chooses the dtype of a
    column; a sequence in a cell, or an integer that is no int64, has none. *)
Inductive cell_type : Type := IntCell | FloatCell | TimeCell | StrCell | NoneCell.

Definition has_type (t : cell_type) (v : value) : bool :=
  match t, v with
  | IntCell, VInt z => in_int64 z
  | FloatCell, VFloat _ => true
  | TimeCell, VTime _ => true
  | StrCell, VStr _ => true
  | NoneCell, VNone => true
  | _, _ => false
  end.

(** A column whose cells are all of one type: pandas stores and returns
    such cells as they are.  (In a column that mixes types it converts: next
    to numbers a [None] becomes NaN, and next to floats an integer becomes a
    float.) *)
Definition one_type (c : list value) : Prop :=
  exists t, forallb (has_type t) c = true.

(** Every field of the beams [B] fills a column of one type in their table. *)
Definition typed_columns (s_params v_params : list string) (B : list Beam) : Prop :=
  forall p, p ∈ s_params ++ v_params ->
    one_type (concat (map (fun b => cells s_params v_params b p) B)).

(** The rows of beam [b] in column [p] before the padding. *)
Definition raw_cells (v_params : list string) (b : Beam) (p : string) : list value :=
  if decide (p ∈ v_params) then vec b p
  else match attrs b !! p with
       | Some v => replicate (gates b) v
       | None => []
       end.

(** A beam whose requested fields can be read: the vector fields are
    sequences and the scalar fields exist. *)
Definition readable (s_params v_params : list string) (b : Beam) : Prop :=
  (forall p, p ∈ v_params -> exists l, attrs b !! p = Some (VList l)) /\
  (forall p, p ∈ s_params -> is_Some (attrs b !! p)).

(** The number of rows of the table of [B]. *)
Definition total_gates (B : list Beam) : nat := sum_list (map gates B).

(** The first entry of a sequence, as [first_row] reads it. *)
Definition first_entry (c : value) : value :=
  match c with
  | VList (v :: _) => v
  | _ => VNone
  end.

(** The round trip as the specification states it: every reconstructed beam
    is an original beam with its scalar fields, and with its vector fields
    followed by padding that is all NaN and lies beyond the gate count of
    the beam. *)
Definition comes_back (s_params v_params : list string) (b b' : Beam) : Prop :=
  (forall p, p ∈ s_params -> attrs b' !! p = attrs b !! p) /\
  (forall p, p ∈ v_params ->
     exists l padding,
       attrs b !! p = Some (VList l) /\
       attrs b' !! p = Some (VList (l ++ padding)) /\
       Forall (fun x => x = nan) padding /\
       (padding <> [] -> (gates b <= length l)%nat)).

Definition round_trip_claim (s_params v_params : list string) (B : list Beam) : Prop :=
  forall df B',
    FetchData.convert_to_pandas B s_params v_params = Ok df ->
    FetchData.pandas_to_beams df s_params v_params = Ok B' ->
    forall b', b' ∈ B' -> exists b, b ∈ B /\ comes_back s_params v_params b b'.

(** The table of a list of beams and the beams rebuilt from it. *)
Definition flat (s_params v_params : list string) (B : list Beam)
    : gmap string (list value) :=
  match FetchData.convert_to_pandas B s_params v_params with
  | Ok df => df
  | Err _ => ∅
  end.

Definition unflat (s_params v_params : list string) (B : list Beam) : list Beam :=
  match FetchData.pandas_to_beams (flat s_params v_params B) s_params v_params with
  | Ok B' => B'
  | Err _ => []
  end.

(** Beam 3 sampled at two times, as in two successive scans. *)
Definition beams_33 : list Beam :=
  [beam_of_record fields_s fields_v (mk_dt 2015 3 17 3 1 0 0) (record_at 1 0 3 1);
   beam_of_record fields_s fields_v (mk_dt 2015 3 17 3 2 0 0)
     (<["v" := VList [VFloat (-40)]]> (record_at 2 0 3 1))].

(** ** Ground scatter, gate by gate *)

(** The four criteria of [gs_estimation] on one gate with velocity [v] and
    spectral width [w]. *)
Definition flag0 (v w : float) : Z :=
  if PrimFloat.ltb (PrimFloat.abs v + w / 3)%float 30 then 1 else 0.
Definition flag1 (v w : float) : Z :=
  if PrimFloat.ltb (PrimFloat.abs v + w * 0.4)%float 60 then 1 else 0.
Definition flag2 (v w : float) : Z :=
  if PrimFloat.ltb (PrimFloat.abs v - 0.139 * w + 0.00113 * (w * w))%float 33.1 then 1 else 0.
Definition flag3 (v w : float) : Z :=
  if PrimFloat.ltb (w - (50 - 0.7 * ((v + 5) * (v + 5))))%float 0 then 1 else 0.

(** The flags of the four criteria, gate by gate. *)
Definition gate_flags (v w : list float) : gmap Z (list Z) :=
  <[3 := zip_with flag3 v w]> (<[2 := zip_with flag2 v w]>
    (<[1 := zip_with flag1 v w]> (<[0 := zip_with flag0 v w]> ∅))).


(** ** Gates *)

(** The value that [Gate] stores for parameter [p] of the beam [bm] at the
    index [i >= 0]: the entry of the sequence, or NaN beyond its end. *)
Definition gate_value (bm : Beam) (i : Z) (p : string) : value :=
  default nan (vec bm p !! Z.to_nat i).

(** ** The derived slist *)

(** The positions of the entries of a row that are not NaN, in ascending
    order, and the [slist] derived from them: one row [[j]] per position. *)
Definition positions_not_nan (row : ndarray) : list nat :=
  List.filter (fun j => negb (is_nan_value (default nan (elements row !! j))))
              (seq 0 (size row)).

Definition derived_slist (row : ndarray) : value :=
  VList (map (fun j => VList [VInt (Z.of_nat j)]) (positions_not_nan row)).

(** Every requested field that the columnar set [d] holds can be read at
    index [i]: a scalar has an entry there, and a vector is a
    two-dimensional array of numbers with a row there. *)
Definition readable_at (d : gmap string value) (i : Z)
    (s_params v_params : list string) : Prop :=
  (forall p col, p ∈ s_params -> d !! p = Some col -> exists y, py_getitem col i = Ok y) /\
  (forall p arr, p ∈ v_params -> d !! p = Some arr ->
     exists row kept, np_row arr i = Ok row /\ without_nan row = Some kept).

(** ** Scans and their tables *)

(** The columns of the table of [scans_to_pandas]. *)
Definition scan_columns (s_params v_params : list string) : list string :=
  s_params ++ v_params ++ FetchData.new_cols.

(** The rows of beam [hb.2], beam [hb.1] of scan number [scnum], in column
    [q] of the table of scans: before the padding and after it. *)
Definition scan_raw_cells (v_params : list string) (scnum : Z) (hb : Z * Beam)
    (q : string) : list value :=
  if decide (q = "scnum") then replicate (gates hb.2) (VInt scnum)
  else if decide (q = "sbnum") then replicate (gates hb.2) (VInt hb.1)
  else raw_cells v_params hb.2 q.

Definition scan_cells (s_params v_params : list string) (scnum : Z) (hb : Z * Beam)
    (q : string) : list value :=
  if decide (q = "scnum") then replicate (gates hb.2) (VInt scnum)
  else if decide (q = "sbnum") then replicate (gates hb.2) (VInt hb.1)
  else cells s_params v_params hb.2 q.

(** The rows of scan [ns.2], scan [ns.1] of the list, in column [q]. *)
Definition scan_block (s_params v_params : list string) (start_scnum : Z)
    (ns : Z * Scan) (q : string) : list value :=
  concat (map (fun hb => scan_cells s_params v_params (ns.1 + start_scnum) hb q)
              (FetchData.enumerate (beams ns.2))).

(** The number of rows of a scan. *)
Definition scan_gates (s : Scan) : nat := total_gates (beams s).

(** A scan for which the round trip through a table is exact: it has beams,
    each beam is flattenable on its own, and every vector field is filled
    in all its beams or empty in all its beams. *)
Record scan_flattenable (s_params v_params : list string) (s : Scan) : Prop := {
  sf_beams : beams s <> [];
  sf_beam : forall b, b ∈ beams s -> flattenable s_params v_params [b];
  sf_vector : forall p, p ∈ v_params ->
    field_filled (beams s) p \/ field_empty (beams s) p
}.

(** What the round trip preserves of a scan [s] in its image [s']: the
    beams, in their order, field by field; and the time bounds and averages
    are those that [update_time] gives [s]. *)
Definition same_scan (np_mean : list value -> result value)
    (s_params v_params : list string) (smode : value) (s s' : Scan) : Prop :=
  Forall2 (same_fields s_params v_params) (beams s) (beams s') /\
  s_mode s' = smode /\
  exists u, Scan.update_time np_mean s = Ok u /\
    stime s' = stime u /\ etime s' = etime u /\ f s' = f u /\ nsky s' = nsky u.

(** A scan of the two beams for which [elv] was requested but is absent. *)
Definition scan_elv : Scan :=
  mk_Scan VNone VNone (VStr "normal") [beam_2g; beam_1g] None None.

(** The scan that the heuristic makes of the first two scans of [table_235]. *)
Definition merged_235 : Scan :=
  match Scan.update_time mean_seq (merged (scan_at table_235 0) (scan_at table_235 1)) with
  | Ok sc => sc
  | Err _ => Scan_init VNone VNone VNone
  end.

(** ** A beam that cannot be flattened *)


(** * Properties *)

(** ** The error monad *)

Lemma foldM_cons {S A : Type} (body : S -> A -> result S) s x l :
  foldM body s (x :: l) = body s x ≫= fun s' => foldM body s' l.
Proof. reflexivity. Qed.

Lemma Ok_bind {A B : Type} (a : A) (k : A -> result B) : (Ok a ≫= k) = k a.
Proof. reflexivity. Qed.

Lemma Err_bind {A B : Type} (e : pyexn) (k : A -> result B) : (Err e ≫= k) = Err e.
Proof. reflexivity. Qed.

Lemma bind_Ok_inv {A B : Type} (m : result A) (k : A -> result B) (b : B) :
  (m ≫= k) = Ok b -> exists a, m = Ok a /\ k a = Ok b.
Proof. destruct m as [a|e]; [eauto | discriminate]. Qed.

Lemma foldM_app {S A : Type} (body : S -> A -> result S) s l1 l2 :
  foldM body s (l1 ++ l2) = foldM body s l1 ≫= fun s' => foldM body s' l2.
Proof.
  revert s. induction l1 as [|x l1 IH]; intros s; [done|].
  cbn [app]. rewrite !foldM_cons. destruct (body s x) as [s1|e]; [|done].
  rewrite !Ok_bind. apply IH.
Qed.

Lemma mapM_cons_inv {A B : Type} (g : A -> result B) x l ys :
  mapM g (x :: l) = Ok ys ->
  exists y ys', g x = Ok y /\ mapM g l = Ok ys' /\ ys = y :: ys'.
Proof.
  cbn. destruct (g x) as [y|e]; [|discriminate]. cbn.
  destruct (mapM g l) as [ys'|e]; [|discriminate]. cbn.
  intros [= <-]. eauto.
Qed.

Lemma mapM_nil_inv {A B : Type} (g : A -> result B) ys :
  mapM g [] = Ok ys -> ys = [].
Proof. cbn. by intros [= <-]. Qed.

Lemma mapM_map_Forall2 {A A' C : Type} (g : A' -> result C) (h : A -> A')
    (R : A -> C -> Prop) l :
  (forall x, x ∈ l -> exists y, g (h x) = Ok y /\ R x y) ->
  exists ys, mapM g (map h l) = Ok ys /\ Forall2 R l ys.
Proof.
  induction l as [|x l IH]; intros H.
  - exists []. by split.
  - destruct (H x) as (y & Hy & HR); [by left|].
    destruct IH as (ys & Hys & HF); [intros x' Hx'; apply H; by right|].
    exists (y :: ys). split; [|by constructor].
    cbn. rewrite Hy. cbn. cbn in Hys. rewrite Hys. done.
Qed.

(** ** Beam.set *)

Lemma getattr_Some b p v : attrs b !! p = Some v -> getattr b p = Ok v.
Proof. unfold getattr. by intros ->. Qed.

Lemma getattr_Ok b p v : getattr b p = Ok v -> attrs b !! p = Some v.
Proof. unfold getattr. destruct (attrs b !! p); [by intros [= ->] | discriminate]. Qed.

Lemma lookup_assign g l m q :
  assign g l m !! q = if decide (q ∈ l) then Some (g q) else m !! q.
Proof.
  revert m. induction l as [|p l IH]; intros m.
  - rewrite decide_False; [done | apply not_elem_of_nil].
  - unfold assign in *. cbn [foldl]. rewrite IH.
    destruct (decide (q ∈ l)) as [Hl|Hl].
    + rewrite decide_True; [done | by right].
    + destruct (decide (q = p)) as [->|Hne].
      * rewrite decide_True; [|by left]. by rewrite lookup_insert_eq.
      * rewrite decide_False; [by rewrite lookup_insert_ne|].
        intros [?|?]%elem_of_cons; done.
Qed.

Lemma set_scalar_None d self p :
  Beam.set_scalar d None self p = Ok (setattr self p (scalar_of d p)).
Proof.
  unfold Beam.set_scalar, scalar_of. destruct (d !! p) as [x|]; [|done].
  by destruct (String.eqb p "scan" && py_ne x (VInt 0)).
Qed.

Lemma set_vector_Ok d self p :
  Beam.set_vector d self p = Ok (setattr self p (vector_of d p)).
Proof. unfold Beam.set_vector, vector_of. by destruct (d !! p). Qed.

Lemma foldM_set_scalar d self sp :
  foldM (Beam.set_scalar d None) self sp
  = Ok (mk_Beam (assign (scalar_of d) sp (attrs self)) (gsflg self)).
Proof.
  revert self. induction sp as [|p sp IH]; intros self.
  - by destruct self.
  - by rewrite foldM_cons, set_scalar_None, Ok_bind, IH.
Qed.

Lemma foldM_set_vector d self vp :
  foldM (Beam.set_vector d) self vp
  = Ok (mk_Beam (assign (vector_of d) vp (attrs self)) (gsflg self)).
Proof.
  revert self. induction vp as [|p vp IH]; intros self.
  - by destruct self.
  - by rewrite foldM_cons, set_vector_Ok, Ok_bind, IH.
Qed.

(** With [k] left at [None], [Beam.set] never raises: it assigns the scalar
    fields, then the vector fields, then [time]. *)
Lemma set_Ok self time d sp vp :
  Beam.set self time d sp vp None
  = Ok (mk_Beam (<["time" := time]>
                   (assign (vector_of d) vp (assign (scalar_of d) sp (attrs self))))
                (gsflg self)).
Proof.
  unfold Beam.set. by rewrite foldM_set_scalar, Ok_bind, foldM_set_vector, Ok_bind.
Qed.

(** C6. For a raw record whose field [scan] holds the integer [raw], with
    [scan] requested as a scalar field (and not as a vector field),
    [Beam.set] stores exactly 1 when [raw] is nonzero and exactly 0 when
    [raw] is 0. *)
Theorem set_normalizes_scan (self : Beam) (time : value) (d : gmap string value)
    (s_params v_params : list string) (raw : Z) :
  d !! "scan" = Some (VInt raw) ->
  "scan" ∈ s_params ->
  "scan" ∉ v_params ->
  exists b, Beam.set self time d s_params v_params None = Ok b /\
            attrs b !! "scan" = Some (VInt (if raw =? 0 then 0 else 1)).
Proof.
  intros Hd Hs Hv. eexists. split; [apply set_Ok|]. simpl.
  rewrite lookup_insert_ne by done.
  rewrite lookup_assign, decide_False by done.
  rewrite lookup_assign, decide_True by done.
  unfold scalar_of. rewrite Hd. simpl. unfold py_ne. simpl.
  destruct (raw =? 0) eqn:E; simpl; [|done].
  apply Z.eqb_eq in E. by subst.
Qed.

Lemma set_normalizes_scan_witness :
  (exists b, Beam.set Beam_init VNone (raw_scan (-1)) ["scan"] [] None = Ok b /\
             attrs b !! "scan" = Some (VInt 1)) /\
  (exists b, Beam.set Beam_init VNone (raw_scan 0) ["scan"] [] None = Ok b /\
             attrs b !! "scan" = Some (VInt 0)) /\
  (exists b, Beam.set Beam_init VNone (raw_scan 7) ["scan"] [] None = Ok b /\
             attrs b !! "scan" = Some (VInt 1)).
Proof.
  repeat split.
  - apply (set_normalizes_scan Beam_init VNone (raw_scan (-1)) ["scan"] [] (-1));
      [reflexivity | by left | apply not_elem_of_nil].
  - apply (set_normalizes_scan Beam_init VNone (raw_scan 0) ["scan"] [] 0);
      [reflexivity | by left | apply not_elem_of_nil].
  - apply (set_normalizes_scan Beam_init VNone (raw_scan 7) ["scan"] [] 7);
      [reflexivity | by left | apply not_elem_of_nil].
Defined.

(** ** Beam.set and Beam.set_nc *)

Lemma foldM_assign (body : Beam -> string -> result Beam) (g : string -> value) l :
  (forall self p, p ∈ l -> body self p = Ok (setattr self p (g p))) ->
  forall self, foldM body self l = Ok (mk_Beam (assign g l (attrs self)) (gsflg self)).
Proof.
  induction l as [|p l IH]; intros Hbody self.
  - by destruct self.
  - rewrite foldM_cons, Hbody, Ok_bind by (by left).
    rewrite IH; [done|]. intros self' q Hq. apply Hbody. by right.
Qed.

Lemma set_nc_scalar_agrees d dc i self p :
  scalar_agrees d dc i p ->
  (p = "scan" -> scan_is_flag d) ->
  Beam.set_nc_scalar dc i self p = Ok (setattr self p (scalar_of d p)).
Proof.
  unfold scalar_agrees, Beam.set_nc_scalar, scalar_of. intros H Hflag.
  destruct (d !! p) as [x|] eqn:Hd.
  - destruct H as (col & -> & ->). rewrite Ok_bind. cbn.
    destruct (String.eqb_spec p "scan") as [->|_]; [|done]. cbn.
    destruct (py_ne x (VInt 0)) eqn:Hne; [|done].
    by rewrite (Hflag eq_refl x Hd Hne).
  - by rewrite H.
Qed.

Lemma take_mask_not_nan (l : list float) :
  take_mask (map negb (map PrimFloat.is_nan l)) l
  = List.filter (fun x => negb (PrimFloat.is_nan x)) l.
Proof.
  induction l as [|x l IH]; [done|]. cbn [map take_mask List.filter].
  destruct (PrimFloat.is_nan x); cbn [negb]; by rewrite IH.
Qed.

Lemma take_mask_all {A : Type} (l : list Z) (a : list A) :
  length l = length a -> take_mask (map negb (map (fun _ => false) l)) a = a.
Proof.
  revert a. induction l as [|z l IH]; intros [|x a] Hlen; try done.
  cbn. f_equal. apply IH. by injection Hlen.
Qed.

(** What [set_nc] keeps of a row of numbers. *)
Lemma without_nan_compress row kept :
  without_nan row = Some kept ->
  exists isnan, np_isnan row = Ok isnan /\
                elements (compress (map negb isnan) row) = kept.
Proof.
  destruct row as [l|l|l]; intros [= <-]; eexists; (split; [reflexivity|]); cbn.
  - by rewrite take_mask_all.
  - by rewrite take_mask_not_nan.
Qed.

Lemma set_nc_vector_agrees d dc i v_params self p :
  vector_agrees d dc i p ->
  "slist" ∈ v_params ->
  Beam.set_nc_vector dc i v_params self p = Ok (setattr self p (vector_of d p)).
Proof.
  unfold vector_agrees, Beam.set_nc_vector, vector_of. intros H Hsl.
  destruct (d !! p) as [x|] eqn:Hd.
  - destruct H as (arr & row & kept & -> & -> & Hkept & ->). rewrite Ok_bind.
    rewrite bool_decide_eq_true_2 by done. cbn [negb andb]. rewrite Ok_bind.
    apply without_nan_compress in Hkept as (isnan & -> & <-). rewrite Ok_bind.
    unfold setattr. cbn. by rewrite insert_insert_eq.
  - by rewrite H.
Qed.

(** C7, as amended. For equivalent inputs (row [i] of the columnar set holds
    the record) and the same field lists, [Beam.set] and [Beam.set_nc]
    build the same beam, provided the vector-field list contains "slist"
    (otherwise [set_nc] derives an [slist] attribute that [set] does not
    create) and the raw scan value is 0 or 1, which [set] stores as it is. *)
Theorem set_nc_same_beam (time : value) (d dc : gmap string value) (i : Z)
    (s_params v_params : list string) :
  equivalent_inputs d dc i s_params v_params ->
  "slist" ∈ v_params ->
  scan_is_flag d ->
  same_beam time d dc i s_params v_params.
Proof.
  intros [Hs Hv] Hsl Hflag. eexists. split; [apply set_Ok|].
  unfold Beam.set_nc.
  rewrite (foldM_assign _ (scalar_of d)), Ok_bind
    by (intros; apply set_nc_scalar_agrees; auto).
  rewrite (foldM_assign _ (vector_of d)), Ok_bind
    by (intros; apply set_nc_vector_agrees; auto).
  reflexivity.
Qed.

(** C7, as stated, fails twice.  Without "slist" among the vector fields,
    [set_nc] adds a derived [slist] that the beam of [set] lacks; and a raw
    scan flag of 7 is stored as 1 by [set] but as 7 by [set_nc]. *)
Lemma set_nc_counterexample :
  (equivalent_inputs rec_v col_v 0 [] ["v"] /\
   ~ same_beam VNone rec_v col_v 0 [] ["v"]) /\
  (equivalent_inputs (raw_scan 7) (col_scan 7) 0 ["scan"] ["slist"] /\
   ~ same_beam VNone (raw_scan 7) (col_scan 7) 0 ["scan"] ["slist"]).
Proof.
  split; split.
  - split; intros p Hp; [by apply elem_of_nil in Hp|].
    apply list_elem_of_singleton in Hp as ->.
    exists (VList [VList [VFloat 12.5; nan]]),
      (Float64Array [12.5%float; PrimFloat.nan]), [VFloat 12.5].
    by vm_compute.
  - intros (b & H1 & H2). rewrite set_Ok in H1. injection H1 as <-.
    vm_compute in H2. discriminate H2.
  - split; intros p Hp.
    + apply list_elem_of_singleton in Hp as ->. exists (VList [VInt 7]). by vm_compute.
    + apply list_elem_of_singleton in Hp as ->. reflexivity.
  - intros (b & H1 & H2). rewrite set_Ok in H1. injection H1 as <-.
    vm_compute in H2. discriminate H2.
Qed.

Lemma set_nc_same_beam_witness :
  same_beam VNone rec_row col_rows 1 ["scan"; "nrang"] ["v"; "slist"; "elv"].
Proof.
  apply (set_nc_same_beam VNone rec_row col_rows 1 ["scan"; "nrang"] ["v"; "slist"; "elv"]).
  - split; intros p Hp; repeat (apply elem_of_cons in Hp as [->|Hp]);
      try (by apply elem_of_nil in Hp).
    + exists (VList [VInt 0; VInt 1]). by vm_compute.
    + reflexivity.
    + exists (VList [VList [VFloat 7; VFloat 8]; VList [VFloat 12.5; nan]]),
        (Float64Array [12.5%float; PrimFloat.nan]), [VFloat 12.5]. by vm_compute.
    + exists (VList [VList [VInt 0; VInt 1]; VList [VInt 3; nan]]),
        (Float64Array [3%float; PrimFloat.nan]), [VFloat 3]. by vm_compute.
    + reflexivity.
  - right. by left.
  - intros x Hx _. vm_compute in Hx. by injection Hx as <-.
Defined.

(** ** Beam.gs_estimation *)



(** On the same numbers held as Python lists, as [Beam.set] stores the
    lists of a dictionary, the first criterion raises [TypeError]: a list
    cannot be divided by a float. *)
Example gs_estimation_lists :
  Beam.gs_estimation (beam_vw (VFloat 0) (VFloat 0))
  = Err (TypeError "unsupported operand type(s) for /: 'list' and 'float'").
Proof. reflexivity. Qed.

(** ** FetchData._parse_data: the beams *)

Lemma parse_record_Ok self sp vp _b d t :
  FetchData.record_time d = Ok t ->
  FetchData.parse_record self sp vp _b d
  = Ok (_b ++ kept_beams self sp vp [(t, d)]).
Proof.
  intros Ht. unfold FetchData.parse_record, kept_beams. rewrite Ht, Ok_bind. simpl.
  destruct (FetchData.in_window self t); simpl.
  - by rewrite set_Ok.
  - by rewrite app_nil_r.
Qed.

Lemma kept_beams_cons self sp vp td tds :
  kept_beams self sp vp (td :: tds)
  = kept_beams self sp vp [td] ++ kept_beams self sp vp tds.
Proof.
  unfold kept_beams. simpl. by destruct (FetchData.in_window self td.1).
Qed.

Lemma parse_loop_Ok self sp vp data ts _b :
  mapM FetchData.record_time data = Ok ts ->
  foldM (FetchData.parse_record self sp vp) _b data
  = Ok (_b ++ kept_beams self sp vp (zip ts data)).
Proof.
  revert ts _b. induction data as [|d data IH]; intros ts _b H.
  - apply mapM_nil_inv in H as ->. simpl. by rewrite app_nil_r.
  - apply mapM_cons_inv in H as (t & ts' & Ht & Hts & ->).
    rewrite foldM_cons, (parse_record_Ok _ _ _ _ _ _ Ht), Ok_bind, (IH _ _ Hts).
    cbn [zip zip_with]. by rewrite (kept_beams_cons _ _ _ (t, d) (zip ts' data)), app_assoc.
Qed.

Lemma lex_compare_le a : forall b,
  length a = length b -> lex_compare a b <> Gt <-> lex_le a b.
Proof.
  induction a as [|x a IH]; intros [|y b] Hlen; try done.
  cbn [lex_compare lex_le]. injection Hlen as Hlen. specialize (IH b Hlen).
  destruct (Z.compare_spec x y) as [->|Hlt|Hgt].
  - rewrite IH. split; [by right|]. intros [?|[_ ?]]; [lia|done].
  - split; [by left|done].
  - split; [done|]. intros [?|[? _]]; lia.
Qed.

Lemma dt_leb_not_later a b : dt_leb a b = true <-> not_later a b.
Proof.
  unfold not_later. rewrite <- (lex_compare_le (dt_fields a) (dt_fields b) eq_refl).
  unfold dt_leb, dt_compare. destruct (lex_compare _ _); split; congruence.
Qed.

Lemma in_window_within self t :
  FetchData.in_window self t
  = bool_decide (within (fst (date_range self)) (snd (date_range self)) t).
Proof.
  unfold FetchData.in_window, within. apply eq_true_iff_eq.
  by rewrite andb_true_iff, !dt_leb_not_later, bool_decide_eq_true.
Qed.

Lemma kept_beams_within self sp vp tds :
  kept_beams self sp vp tds
  = beams_within (fst (date_range self)) (snd (date_range self)) sp vp tds.
Proof.
  unfold kept_beams, beams_within. f_equal.
  induction tds as [|td tds IH]; [done|]. cbn [List.filter].
  by rewrite in_window_within, IH.
Qed.

Section Parse.

Variable np_mean : list value -> result value.

(** C10. For every list of raw records (each with the fields of a valid
    timestamp), [_parse_data] builds a beam exactly for the records whose
    assembled timestamp [t] satisfies [date_range[0] <= t <= date_range[1]],
    both ends included; the other records contribute no beam, and the beams
    come in the order of their records. *)
Theorem parse_data_window (self : FetchData) (data : list (gmap string value))
    (s_params v_params : list string) (by_ : string) (scan_prop : gmap string value)
    (ts : list datetime) :
  mapM FetchData.record_time data = Ok ts ->
  (by_ <> "scan" ->
   FetchData._parse_data np_mean self data s_params v_params by_ scan_prop
   = Ok (beams_within (fst (date_range self)) (snd (date_range self))
           s_params v_params (zip ts data), [])) /\
  (forall _b _s,
   FetchData._parse_data np_mean self data s_params v_params by_ scan_prop = Ok (_b, _s) ->
   _b = beams_within (fst (date_range self)) (snd (date_range self))
          s_params v_params (zip ts data)).
Proof.
  intros Hts. unfold FetchData._parse_data.
  rewrite (parse_loop_Ok _ _ _ _ _ _ Hts), Ok_bind, kept_beams_within. cbn [app]. split.
  - intros Hby. apply String.eqb_neq in Hby. by rewrite Hby.
  - intros _b _s. destruct (String.eqb by_ "scan"); [|by intros [= <- _]].
    intros H. apply bind_Ok_inv in H as (mode & _ & H).
    apply bind_Ok_inv in H as (b0 & _ & H).
    apply bind_Ok_inv in H as ([s sc] & _ & H).
    by injection H as <- _.
Qed.

(** C3, as amended. When no beam is handed to the segmentation (by = "scan",
    and [scan_prop] holds "s_mode"), [_parse_data] raises the [IndexError]
    of [_b[0]] on the empty list: there is no guard of its own. *)
Theorem parse_data_empty_IndexError (self : FetchData) (data : list (gmap string value))
    (s_params v_params : list string) (scan_prop : gmap string value) :
  is_Some (scan_prop !! "s_mode") ->
  foldM (FetchData.parse_record self s_params v_params) [] data = Ok [] ->
  FetchData._parse_data np_mean self data s_params v_params "scan" scan_prop
  = Err (IndexError "list index out of range").
Proof.
  intros [mode Hm] Hb. unfold FetchData._parse_data. rewrite Hb, Ok_bind.
  cbn [String.eqb]. unfold dict_get. rewrite Hm. reflexivity.
Qed.

End Parse.

Lemma parse_data_window_witness :
  FetchData._parse_data mean_seq window_2015 records_4 fields_s fields_v "beam"
    default_scan_prop
  = Ok (beams_within (mk_dt 2015 3 17 3 0 0 0) (mk_dt 2015 3 17 3 20 0 0)
          fields_s fields_v (zip times_4 records_4), []).
Proof.
  apply (parse_data_window mean_seq window_2015 records_4 fields_s fields_v "beam"
           default_scan_prop times_4); [reflexivity | discriminate].
Defined.

(** Of the four records the first three are kept, in their order. *)
Example kept_beams_4 :
  beams_within (mk_dt 2015 3 17 3 0 0 0) (mk_dt 2015 3 17 3 20 0 0)
    fields_s fields_v (zip times_4 records_4)
  = map (fun td => beam_of_record fields_s fields_v (fst td) (snd td))
        (take 3 (zip times_4 records_4)).
Proof. reflexivity. Qed.

(** C3, as stated, fails: on an empty record list the error raised is not a
    "no data to segment" error. *)
Lemma parse_data_empty_counterexample :
  ~ no_data_error
      (FetchData._parse_data mean_seq window_2015 [] fields_s fields_v "scan"
         default_scan_prop).
Proof. intros (e & He & Hmsg). vm_compute in He. injection He as <-. discriminate Hmsg. Qed.

Lemma parse_data_empty_IndexError_witness :
  FetchData._parse_data mean_seq window_2015 [record_at 30 0 1 1] fields_s fields_v "scan"
    default_scan_prop
  = Err (IndexError "list index out of range").
Proof.
  apply (parse_data_empty_IndexError mean_seq window_2015 [record_at 30 0 1 1]).
  - by eexists.
  - reflexivity.
Defined.

(** ** The order of datetimes, min and max *)

Lemma lex_compare_antisym a : forall b, lex_compare b a = CompOpp (lex_compare a b).
Proof.
  induction a as [|x a IH]; intros [|y b]; cbn; try done.
  rewrite (Z.compare_antisym x y). destruct (x ?= y); cbn; [apply IH|done..].
Qed.

Lemma lex_compare_trans a : forall b c,
  lex_compare a b <> Gt -> lex_compare b c <> Gt -> lex_compare a c <> Gt.
Proof.
  induction a as [|x a IH]; intros [|y b] [|z c]; cbn; try done.
  destruct (Z.compare_spec x y), (Z.compare_spec y z), (Z.compare_spec x z);
    try done; try lia; subst; eauto.
Qed.

Lemma dt_leb_trans a b c : dt_leb a b = true -> dt_leb b c = true -> dt_leb a c = true.
Proof.
  unfold dt_leb, dt_compare. intros H1 H2.
  pose proof (lex_compare_trans (dt_fields a) (dt_fields b) (dt_fields c)) as H.
  destruct (lex_compare (dt_fields a) (dt_fields b)); [| |done];
    (destruct (lex_compare (dt_fields b) (dt_fields c)); [| |done]);
    (destruct (lex_compare (dt_fields a) (dt_fields c)); [done..|]);
    exfalso; by apply H.
Qed.

Lemma dt_leb_refl a : dt_leb a a = true.
Proof.
  unfold dt_leb, dt_compare.
  pose proof (lex_compare_antisym (dt_fields a) (dt_fields a)) as H.
  by destruct (lex_compare (dt_fields a) (dt_fields a)).
Qed.

Lemma dt_ltb_leb a b : dt_ltb a b = true -> dt_leb a b = true.
Proof. unfold dt_ltb, dt_leb. by destruct (dt_compare a b). Qed.

Lemma dt_ltb_false_leb a b : dt_ltb a b = false -> dt_leb b a = true.
Proof.
  unfold dt_ltb, dt_leb, dt_compare.
  rewrite (lex_compare_antisym (dt_fields a) (dt_fields b)).
  by destruct (lex_compare (dt_fields a) (dt_fields b)).
Qed.

(** [min] of datetimes: an element that is below all of them. *)
Lemma py_min_times dts :
  dts <> [] ->
  exists lo, py_min (map VTime dts) = Ok (VTime lo) /\ lo ∈ dts /\
             forall t, t ∈ dts -> dt_leb lo t = true.
Proof.
  destruct dts as [|d0 ds]; [done|]. intros _. cbn [py_min map].
  assert (Hgen : forall ds m seen,
            m ∈ seen -> (forall t, t ∈ seen -> dt_leb m t = true) ->
            exists lo,
              foldM (fun m y => b ← py_lt y m; mret (if b : bool then y else m))
                    (VTime m) (map VTime ds) = Ok (VTime lo) /\
              lo ∈ seen ++ ds /\ forall t, t ∈ seen ++ ds -> dt_leb lo t = true).
  { clear. induction ds as [|y ds IH]; intros m seen Hm Hle.
    - exists m. rewrite app_nil_r. by split.
    - cbn [map]. rewrite foldM_cons. cbn [py_lt]. rewrite Ok_bind.
      destruct (dt_ltb y m) eqn:E.
      + destruct (IH y (seen ++ [y])) as (lo & Hlo & Hin & Hall).
        * apply elem_of_app. right. by left.
        * intros t [Ht|Ht%list_elem_of_singleton]%elem_of_app.
          -- apply (dt_leb_trans _ m); [by apply dt_ltb_leb | by apply Hle].
          -- subst. apply dt_leb_refl.
        * exists lo. rewrite <- app_assoc in Hin, Hall. by split.
      + destruct (IH m (seen ++ [y])) as (lo & Hlo & Hin & Hall).
        * apply elem_of_app. by left.
        * intros t [Ht|Ht%list_elem_of_singleton]%elem_of_app.
          -- by apply Hle.
          -- subst. by apply dt_ltb_false_leb.
        * exists lo. rewrite <- app_assoc in Hin, Hall. by split. }
  destruct (Hgen ds d0 [d0]) as (lo & Hlo & Hin & Hall).
  - by left.
  - intros t ->%list_elem_of_singleton. apply dt_leb_refl.
  - by exists lo.
Qed.

(** [max] of datetimes: an element that is above all of them. *)
Lemma py_max_times dts :
  dts <> [] ->
  exists hi, py_max (map VTime dts) = Ok (VTime hi) /\ hi ∈ dts /\
             forall t, t ∈ dts -> dt_leb t hi = true.
Proof.
  destruct dts as [|d0 ds]; [done|]. intros _. cbn [py_max map].
  assert (Hgen : forall ds m seen,
            m ∈ seen -> (forall t, t ∈ seen -> dt_leb t m = true) ->
            exists hi,
              foldM (fun m y => b ← py_gt y m; mret (if b : bool then y else m))
                    (VTime m) (map VTime ds) = Ok (VTime hi) /\
              hi ∈ seen ++ ds /\ forall t, t ∈ seen ++ ds -> dt_leb t hi = true).
  { clear. induction ds as [|y ds IH]; intros m seen Hm Hle.
    - exists m. rewrite app_nil_r. by split.
    - cbn [map]. rewrite foldM_cons. cbv beta.
      change (py_gt (VTime y) (VTime m)) with (Ok (dt_ltb m y)). rewrite Ok_bind.
      destruct (dt_ltb m y) eqn:E.
      + destruct (IH y (seen ++ [y])) as (hi & Hhi & Hin & Hall).
        * apply elem_of_app. right. by left.
        * intros t [Ht|Ht%list_elem_of_singleton]%elem_of_app.
          -- apply (dt_leb_trans _ m); [by apply Hle | by apply dt_ltb_leb].
          -- subst. apply dt_leb_refl.
        * exists hi. rewrite <- app_assoc in Hin, Hall. by split.
      + destruct (IH m (seen ++ [y])) as (hi & Hhi & Hin & Hall).
        * apply elem_of_app. by left.
        * intros t [Ht|Ht%list_elem_of_singleton]%elem_of_app.
          -- by apply Hle.
          -- subst. by apply dt_ltb_false_leb.
        * exists hi. rewrite <- app_assoc in Hin, Hall. by split. }
  destruct (Hgen ds d0 [d0]) as (hi & Hhi & Hin & Hall).
  - by left.
  - intros t ->%list_elem_of_singleton. apply dt_leb_refl.
  - by exists hi.
Qed.

(** ** Scan.update_time *)

Section Bounds.

Variable np_mean : list value -> result value.

(** What a successful [update_time] leaves in the scan. *)
Lemma update_time_Ok self sc :
  Scan.update_time np_mean self = Ok sc ->
  beams sc = beams self /\ s_mode sc = s_mode self /\
  exists ts fn mf mn,
    Scan.beam_times self = Ok ts /\
    py_min ts = Ok (stime sc) /\ py_max ts = Ok (etime sc) /\
    mapM Scan.avg_fields (beams self) = Ok fn /\
    np_mean (map fst fn) = Ok mf /\ np_mean (map snd fn) = Ok mn /\
    f sc = Some mf /\ nsky sc = Some mn.
Proof.
  unfold Scan.update_time, Scan._populate_avg_params. intros H.
  apply bind_Ok_inv in H as (ts & Hts & H).
  apply bind_Ok_inv in H as (lo & Hlo & H).
  rewrite Hts, Ok_bind in H.
  apply bind_Ok_inv in H as (hi & Hhi & H).
  cbn [beams stime etime s_mode] in H.
  apply bind_Ok_inv in H as (fn & Hfn & H).
  apply bind_Ok_inv in H as (mf & Hmf & H).
  apply bind_Ok_inv in H as (mn & Hmn & H).
  injection H as <-. cbn. repeat split. exists ts, fn, mf, mn. by repeat split.
Qed.

Lemma update_time_beams self sc :
  Scan.update_time np_mean self = Ok sc -> beams sc = beams self.
Proof. intros H. by apply update_time_Ok in H as [? _]. Qed.

(** X2. After [update_time] on a scan whose beams carry datetimes, [stime]
    is the earliest and [etime] the latest of the beam times. *)
Theorem update_time_bounds (self sc : Scan) (dts : list datetime) :
  Scan.update_time np_mean self = Ok sc ->
  Scan.beam_times self = Ok (map VTime dts) ->
  exists lo hi,
    stime sc = VTime lo /\ etime sc = VTime hi /\ lo ∈ dts /\ hi ∈ dts /\
    forall t, t ∈ dts -> dt_leb lo t = true /\ dt_leb t hi = true.
Proof.
  intros Hup Hts.
  apply update_time_Ok in Hup as (_ & _ & ts & fn & mf & mn & Hts' & Hlo & Hhi & _).
  rewrite Hts in Hts'. injection Hts' as <-.
  assert (Hne : dts <> []) by (intros ->; discriminate Hlo).
  destruct (py_min_times dts Hne) as (lo & Hlo' & Hlin & Hlall).
  destruct (py_max_times dts Hne) as (hi & Hhi' & Hhin & Hhall).
  rewrite Hlo' in Hlo. rewrite Hhi' in Hhi.
  injection Hlo as Hlo. injection Hhi as Hhi.
  exists lo, hi. repeat split; auto.
Qed.

End Bounds.

Lemma update_time_bounds_witness :
  exists lo hi,
    stime (scan_at table_235 2) = VTime lo /\ etime (scan_at table_235 2) = VTime hi /\
    lo ∈ map (fun j => mk_dt 2015 3 17 3 j 0 0) (seqZ 5 5) /\
    hi ∈ map (fun j => mk_dt 2015 3 17 3 j 0 0) (seqZ 5 5) /\
    forall t, t ∈ map (fun j => mk_dt 2015 3 17 3 j 0 0) (seqZ 5 5) ->
              dt_leb lo t = true /\ dt_leb t hi = true.
Proof.
  apply (update_time_bounds mean_seq
           (mk_Scan VNone VNone (VStr "normal") (beams (scan_at table_235 2)) None None)
           (scan_at table_235 2)
           (map (fun j => mk_dt 2015 3 17 3 j 0 0) (seqZ 5 5)));
    vm_compute; reflexivity.
Defined.

(** ** FetchData._parse_data: the segmentation *)

Lemma concat_group_scans rest : forall prev cur,
  concat (group_scans prev cur rest) = cur ++ rest.
Proof.
  induction rest as [|d rest IH]; intros prev cur; cbn.
  - done.
  - destruct (boundary prev d); cbn; rewrite IH; [done|]. by rewrite <- app_assoc.
Qed.

Lemma list_index_nat {A : Type} (l : list A) (k : nat) x :
  l !! k = Some x -> list_index l (Z.of_nat k) = Ok x.
Proof.
  intros H. unfold list_index.
  destruct (Z.ltb_spec (Z.of_nat k) 0) as [|_]; [lia|].
  destruct (Z.ltb_spec (Z.of_nat k) 0) as [|_]; [lia|].
  by rewrite Nat2Z.id, H.
Qed.

Section Segmentation.

Variable np_mean : list value -> result value.

(** When the test of the loop returns, it returns [boundary]. *)
Lemma starts_scan_boundary _b k prev d r :
  _b !! k = Some prev ->
  FetchData.starts_scan _b (Z.of_nat k) d = Ok r ->
  r = boundary prev d.
Proof.
  intros Hk. unfold FetchData.starts_scan, boundary. intros H.
  apply bind_Ok_inv in H as (flag & Hflag%getattr_Ok & H). rewrite Hflag.
  destruct (py_eq flag (VInt 1)); [|by injection H as <-].
  apply bind_Ok_inv in H as (t & Ht%getattr_Ok & H).
  rewrite (list_index_nat _ _ _ Hk), Ok_bind in H.
  apply bind_Ok_inv in H as (tp & Htp%getattr_Ok & H).
  rewrite Ht, Htp. by injection H as <-.
Qed.

(** The loop of [_parse_data] from the beam after [prev] on: the scans
    closed so far stay, the scans closed later are finalized, and together
    with the open scan they hold the beams of [group_scans]. *)
Lemma scan_loop_groups _b scan_prop rest : forall pre prev _s sc st,
  _b = pre ++ prev :: rest ->
  foldM (FetchData.scan_step np_mean _b scan_prop) (_s, sc)
        (imap (fun i x => (Z.of_nat (length pre + i), x)) rest) = Ok st ->
  exists closed,
    fst st = _s ++ closed /\ Forall (finalized np_mean) closed /\
    map beams closed ++ [beams (snd st)] = group_scans prev (beams sc) rest /\
    (not_finalized sc -> not_finalized (snd st)).
Proof.
  induction rest as [|d rest IH]; intros pre prev _s sc st Hb H.
  - injection H as <-. exists []. cbn. by rewrite app_nil_r.
  - rewrite imap_cons, foldM_cons in H.
    apply bind_Ok_inv in H as ([s1 sc1] & Hstep & H).
    assert (Hprev : _b !! (length pre + 0)%nat = Some prev).
    { rewrite Hb, Nat.add_0_r. by apply list_lookup_middle. }
    rewrite (imap_ext _ (fun i x => (Z.of_nat (length (pre ++ [prev]) + i), x))) in H
      by (intros i x _; cbn; rewrite length_app; cbn; f_equal; lia).
    assert (Hb' : _b = (pre ++ [prev]) ++ d :: rest) by (by rewrite <- app_assoc).
    unfold FetchData.scan_step in Hstep.
    apply bind_Ok_inv in Hstep as (r & Hr & Hstep).
    apply (starts_scan_boundary _ _ _ _ _ Hprev) in Hr. subst r.
    cbn [group_scans]. destruct (boundary prev d).
    + apply bind_Ok_inv in Hstep as (sc' & Hup & Hstep).
      apply bind_Ok_inv in Hstep as (mode & _ & Hstep).
      injection Hstep as <- <-.
      destruct (IH _ _ _ _ _ Hb' H) as (closed & Hfst & Hfin & Hgr & Hnf).
      exists (sc' :: closed). split; [by rewrite Hfst, <- app_assoc|].
      split; [constructor; [by exists sc | done]|]. split.
      * cbn [map app]. rewrite (update_time_beams np_mean _ _ Hup). f_equal. exact Hgr.
      * intros Hsc. apply Hnf. by repeat split.
    + injection Hstep as <- <-.
      destruct (IH _ _ _ _ _ Hb' H) as (closed & Hfst & Hfin & Hgr & Hnf).
      exists closed. split; [done|]. split; [done|]. split; [|exact Hnf].
      exact Hgr.
Qed.

(** The scans returned by [_parse_data]: those closed inside the loop, then
    the scan that is open when the loop ends. *)
Lemma parse_data_scans (self : FetchData) (data : list (gmap string value))
    (s_params v_params : list string) (scan_prop : gmap string value)
    (_b : list Beam) (_s : list Scan) :
  FetchData._parse_data np_mean self data s_params v_params "scan" scan_prop = Ok (_b, _s) ->
  exists closed sc,
    _s = closed ++ [sc] /\ map beams (closed ++ [sc]) = segments _b /\
    Forall (finalized np_mean) closed /\ not_finalized sc.
Proof.
  unfold FetchData._parse_data. intros H.
  apply bind_Ok_inv in H as (bs & _ & H).
  change (String.eqb "scan" "scan") with true in H. cbv iota in H.
  apply bind_Ok_inv in H as (mode & _ & H).
  apply bind_Ok_inv in H as (b0 & Hb0 & H).
  apply bind_Ok_inv in H as ([s sc] & Hloop & H).
  injection H as <- <-.
  destruct bs as [|b0' rest]; [discriminate|]. injection Hb0 as ->.
  unfold FetchData.enumerate in Hloop. cbn [tail] in Hloop.
  destruct (scan_loop_groups (b0 :: rest) scan_prop rest [] b0 [] _ _ eq_refl Hloop)
    as (closed & Hfst & Hfin & Hgr & Hnf).
  cbn in Hfst. subst s. cbn [snd beams beams_append beams_extend Scan_init app] in Hgr.
  exists closed, sc. split; [done|]. split; [by rewrite map_app|]. split; [done|].
  apply Hnf. by repeat split.
Qed.

(** X1. Whenever [_parse_data] (by = "scan") returns, the scans hold the
    beams of the sequence in their order, each beam in one scan, cut
    exactly before each beam whose flag is 1 and whose timestamp differs
    from that of the beam before it. *)
Theorem parse_data_segments (self : FetchData) (data : list (gmap string value))
    (s_params v_params : list string) (scan_prop : gmap string value)
    (_b : list Beam) (_s : list Scan) :
  FetchData._parse_data np_mean self data s_params v_params "scan" scan_prop = Ok (_b, _s) ->
  map beams _s = segments _b /\ concat (map beams _s) = _b.
Proof.
  intros H. destruct (parse_data_scans _ _ _ _ _ _ _ H) as (closed & sc & -> & Hmap & _).
  split; [exact Hmap|]. rewrite Hmap. destruct _b as [|b0 rest]; [done|].
  apply concat_group_scans.
Qed.

(** C2, the defect. Whenever [_parse_data] (by = "scan") returns, its scans
    are the scans closed inside the loop, each finalized by [update_time],
    followed by the scan that was still open when the loop ended; that last
    scan was appended without [update_time]: its [stime] and [etime] are
    [None] and it has no averages. *)
Theorem parse_data_last_scan_not_finalized (self : FetchData)
    (data : list (gmap string value)) (s_params v_params : list string)
    (scan_prop : gmap string value) (_b : list Beam) (_s : list Scan) :
  FetchData._parse_data np_mean self data s_params v_params "scan" scan_prop = Ok (_b, _s) ->
  exists closed last_,
    _s = closed ++ [last_] /\ Forall (finalized np_mean) closed /\ not_finalized last_.
Proof.
  intros H. destruct (parse_data_scans _ _ _ _ _ _ _ H) as (closed & sc & -> & _ & Hfin & Hnf).
  by exists closed, sc.
Qed.

End Segmentation.

Lemma parse_data_segments_witness :
  map beams scans_4 = segments beams_4 /\ concat (map beams scans_4) = beams_4.
Proof.
  apply (parse_data_segments mean_seq window_2015 records_4
           fields_s fields_v default_scan_prop beams_4 scans_4).
  vm_compute. reflexivity.
Defined.

Lemma parse_data_last_scan_witness :
  exists closed last_,
    scans_4 = closed ++ [last_] /\ Forall (finalized mean_seq) closed /\
    not_finalized last_.
Proof.
  apply (parse_data_last_scan_not_finalized mean_seq window_2015 records_4
           fields_s fields_v default_scan_prop beams_4 scans_4).
  vm_compute. reflexivity.
Defined.

(** The four records give two scans: the first has its time bounds, the last
    has none. *)
Example scans_4_bounds :
  map (fun sc => (length (beams sc), stime sc, etime sc)) scans_4
  = [(2%nat, VTime (mk_dt 2015 3 17 3 0 0 0), VTime (mk_dt 2015 3 17 3 1 3 0));
     (1%nat, VNone, VNone)].
Proof. vm_compute. reflexivity. Qed.

(** ** FetchData.pandas_to_scans: the three-scan heuristic *)

Section Merge.

Variable np_mean : list value -> result value.

Lemma merge_first_scans_3 s0 s1 s2 rest :
  FetchData.merge_first_scans np_mean (s0 :: s1 :: s2 :: rest)
  = if Nat.eqb (length (beams s0) + length (beams s1)) (length (beams s2))
    then sc ← Scan.update_time np_mean (merged s0 s1); mret (sc :: s2 :: rest)
    else Ok (s0 :: s1 :: s2 :: rest).
Proof.
  unfold FetchData.merge_first_scans.
  change (list_index (s0 :: s1 :: s2 :: rest) 0) with (Ok s0).
  change (list_index (s0 :: s1 :: s2 :: rest) 1) with (Ok s1).
  change (list_index (s0 :: s1 :: s2 :: rest) 2) with (Ok s2).
  rewrite !Ok_bind.
  destruct (Nat.eqb _ _); [|reflexivity].
  unfold beams_extend, Scan_init, merged. cbn [stime etime s_mode beams f nsky app].
  destruct (Scan.update_time np_mean _); reflexivity.
Qed.

Lemma merge_first_scans_few scans :
  (length scans < 3)%nat ->
  FetchData.merge_first_scans np_mean scans = Err (IndexError "list index out of range").
Proof.
  intros H. destruct scans as [|s0 [|s1 [|s2 rest]]]; [reflexivity..|].
  simpl in H. lia.
Qed.

(** C4. When the loop of [pandas_to_scans] has rebuilt at least three scans
    [s0, s1, s2, ...]: if the beam counts of [s0] and [s1] add up to the beam
    count of [s2], the result is [update_time] run on the scan that holds
    the beams of [s0] followed by those of [s1] (see [update_time_Ok] for
    the recomputed bounds), followed by [s2] and all later scans, one
    position lower; otherwise the scans are returned as rebuilt.  Only the
    beam counts of the first three scans are read. *)
Theorem pandas_to_scans_merge (df : DataFrame) (smode : value)
    (s_params v_params : list string) (bmax : nat) (s0 s1 s2 : Scan) (rest : list Scan) :
  FetchData.reconstruct_scans np_mean df smode s_params v_params
    = Ok (bmax, s0 :: s1 :: s2 :: rest) ->
  ((length (beams s0) + length (beams s1) = length (beams s2))%nat ->
   FetchData.pandas_to_scans np_mean df smode s_params v_params
   = (sc ← Scan.update_time np_mean (merged s0 s1); mret (sc :: s2 :: rest, bmax))) /\
  ((length (beams s0) + length (beams s1) <> length (beams s2))%nat ->
   FetchData.pandas_to_scans np_mean df smode s_params v_params
   = Ok (s0 :: s1 :: s2 :: rest, bmax)).
Proof.
  intros Hrec. unfold FetchData.pandas_to_scans. rewrite Hrec, Ok_bind.
  rewrite merge_first_scans_3. split; intros Hlen.
  - apply Nat.eqb_eq in Hlen. rewrite Hlen.
    by destruct (Scan.update_time np_mean (merged s0 s1)).
  - apply Nat.eqb_neq in Hlen. by rewrite Hlen.
Qed.

(** C5, as amended. When the loop of [pandas_to_scans] has rebuilt fewer than
    three scans, the heuristic reads [scans[0]], [scans[1]], [scans[2]]
    without a guard and [pandas_to_scans] raises [IndexError]. *)
Theorem pandas_to_scans_few_IndexError (df : DataFrame) (smode : value)
    (s_params v_params : list string) (bmax : nat) (scans : list Scan) :
  FetchData.reconstruct_scans np_mean df smode s_params v_params = Ok (bmax, scans) ->
  (length scans < 3)%nat ->
  FetchData.pandas_to_scans np_mean df smode s_params v_params
  = Err (IndexError "list index out of range").
Proof.
  intros Hrec Hlen. unfold FetchData.pandas_to_scans.
  by rewrite Hrec, Ok_bind, (merge_first_scans_few _ Hlen).
Qed.

End Merge.

Lemma pandas_to_scans_merge_witness :
  FetchData.pandas_to_scans mean_seq table_235 (VStr "normal") fields_st fields_v
  = (sc ← Scan.update_time mean_seq (merged (scan_at table_235 0) (scan_at table_235 1));
     mret (sc :: scan_at table_235 2 :: [scan_at table_235 3], 5%nat)) /\
  FetchData.pandas_to_scans mean_seq table_236 (VStr "normal") fields_st fields_v
  = Ok (scan_at table_236 0 :: scan_at table_236 1 :: scan_at table_236 2 :: [], 6%nat).
Proof.
  split.
  - apply (pandas_to_scans_merge mean_seq table_235 (VStr "normal") fields_st fields_v 5
             (scan_at table_235 0) (scan_at table_235 1) (scan_at table_235 2)
             [scan_at table_235 3]); [vm_compute; reflexivity | reflexivity].
  - apply (pandas_to_scans_merge mean_seq table_236 (VStr "normal") fields_st fields_v 6
             (scan_at table_236 0) (scan_at table_236 1) (scan_at table_236 2) []);
      [vm_compute; reflexivity | vm_compute; lia].
Defined.

(** Beam counts 2, 3, 5 (and a fourth scan of 2): the first two scans become
    one scan of 5 beams and the others move down; counts 2, 3, 6: no merge. *)
Example merge_counts_235 :
  beam_counts (rebuilt table_235) = [2; 3; 5; 2]%nat /\
  (fun r => match r with Ok (scans, bmax) => Some (beam_counts scans, bmax) | Err _ => None end)
    (FetchData.pandas_to_scans mean_seq table_235 (VStr "normal") fields_st fields_v)
  = Some ([5; 5; 2]%nat, 5%nat).
Proof. split; vm_compute; reflexivity. Qed.

Example merge_counts_236 :
  (fun r => match r with Ok (scans, bmax) => Some (beam_counts scans, bmax) | Err _ => None end)
    (FetchData.pandas_to_scans mean_seq table_236 (VStr "normal") fields_st fields_v)
  = Some ([2; 3; 6]%nat, 6%nat).
Proof. vm_compute; reflexivity. Qed.

(** C5, as stated, fails: the table of two scans (2 and 3 beams) is rebuilt
    into two scans, and [pandas_to_scans] does not return them. *)
Lemma pandas_to_scans_few_counterexample : ~ heuristic_is_noop table_23.
Proof.
  intros H.
  specialize (H 3%nat (rebuilt table_23)).
  assert (Hrec : FetchData.reconstruct_scans mean_seq table_23 (VStr "normal")
                   fields_st fields_v = Ok (3%nat, rebuilt table_23))
    by (vm_compute; reflexivity).
  specialize (H Hrec ltac:(vm_compute; lia)).
  vm_compute in H. discriminate H.
Qed.

Lemma pandas_to_scans_few_witness :
  FetchData.pandas_to_scans mean_seq table_23 (VStr "normal") fields_st fields_v
  = Err (IndexError "list index out of range").
Proof.
  apply (pandas_to_scans_few_IndexError mean_seq table_23 (VStr "normal")
           fields_st fields_v 3 (rebuilt table_23));
    [vm_compute; reflexivity | vm_compute; lia].
Defined.

(** ** Padding *)

Lemma pad_length L c : length (pad L c) = Nat.max (length c) L.
Proof. unfold pad. rewrite length_app, length_replicate. lia. Qed.

Lemma pad_ge L c : (L <= length c)%nat -> pad L c = c.
Proof.
  intros H. unfold pad. replace (L - length c)%nat with 0%nat by lia.
  apply app_nil_r.
Qed.


Lemma pad_column_Ok L o p c :
  o !! p = Some c -> FetchData.pad_column L o p = Ok (<[p := pad L c]> o).
Proof.
  intros H. unfold FetchData.pad_column, dict_get. rewrite H, Ok_bind.
  destruct (Nat.ltb_spec (length c) L) as [Hlt|Hge]; [done|].
  cbn. by rewrite pad_ge, insert_id.
Qed.







Lemma new_table_lookup cols p c : new_table cols !! p = Some c -> c = [].
Proof.
  induction cols as [|q cols IH]; cbn; [by rewrite lookup_empty|].
  destruct (decide (p = q)) as [->|Hne].
  - rewrite lookup_insert_eq. by intros [= <-].
  - by rewrite lookup_insert_ne.
Qed.



(** In that table the three rows of the absent field are all padding. *)
Example table_elv_columns :
  table_elv !! "slist" = Some [VInt 4; VInt 7; VInt 4] /\
  table_elv !! "elv" = Some [nan; nan; nan].
Proof. split; vm_compute; reflexivity. Qed.

(** ** Loops that update the columns of a dictionary *)

(** A loop over distinct keys whose body replaces the entry of its key by a
    function of that entry. *)
Lemma foldM_update {V : Type} (body : gmap string V -> string -> result (gmap string V))
    (g : string -> V -> V) (good : string -> V -> Prop) (l : list string) :
  NoDup l ->
  (forall o p c, p ∈ l -> o !! p = Some c -> good p c ->
                 body o p = Ok (<[p := g p c]> o)) ->
  forall o,
    (forall p, p ∈ l -> exists c, o !! p = Some c /\ good p c) ->
    exists o', foldM body o l = Ok o' /\
      forall q, o' !! q = if decide (q ∈ l) then g q <$> o !! q else o !! q.
Proof.
  intros Hnd Hbody. induction l as [|p l IH]; intros o Hgood.
  - exists o. split; [done|]. intros q. rewrite decide_False; [done | apply not_elem_of_nil].
  - apply NoDup_cons in Hnd as [Hp Hnd].
    destruct (Hgood p) as (c & Hc & Hg); [by left|].
    rewrite foldM_cons, (Hbody o p c) by (done || by left). rewrite Ok_bind.
    destruct (IH Hnd) with (o := <[p := g p c]> o) as (o' & Ho' & Hlook).
    + intros o1 q c1 Hq. apply Hbody. by right.
    + intros q Hq. rewrite lookup_insert_ne by (by intros ->). apply Hgood. by right.
    + exists o'. split; [done|]. intros q. rewrite Hlook.
      destruct (decide (q = p)) as [->|Hne].
      * rewrite decide_False by done. rewrite decide_True by (by left).
        by rewrite lookup_insert_eq, Hc.
      * rewrite lookup_insert_ne by done.
        destruct (decide (q ∈ l)) as [Hin|Hin].
        -- rewrite decide_True; [done | by right].
        -- rewrite decide_False; [done|]. intros [?|?]%elem_of_cons; done.
Qed.

(** ** FetchData.convert_to_pandas: the accumulated columns *)

Lemma new_table_Some cols p : p ∈ cols -> new_table cols !! p = Some [].
Proof.
  induction cols as [|q cols IH]; intros Hp; [by apply elem_of_nil in Hp|].
  cbn. destruct (decide (p = q)) as [->|Hne]; [by rewrite lookup_insert_eq|].
  rewrite lookup_insert_ne by done. apply IH.
  by apply elem_of_cons in Hp as [?|?].
Qed.

Lemma new_table_None cols p : p ∉ cols -> new_table cols !! p = None.
Proof.
  induction cols as [|q cols IH]; intros Hp; [apply lookup_empty|].
  cbn. apply not_elem_of_cons in Hp as [Hne Hp].
  rewrite lookup_insert_ne by done. by apply IH.
Qed.

Section Rows.

Variables s_params v_params : list string.
Hypothesis Hnodup : NoDup (s_params ++ v_params).
Hypothesis Hslist : "slist" ∈ v_params.

Lemma scalar_not_vector p : p ∈ s_params -> p ∉ v_params.
Proof. intros Hs Hv. apply NoDup_app in Hnodup as (_ & Hd & _). by apply (Hd p). Qed.

Lemma gates_len b l : attrs b !! "slist" = Some (VList l) -> gates b = length l.
Proof. unfold gates. by intros ->. Qed.

Lemma beam_rows_lookup b o :
  readable s_params v_params b ->
  (forall p, p ∈ s_params ++ v_params -> is_Some (o !! p)) ->
  exists o', FetchData.beam_rows s_params v_params o b = Ok o' /\
    forall q, o' !! q =
      if decide (q ∈ s_params ++ v_params)
      then (fun c => c ++ raw_cells v_params b q) <$> o !! q
      else o !! q.
Proof.
  intros [Hv Hs] Hkeys. unfold FetchData.beam_rows.
  destruct (Hv "slist" Hslist) as (sl & Hsl).
  rewrite (getattr_Some _ _ _ Hsl), Ok_bind. cbn [py_len]. rewrite Ok_bind.
  rewrite <- (gates_len _ _ Hsl).
  apply NoDup_app in Hnodup as (Hnds & Hdisj & Hndv).
  destruct (foldM_update (FetchData.extend_vector b)
              (fun p c => c ++ raw_cells v_params b p) (fun _ _ => True) v_params Hndv)
    with (o := o) as (o1 & Ho1 & Hl1).
  { intros o0 p c Hp Hc _. unfold FetchData.extend_vector, dict_get, raw_cells, vec.
    destruct (Hv p Hp) as (l & Hl).
    rewrite Hc, Ok_bind, (getattr_Some _ _ _ Hl), Ok_bind. cbn [py_iter].
    rewrite Ok_bind, decide_True, Hl by done. reflexivity. }
  { intros p Hp. destruct (Hkeys p) as [c Hc]; [apply elem_of_app; by right|]. eauto. }
  rewrite Ho1, Ok_bind.
  destruct (foldM_update (FetchData.extend_scalar b (gates b))
              (fun p c => c ++ raw_cells v_params b p) (fun _ _ => True) s_params Hnds)
    with (o := o1) as (o2 & Ho2 & Hl2).
  { intros o0 p c Hp Hc _. unfold FetchData.extend_scalar, dict_get, raw_cells.
    destruct (Hs p Hp) as (v & Hv').
    rewrite Hc, Ok_bind, (getattr_Some _ _ _ Hv'), Ok_bind.
    rewrite decide_False, Hv' by (by apply Hdisj). reflexivity. }
  { intros p Hp. rewrite Hl1, decide_False by (by apply Hdisj).
    destruct (Hkeys p) as [c Hc]; [apply elem_of_app; by left|]. eauto. }
  exists o2. split; [done|]. intros q. rewrite Hl2, Hl1.
  destruct (decide (q ∈ s_params)) as [Hqs|Hqs].
  - rewrite decide_False by (by apply Hdisj).
    rewrite decide_True; [done | apply elem_of_app; by left].
  - destruct (decide (q ∈ v_params)) as [Hqv|Hqv].
    + rewrite decide_True; [done | apply elem_of_app; by right].
    + rewrite decide_False; [done|]. intros [?|?]%elem_of_app; done.
Qed.

Lemma rows_lookup B : forall o,
  Forall (readable s_params v_params) B ->
  (forall p, p ∈ s_params ++ v_params -> is_Some (o !! p)) ->
  exists o', foldM (FetchData.beam_rows s_params v_params) o B = Ok o' /\
    forall q, o' !! q =
      if decide (q ∈ s_params ++ v_params)
      then (fun c => c ++ concat (map (fun b => raw_cells v_params b q) B)) <$> o !! q
      else o !! q.
Proof.
  induction B as [|b B IH]; intros o HB Hkeys.
  - exists o. split; [done|]. intros q. destruct (decide _); [|done].
    cbn. destruct (o !! q); [|done]. cbn. by rewrite app_nil_r.
  - apply Forall_cons in HB as [Hb HB].
    destruct (beam_rows_lookup b o Hb Hkeys) as (o1 & Ho1 & Hl1).
    rewrite foldM_cons, Ho1, Ok_bind.
    destruct (IH o1 HB) as (o' & Ho' & Hl').
    { intros p Hp. rewrite Hl1, decide_True by done.
      destruct (Hkeys p Hp) as [c ->]. by eexists. }
    exists o'. split; [done|]. intros q. rewrite Hl', Hl1.
    destruct (decide _); [|done]. destruct (o !! q); [|done].
    cbn. by rewrite app_assoc.
Qed.

(** The columns accumulated by the first loop of [convert_to_pandas]. *)
Lemma rows_of_new_table B :
  Forall (readable s_params v_params) B ->
  exists raw,
    foldM (FetchData.beam_rows s_params v_params) (new_table (s_params ++ v_params)) B
      = Ok raw /\
    forall q, raw !! q =
      if decide (q ∈ s_params ++ v_params)
      then Some (concat (map (fun b => raw_cells v_params b q) B))
      else None.
Proof.
  intros HB.
  destruct (rows_lookup B (new_table (s_params ++ v_params)) HB) as (raw & Hraw & Hl).
  { intros p Hp. rewrite new_table_Some by done. by eexists. }
  exists raw. split; [done|]. intros q. rewrite Hl.
  destruct (decide _) as [Hq|Hq].
  - by rewrite new_table_Some.
  - by apply new_table_None.
Qed.

End Rows.

(** ** FetchData.convert_to_pandas: the table of flattenable beams *)

Lemma concat_length_gates {A : Type} (g : Beam -> list A) B :
  (forall b, b ∈ B -> length (g b) = gates b) ->
  length (concat (map g B)) = total_gates B.
Proof.
  induction B as [|b B IH]; intros H; [done|].
  cbn. rewrite length_app, H by (by left). unfold total_gates in IH.
  rewrite IH; [done|]. intros b' Hb'. apply H. by right.
Qed.

Lemma concat_nil {A : Type} (g : Beam -> list A) B :
  (forall b, b ∈ B -> g b = []) -> concat (map g B) = [].
Proof.
  induction B as [|b B IH]; intros H; [done|].
  cbn. rewrite H by (by left). apply IH. intros b' Hb'. apply H. by right.
Qed.

Lemma concat_replicate {A : Type} (x : A) B :
  concat (map (fun b => replicate (gates b) x) B) = replicate (total_gates B) x.
Proof.
  induction B as [|b B IH]; [done|].
  cbn. rewrite IH. unfold total_gates. cbn. by rewrite replicate_add.
Qed.

Lemma same_length_true o L : uniform L o -> same_length o = true.
Proof.
  intros Hu. unfold same_length. destruct (map_to_list o) as [|[k c] l] eqn:E; [done|].
  apply bool_decide_eq_true. intros p c' Hp.
  assert (Hk : o !! k = Some c).
  { apply elem_of_map_to_list. rewrite E. by left. }
  by rewrite (Hu _ _ Hp), (Hu _ _ Hk).
Qed.

Section Table.

Variables s_params v_params : list string.
Variable B : list Beam.
Hypothesis HB : flattenable s_params v_params B.

Lemma flattenable_vector b p :
  b ∈ B -> p ∈ v_params ->
  exists l, attrs b !! p = Some (VList l) /\ (length l = gates b \/ l = []).
Proof.
  intros Hb Hp. destruct (fl_vector _ _ _ HB p Hp) as [Hf|He].
  - destruct (Hf b Hb) as (l & Hl & Hlen). eauto.
  - exists []. split; [by apply He | by right].
Qed.

Lemma flattenable_readable : Forall (readable s_params v_params) B.
Proof.
  apply Forall_forall. intros b Hb. split.
  - intros p Hp. destruct (flattenable_vector b p Hb Hp) as (l & Hl & _). eauto.
  - intros p Hp. by apply (fl_scalar _ _ _ HB).
Qed.

Lemma cells_length b q :
  b ∈ B -> q ∈ s_params ++ v_params -> length (cells s_params v_params b q) = gates b.
Proof.
  intros Hb Hq. unfold cells. destruct (decide (q ∈ v_params)) as [Hv|Hv].
  - rewrite pad_length. unfold vec.
    destruct (flattenable_vector b q Hb Hv) as (l & -> & [Hl| ->]); cbn; lia.
  - apply elem_of_app in Hq as [Hs|?]; [|done].
    destruct (fl_scalar _ _ _ HB b q Hb Hs) as [v ->]. apply length_replicate.
Qed.

Lemma slist_column_length :
  length (concat (map (fun b => raw_cells v_params b "slist") B)) = total_gates B.
Proof.
  apply concat_length_gates. intros b Hb. unfold raw_cells, vec.
  rewrite decide_True by apply (fl_slist _ _ _ HB).
  pose proof (fl_gates _ _ _ HB b Hb) as Hg. unfold gates in *.
  destruct (attrs b !! "slist") as [[| | | | |l]|]; cbn in *; lia.
Qed.

(** Padding turns the accumulated column into the rows [cells]. *)
Lemma padded_column q :
  q ∈ s_params ++ v_params ->
  pad (total_gates B) (concat (map (fun b => raw_cells v_params b q) B))
  = concat (map (fun b => cells s_params v_params b q) B).
Proof.
  intros Hq. destruct (decide (q ∈ v_params)) as [Hv|Hv].
  - destruct (fl_vector _ _ _ HB q Hv) as [Hf|He].
    + rewrite pad_ge.
      * f_equal. apply map_ext_in. intros b Hb%list_elem_of_In.
        unfold cells, raw_cells. rewrite !decide_True by done.
        destruct (Hf b Hb) as (l & Hl & Hlen). unfold vec. rewrite Hl.
        by rewrite pad_ge by lia.
      * rewrite (concat_length_gates _ B); [done|]. intros b Hb.
        unfold raw_cells, vec. rewrite decide_True by done.
        by destruct (Hf b Hb) as (l & -> & Hlen).
    + rewrite (concat_nil _ B).
      * unfold pad at 1. cbn. rewrite Nat.sub_0_r, <- concat_replicate.
        f_equal. apply map_ext_in. intros b Hb%list_elem_of_In.
        unfold cells, vec. rewrite decide_True, (He b Hb) by done.
        unfold pad. cbn. by rewrite Nat.sub_0_r.
      * intros b Hb. unfold raw_cells, vec. by rewrite decide_True, (He b Hb).
  - assert (Hs : q ∈ s_params) by (by apply elem_of_app in Hq as [?|?]).
    rewrite pad_ge.
    + f_equal. apply map_ext_in. intros b Hb. unfold cells, raw_cells.
      by rewrite !decide_False.
    + rewrite (concat_length_gates _ B); [done|]. intros b Hb.
      unfold raw_cells. rewrite decide_False by done.
      destruct (fl_scalar _ _ _ HB b q Hb Hs) as [v ->]. apply length_replicate.
Qed.

(** The table that [convert_to_pandas] returns: one block of [gates b] rows
    per beam, in the order of the beams. *)
Lemma convert_table :
  exists df,
    FetchData.convert_to_pandas B s_params v_params = Ok df /\
    forall q, df !! q =
      if decide (q ∈ s_params ++ v_params)
      then Some (concat (map (fun b => cells s_params v_params b q) B))
      else None.
Proof.
  unfold FetchData.convert_to_pandas.
  destruct (rows_of_new_table s_params v_params (fl_nodup _ _ _ HB) (fl_slist _ _ _ HB)
              B flattenable_readable) as (raw & Hraw & Hlraw).
  rewrite Hraw, Ok_bind. unfold FetchData.pad_columns, dict_get.
  assert (Hsl : "slist" ∈ s_params ++ v_params).
  { apply elem_of_app. right. apply (fl_slist _ _ _ HB). }
  rewrite Hlraw, decide_True, Ok_bind, slist_column_length by done.
  destruct (foldM_update (FetchData.pad_column (total_gates B))
              (fun _ c => pad (total_gates B) c) (fun _ _ => True)
              (s_params ++ v_params) (fl_nodup _ _ _ HB))
    with (o := raw) as (o & Ho & Hlo).
  { intros o0 p c _ Hc _. by apply pad_column_Ok. }
  { intros p Hp. rewrite Hlraw, decide_True by done. eauto. }
  rewrite Ho, Ok_bind.
  assert (Hcols : forall q, o !! q =
            if decide (q ∈ s_params ++ v_params)
            then Some (concat (map (fun b => cells s_params v_params b q) B))
            else None).
  { intros q. rewrite Hlo, Hlraw. destruct (decide _) as [Hq|Hq]; [|done].
    cbn. by rewrite padded_column. }
  exists o. split; [|done]. unfold from_records.
  rewrite (same_length_true o (total_gates B)); [done|].
  intros p col Hp. rewrite Hcols in Hp. destruct (decide _) as [Hq|]; [|done].
  injection Hp as <-. apply concat_length_gates. intros b Hb. by apply cells_length.
Qed.

End Table.

(** ** np.unique and row selection on a table of blocks *)

Lemma insert_unique_number z acc :
  insert_unique (VInt z) (map VInt acc) = Ok (map VInt (insert_number z acc)).
Proof.
  induction acc as [|y acc IH]; [done|].
  cbn [map insert_unique insert_number]. unfold eq_nan, lt_nan_last. cbn.
  rewrite orb_false_r. destruct (z =? y); [done|].
  destruct (z <? y); [done|]. by rewrite IH.
Qed.

Lemma insert_number_twice z acc :
  insert_number z (insert_number z acc) = insert_number z acc.
Proof.
  induction acc as [|y acc IH]; cbn.
  - by rewrite Z.eqb_refl.
  - destruct (z =? y) eqn:E1; [by cbn; rewrite E1|].
    destruct (z <? y) eqn:E2; cbn; [by rewrite Z.eqb_refl|].
    by rewrite E1, E2, IH.
Qed.

Lemma elem_of_insert_number z' z acc :
  z' ∈ insert_number z acc <-> z' = z \/ z' ∈ acc.
Proof.
  induction acc as [|y acc IH]; cbn.
  - rewrite list_elem_of_singleton, elem_of_nil. tauto.
  - destruct (Z.eqb_spec z y) as [->|Hne]; [rewrite elem_of_cons; tauto|].
    destruct (z <? y); [rewrite elem_of_cons; tauto|].
    rewrite !elem_of_cons, IH. tauto.
Qed.

Lemma insert_number_sorted z acc :
  StronglySorted Z.lt acc -> StronglySorted Z.lt (insert_number z acc).
Proof.
  induction 1 as [|y acc Hs IH Hlt]; cbn; [repeat constructor|].
  destruct (Z.eqb_spec z y) as [->|Hne]; [by constructor|].
  destruct (Z.ltb_spec z y) as [Hzy|Hzy].
  - constructor; [by constructor|]. constructor; [done|].
    eapply Forall_impl; [exact Hlt|]. intros; cbn in *; lia.
  - constructor; [done|]. apply Forall_forall.
    intros x [->|Hx]%elem_of_insert_number; [lia|].
    rewrite Forall_forall in Hlt. by apply Hlt.
Qed.

Lemma insert_number_length z acc :
  z ∉ acc -> length (insert_number z acc) = S (length acc).
Proof.
  induction acc as [|y acc IH]; intros Hz; [done|]. cbn.
  apply not_elem_of_cons in Hz as [Hne Hz].
  destruct (Z.eqb_spec z y); [done|]. destruct (z <? y); [done|].
  cbn. by rewrite IH.
Qed.

Lemma elem_of_unique_numbers z zs : z ∈ unique_numbers zs <-> z ∈ zs.
Proof.
  induction zs as [|y zs IH]; [done|].
  change (unique_numbers (y :: zs)) with (insert_number y (unique_numbers zs)).
  rewrite elem_of_insert_number, elem_of_cons, IH. tauto.
Qed.

Lemma unique_numbers_sorted zs : StronglySorted Z.lt (unique_numbers zs).
Proof.
  induction zs as [|y zs IH]; [constructor|].
  change (unique_numbers (y :: zs)) with (insert_number y (unique_numbers zs)).
  by apply insert_number_sorted.
Qed.

Lemma unique_numbers_length zs : NoDup zs -> length (unique_numbers zs) = length zs.
Proof.
  induction 1 as [|y zs Hy Hnd IH]; [done|].
  change (unique_numbers (y :: zs)) with (insert_number y (unique_numbers zs)).
  rewrite insert_number_length, IH; [done|]. by rewrite elem_of_unique_numbers.
Qed.

Lemma np_unique_block n z rest acc :
  np_unique rest = Ok (map VInt acc) ->
  np_unique (replicate (S n) (VInt z) ++ rest) = Ok (map VInt (insert_number z acc)).
Proof.
  intros Hrest. induction n as [|n IH].
  - cbn. rewrite Hrest, Ok_bind. apply insert_unique_number.
  - change (replicate (S (S n)) (VInt z) ++ rest)
      with (VInt z :: (replicate (S n) (VInt z) ++ rest)).
    cbn [np_unique]. rewrite IH, Ok_bind, insert_unique_number.
    by rewrite insert_number_twice.
Qed.

(** [np.unique] on the beam-number column of a table of blocks. *)
Lemma np_unique_blocks B :
  (forall b, b ∈ B -> (0 < gates b)%nat) ->
  np_unique (concat (map (fun b => replicate (gates b) (VInt (number b))) B))
  = Ok (map VInt (unique_numbers (numbers B))).
Proof.
  induction B as [|b B IH]; intros Hg; [done|].
  change (unique_numbers (numbers (b :: B)))
    with (insert_number (number b) (unique_numbers (numbers B))).
  cbn [map concat]. destruct (gates b) as [|n] eqn:En.
  - specialize (Hg b ltac:(by left)). lia.
  - apply np_unique_block. apply IH. intros b' Hb'. apply Hg. by right.
Qed.

Lemma select_block (h : value -> bool) n x rest c1 c2 :
  length c1 = n ->
  select (map h (replicate n x ++ rest)) (c1 ++ c2)
  = (if h x then c1 else []) ++ select (map h rest) c2.
Proof.
  revert c1. induction n as [|n IH]; intros c1 Hlen.
  - destruct c1; [|done]. cbn. by destruct (h x).
  - destruct c1 as [|y c1]; [done|]. injection Hlen as Hlen.
    cbn. rewrite (IH c1 Hlen). by destruct (h x).
Qed.

Lemma select_blocks (g : Beam -> list value) z B :
  (forall b, b ∈ B -> length (g b) = gates b) ->
  select (eq_mask (concat (map (fun b => replicate (gates b) (VInt (number b))) B)) (VInt z))
         (concat (map g B))
  = concat (map (fun b => if number b =? z then g b else []) B).
Proof.
  induction B as [|b B IH]; intros Hlen; [done|].
  cbn [map concat]. unfold eq_mask in *.
  rewrite select_block by (apply Hlen; by left).
  cbn [py_eq]. f_equal. apply IH. intros b' Hb'. apply Hlen. by right.
Qed.

Lemma pick_block (g : Beam -> list value) B b :
  NoDup (map number B) -> b ∈ B ->
  concat (map (fun b' => if number b' =? number b then g b' else []) B) = g b.
Proof.
  induction B as [|b0 B IH]; intros Hnd Hb; [by apply elem_of_nil in Hb|].
  cbn [map concat] in *. apply NoDup_cons in Hnd as [Hnot Hnd].
  destruct (Z.eqb_spec (number b0) (number b)) as [Heq|Hne].
  - assert (Hrest : concat (map (fun b' => if number b' =? number b then g b' else []) B) = []).
    { apply concat_nil. intros b' Hb'. destruct (Z.eqb_spec (number b') (number b)); [|done].
      exfalso. apply Hnot. rewrite Heq. apply list_elem_of_fmap. by exists b'. }
    rewrite Hrest, app_nil_r.
    apply elem_of_cons in Hb as [->|Hb]; [done|].
    exfalso. apply Hnot. rewrite Heq. apply list_elem_of_fmap. by exists b.
  - cbn. apply IH; [done|]. by apply elem_of_cons in Hb as [->|Hb].
Qed.

(** Distinct beam numbers name the beams. *)
Lemma number_inj B b1 b2 :
  NoDup (numbers B) -> b1 ∈ B -> b2 ∈ B -> number b1 = number b2 -> b1 = b2.
Proof.
  induction B as [|b B IH]; intros Hnd H1 H2 Heq; [by apply elem_of_nil in H1|].
  cbn in Hnd. apply NoDup_cons in Hnd as [Hnot Hnd].
  apply elem_of_cons in H1 as [->|H1]; apply elem_of_cons in H2 as [->|H2]; auto.
  - exfalso. apply Hnot. rewrite Heq. apply list_elem_of_fmap. by exists b2.
  - exfalso. apply Hnot. rewrite <- Heq. apply list_elem_of_fmap. by exists b1.
Qed.

(** ** FetchData.pandas_to_beams on the table of flattenable beams *)

Section RoundTrip.

Variables s_params v_params : list string.
Variable B : list Beam.
Hypothesis HB : flattenable s_params v_params B.

Variable df : gmap string (list value).
Hypothesis Hdf : forall q, df !! q =
  if decide (q ∈ s_params ++ v_params)
  then Some (concat (map (fun b => cells s_params v_params b q) B))
  else None.

Lemma number_attr b : b ∈ B -> attrs b !! "bmnum" = Some (VInt (number b)).
Proof.
  intros Hb. destruct (fl_number _ _ _ HB b Hb) as [z Hz].
  unfold number. rewrite Hz. unfold beam_number in Hz.
  by destruct (attrs b !! "bmnum") as [[]|]; simplify_eq.
Qed.

Lemma bmnum_column :
  df !! "bmnum"
  = Some (concat (map (fun b => replicate (gates b) (VInt (number b))) B)).
Proof.
  pose proof (fl_bmnum _ _ _ HB) as Hbm.
  rewrite Hdf, decide_True by (apply elem_of_app; by left).
  f_equal. f_equal. apply map_ext_in. intros b Hb%list_elem_of_In.
  unfold cells.
  rewrite decide_False by (by apply (scalar_not_vector _ _ (fl_nodup _ _ _ HB))).
  by rewrite number_attr.
Qed.

(** The rows selected for the beam number of [b] are the block of [b]. *)
Lemma group_columns b o :
  b ∈ B ->
  df_where df "bmnum" (VInt (number b)) = Ok o ->
  forall q, o !! q =
    if decide (q ∈ s_params ++ v_params) then Some (cells s_params v_params b q) else None.
Proof.
  intros Hb Ho q. unfold df_where, df_column in Ho.
  rewrite bmnum_column, Ok_bind in Ho. injection Ho as <-.
  rewrite lookup_fmap, Hdf. destruct (decide _) as [Hq|Hq]; [|done].
  cbn. f_equal.
  rewrite select_blocks by (intros b' Hb'; by apply (cells_length _ _ B HB)).
  apply (pick_block (fun b' => cells s_params v_params b' q)); [|done].
  apply (fl_distinct _ _ _ HB).
Qed.

Lemma scalar_cells b p v :
  b ∈ B -> p ∈ s_params -> attrs b !! p = Some v ->
  exists l, cells s_params v_params b p = v :: l.
Proof.
  intros Hb Hp Hv. unfold cells.
  rewrite decide_False by (by apply (scalar_not_vector _ _ (fl_nodup _ _ _ HB))).
  rewrite Hv. pose proof (fl_gates _ _ _ HB b Hb) as Hg.
  destruct (gates b) as [|n]; [lia|]. by exists (replicate n v).
Qed.

Lemma first_row_Ok d p v l :
  d !! p = Some (VList (v :: l)) ->
  FetchData.first_row d p = Ok (<[p := first_entry (VList (v :: l))]> d).
Proof. intros H. unfold FetchData.first_row, dict_get. by rewrite H. Qed.

Lemma beam_of_group_same b :
  b ∈ B ->
  exists b', FetchData.beam_of_group df s_params v_params (VInt (number b)) = Ok b' /\
             same_fields s_params v_params b b'.
Proof.
  intros Hb. unfold FetchData.beam_of_group.
  destruct (df_where df "bmnum" (VInt (number b))) as [o|e] eqn:Ho;
    [|by unfold df_where, df_column in Ho; rewrite bmnum_column in Ho].
  rewrite Ok_bind. pose proof (group_columns b o Hb Ho) as Hcols.
  pose proof (fl_nodup _ _ _ HB) as Hnd.
  apply NoDup_app in Hnd as (Hnds & Hdisj & Hndv).
  destruct (foldM_update FetchData.first_row (fun _ c => first_entry c)
              (fun _ c => exists v l, c = VList (v :: l)) s_params Hnds)
    with (o := VList <$> o) as (d & Hd & Hld).
  { intros d0 p c _ Hc (v & l & ->). by apply first_row_Ok. }
  { intros p Hp. destruct (fl_scalar _ _ _ HB b p Hb Hp) as [v Hv].
    destruct (scalar_cells b p v Hb Hp Hv) as (l & Hl).
    exists (VList (v :: l)). split; [|by eauto].
    rewrite lookup_fmap, Hcols, decide_True by (apply elem_of_app; by left).
    cbn. by rewrite Hl. }
  rewrite Hd, Ok_bind.
  pose proof (fl_time _ _ _ HB) as Htime.
  destruct (fl_scalar _ _ _ HB b "time" Hb Htime) as [t Ht].
  destruct (scalar_cells b "time" t Hb Htime Ht) as (lt & Hlt).
  unfold df_column. rewrite Hcols, decide_True, Hlt by (apply elem_of_app; by left).
  rewrite Ok_bind. change (list_index (t :: lt) 0) with (Ok t). rewrite Ok_bind.
  eexists. split; [apply set_Ok|]. split.
  - intros p Hp. cbn [attrs].
    destruct (fl_scalar _ _ _ HB b p Hb Hp) as [v Hv].
    destruct (scalar_cells b p v Hb Hp Hv) as (l & Hl).
    assert (Hdp : d !! p = Some v).
    { rewrite Hld, decide_True, lookup_fmap, Hcols, decide_True
        by (done || apply elem_of_app; by left).
      cbn. by rewrite Hl. }
    destruct (decide (p = "time")) as [->|Hne].
    + rewrite lookup_insert_eq. congruence.
    + rewrite lookup_insert_ne by done.
      rewrite lookup_assign, decide_False by (by apply Hdisj).
      rewrite lookup_assign, decide_True by done.
      rewrite Hv. f_equal. unfold scalar_of. rewrite Hdp.
      destruct (String.eqb_spec p "scan") as [->|_]; [|done]. cbn.
      destruct (py_ne v (VInt 0)) eqn:Hnz; [|done].
      symmetry. by apply (fl_scan _ _ _ HB b Hb).
  - intros p Hp. cbn [attrs].
    destruct (flattenable_vector _ _ B HB b p Hb Hp) as (l & Hl & _).
    exists l. split; [done|].
    rewrite lookup_insert_ne by (intros <-; by apply (Hdisj "time")).
    rewrite lookup_assign, decide_True by done. f_equal.
    unfold vector_of.
    rewrite Hld, decide_False, lookup_fmap, Hcols, decide_True
      by ((intros ?; by apply (Hdisj p)) || apply elem_of_app; by right).
    cbn. unfold cells, vec. by rewrite decide_True, Hl.
Qed.

(** The reconstruction returns one beam per beam number, in ascending order
    of the numbers; each is the image of the beam with that number. *)
Lemma pandas_to_beams_same :
  exists B', FetchData.pandas_to_beams df s_params v_params = Ok B' /\
    Forall2 (fun z b' => exists b, b ∈ B /\ number b = z /\
                                   same_fields s_params v_params b b')
            (unique_numbers (numbers B)) B'.
Proof.
  unfold FetchData.pandas_to_beams, df_column.
  rewrite bmnum_column, Ok_bind.
  rewrite np_unique_blocks, Ok_bind by apply (fl_gates _ _ _ HB).
  apply (mapM_map_Forall2 (FetchData.beam_of_group df s_params v_params) VInt).
  intros z Hz. apply (proj1 (elem_of_unique_numbers _ _)) in Hz.
  apply list_elem_of_fmap in Hz as (b & -> & Hb).
  destruct (beam_of_group_same b Hb) as (b' & Hb' & Hsame). eauto 6.
Qed.

End RoundTrip.

(** ** The round trip beams -> table -> beams *)

Lemma Forall2_numbers (R : Beam -> Beam -> Prop) (B : list Beam) zs B' :
  (forall b b', R b b' -> number b' = number b) ->
  Forall2 (fun z b' => exists b, b ∈ B /\ number b = z /\ R b b') zs B' ->
  numbers B' = zs.
Proof.
  intros HR. induction 1 as [|z b' zs B' (b & _ & <- & Hb) _ IH]; [done|].
  change (numbers (b' :: B')) with (number b' :: numbers B').
  by rewrite (HR b b' Hb), IH.
Qed.

Lemma same_fields_number s_params v_params b b' :
  "bmnum" ∈ s_params -> same_fields s_params v_params b b' -> number b' = number b.
Proof.
  intros Hbm [Hs _]. unfold number, beam_number. by rewrite (Hs "bmnum" Hbm).
Qed.

(** C1, as amended. For beams with pairwise distinct integer beam numbers,
    at least one gate each, a scan flag of 0 or 1, every vector field either
    of gate-count length in all beams or empty in all beams, field lists
    without repetition that hold "bmnum" and "time" as scalar fields and
    "slist" as a vector field, and fields whose values are of one type over
    all the beams (all integers, all floats, all timestamps, all strings or
    all [None], so that the table stores them unconverted): flattening
    succeeds and the reconstruction returns as many beams, in ascending
    order of beam number; every reconstructed beam is the image of an
    original beam and every original beam has its image, with identical
    scalar fields and with vector fields that are the original ones, padded
    with NaN up to the gate count when they were empty. *)
Theorem round_trip (s_params v_params : list string) (B : list Beam) :
  flattenable s_params v_params B ->
  typed_columns s_params v_params B ->
  exists df B',
    FetchData.convert_to_pandas B s_params v_params = Ok df /\
    FetchData.pandas_to_beams df s_params v_params = Ok B' /\
    length B' = length B /\
    StronglySorted Z.lt (numbers B') /\
    (forall b', b' ∈ B' -> exists b, b ∈ B /\ same_fields s_params v_params b b') /\
    (forall b, b ∈ B -> exists b', b' ∈ B' /\ same_fields s_params v_params b b').
Proof.
  intros HB _.
  destruct (convert_table s_params v_params B HB) as (df & Hdf & Hcols).
  destruct (pandas_to_beams_same s_params v_params B HB df Hcols) as (B' & HB' & HF).
  exists df, B'. split; [done|]. split; [done|].
  pose proof (fl_distinct _ _ _ HB) as Hnd.
  assert (Hnum : numbers B' = unique_numbers (numbers B)).
  { apply (Forall2_numbers (same_fields s_params v_params) B); [|done].
    intros b b'. apply same_fields_number, (fl_bmnum _ _ _ HB). }
  split; [|split; [|split]].
  - rewrite <- (Forall2_length _ _ _ HF), unique_numbers_length by done.
    apply length_map.
  - rewrite Hnum. apply unique_numbers_sorted.
  - intros b' [i Hi]%list_elem_of_lookup.
    destruct (Forall2_lookup_r _ _ _ _ _ HF Hi) as (z & _ & b & Hb & _ & Hsame). eauto.
  - intros b Hb.
    assert (Hz : number b ∈ unique_numbers (numbers B)).
    { apply elem_of_unique_numbers, list_elem_of_fmap. by exists b. }
    apply list_elem_of_lookup in Hz as [i Hi].
    destruct (Forall2_lookup_l _ _ _ _ _ HF Hi) as (b' & Hb' & b0 & Hb0 & Heq & Hsame).
    rewrite (number_inj B b0 b Hnd Hb0 Hb Heq) in Hsame.
    exists b'. split; [|done]. apply list_elem_of_lookup. by exists i.
Qed.

Ltac each_beam Hb :=
  repeat (apply elem_of_cons in Hb as [->|Hb]); [..|by apply elem_of_nil in Hb].

Ltac one_type_cells :=
  first [ by exists IntCell | by exists FloatCell | by exists TimeCell
        | by exists StrCell | by exists NoneCell ].

Ltac typed_columns_cells :=
  let p := fresh "p" in
  let Hp := fresh "Hp" in
  intros p Hp; cbn in Hp;
  repeat (apply elem_of_cons in Hp as [->|Hp]); try (by apply elem_of_nil in Hp);
  one_type_cells.

Lemma round_trip_witness :
  exists df B',
    FetchData.convert_to_pandas [beam_1g; beam_2g] fields_st fields_ve = Ok df /\
    FetchData.pandas_to_beams df fields_st fields_ve = Ok B' /\
    length B' = length [beam_1g; beam_2g] /\
    StronglySorted Z.lt (numbers B') /\
    (forall b', b' ∈ B' ->
       exists b, b ∈ [beam_1g; beam_2g] /\ same_fields fields_st fields_ve b b') /\
    (forall b, b ∈ [beam_1g; beam_2g] ->
       exists b', b' ∈ B' /\ same_fields fields_st fields_ve b b').
Proof.
  apply (round_trip fields_st fields_ve [beam_1g; beam_2g]); [|typed_columns_cells].
  constructor.
  - compute_done.
  - compute_done.
  - compute_done.
  - compute_done.
  - intros b Hb. each_beam Hb; vm_compute; lia.
  - intros p Hp. repeat (apply elem_of_cons in Hp as [->|Hp]);
      [left|left|right|by apply elem_of_nil in Hp];
      intros b Hb; each_beam Hb; try (eexists; split); vm_compute; reflexivity.
  - intros b p Hb Hp. each_beam Hb;
      (repeat (apply elem_of_cons in Hp as [->|Hp]); [..|by apply elem_of_nil in Hp]);
      eexists; vm_compute; reflexivity.
  - intros b Hb. each_beam Hb; eexists; vm_compute; reflexivity.
  - intros b Hb. each_beam Hb; intros x Hx Hnz; vm_compute in Hx;
      injection Hx as <-; first [reflexivity | discriminate Hnz].
  - compute_done.
Defined.

(** In that round trip beam 1 was given before beam 0; they come back in
    ascending order, and the absent field [elv] comes back as NaN padding of
    gate-count length, inside the gate count of each beam. *)
Example round_trip_elv :
  map (fun b => (attrs b !! "bmnum", attrs b !! "elv"))
      (unflat fields_st fields_ve [beam_1g; beam_2g])
  = [(Some (VInt 0), Some (VList [nan; nan])); (Some (VInt 1), Some (VList [nan]))].
Proof. vm_compute. reflexivity. Qed.

(** The two samples of beam 3 come back as one beam that holds the gates of
    both and the time of the first. *)
Example round_trip_merged :
  map (fun b => (attrs b !! "bmnum", attrs b !! "v", attrs b !! "time"))
      (unflat fields_st fields_v beams_33)
  = [(Some (VInt 3), Some (VList [VFloat 12.5; VFloat (-40)]),
      Some (VTime (mk_dt 2015 3 17 3 1 0 0)))].
Proof. vm_compute. reflexivity. Qed.

(** C1, as stated, fails.  Two beams with one beam number come back as one
    beam whose vectors hold the gates of both, which is neither of the
    originals followed by NaN padding; and a vector field absent from the
    records comes back as padding at positions within the gate count. *)
Lemma round_trip_counterexample :
  ~ round_trip_claim fields_st fields_v beams_33 /\
  ~ round_trip_claim fields_st fields_ve [beam_2g].
Proof.
  split.
  - intros H.
    specialize (H (flat fields_st fields_v beams_33) (unflat fields_st fields_v beams_33)
                  ltac:(vm_compute; reflexivity) ltac:(vm_compute; reflexivity)).
    assert (Hu : exists b', unflat fields_st fields_v beams_33 = [b'] /\
                   attrs b' !! "v" = Some (VList [VFloat 12.5; VFloat (-40)]))
      by (eexists; split; vm_compute; reflexivity).
    destruct Hu as (b' & Hu & Hv'). rewrite Hu in H.
    destruct (H b' ltac:(by left)) as (b & Hb & _ & Hv).
    destruct (Hv "v" ltac:(by left)) as (l & padding & Hl & Hl' & Hnan & _).
    rewrite Hv' in Hl'. injection Hl' as Hl'.
    unfold beams_33 in Hb. each_beam Hb; vm_compute in Hl; injection Hl as <-.
    + injection Hl' as <-. apply Forall_cons in Hnan as [Hnan _].
      apply (f_equal is_nan_value) in Hnan. vm_compute in Hnan. discriminate Hnan.
    + apply (f_equal (fun c => match c with
                               | x :: _ => py_eq (VFloat 12.5) x
                               | [] => false
                               end)) in Hl'.
      vm_compute in Hl'. discriminate Hl'.
  - intros H.
    specialize (H (flat fields_st fields_ve [beam_2g]) (unflat fields_st fields_ve [beam_2g])
                  ltac:(vm_compute; reflexivity) ltac:(vm_compute; reflexivity)).
    assert (Hu : exists b', unflat fields_st fields_ve [beam_2g] = [b'] /\
                   attrs b' !! "elv" = Some (VList [nan; nan]))
      by (eexists; split; vm_compute; reflexivity).
    destruct Hu as (b' & Hu & Helv). rewrite Hu in H.
    destruct (H b' ltac:(by left)) as (b & Hb & _ & Hv).
    apply list_elem_of_singleton in Hb as ->.
    destruct (Hv "elv") as (l & padding & Hl & Hl' & _ & Hbeyond).
    { right. right. by left. }
    assert (l = []) as -> by (vm_compute in Hl; by injection Hl as <-).
    rewrite Helv in Hl'. injection Hl' as <-.
    specialize (Hbeyond ltac:(discriminate)). vm_compute in Hbeyond. lia.
Qed.

(** ** NaN in binary64 arithmetic *)











(** ** Beam.gs_estimation on float64 arrays of one length *)













(** In that beam the first gate is ground scatter under the criteria 0, 1
    and 2, and the second gate under none. *)
Example gate_flags_two :
  gate_flags [12.5%float; 400%float] [3%float; 90%float]
  = <[3 := [0; 0]]> (<[2 := [1; 0]]> (<[1 := [1; 0]]> (<[0 := [1; 0]]> ∅))).
Proof. reflexivity. Qed.

(** ** Beam.copy *)

Lemma copy_attrs self bm : attrs (Beam.copy self bm) = attrs bm ∪ attrs self.
Proof.
  unfold Beam.copy.
  assert (H : attrs (map_fold (fun p v self => setattr self p v) self (attrs bm))
              = attrs bm ∪ attrs self).
  { apply (map_fold_weak_ind (fun r m => attrs r = m ∪ attrs self)).
    - by rewrite (left_id_L ∅ (∪)).
    - intros p v m r _ IH. cbn. by rewrite IH, insert_union_l. }
  by destruct (gsflg bm).
Qed.

Lemma copy_gsflg self bm :
  gsflg (Beam.copy self bm) = match gsflg bm with Some g => Some g | None => gsflg self end.
Proof.
  unfold Beam.copy. destruct (gsflg bm); [done|].
  apply (map_fold_weak_ind (fun r (m : gmap string value) => gsflg r = gsflg self)); done.
Qed.

(** X5. [Beam.copy] sets on [self] every attribute of [bm] (an attribute of
    [self] that [bm] lacks is kept): afterwards every attribute of [bm],
    and its ground-scatter flags if it has them, read on [self] as on [bm];
    a fresh beam becomes an equal of [bm]; and copying twice is copying
    once. *)
Theorem copy_reads_as_source (self bm : Beam) :
  (forall p v, getattr bm p = Ok v -> getattr (Beam.copy self bm) p = Ok v) /\
  (forall p, attrs bm !! p = None -> getattr (Beam.copy self bm) p = getattr self p) /\
  (forall g, gsflg bm = Some g -> gsflg (Beam.copy self bm) = Some g) /\
  Beam.copy Beam_init bm = bm /\
  Beam.copy (Beam.copy self bm) bm = Beam.copy self bm.
Proof.
  assert (Heq : forall b1 b2, attrs b1 = attrs b2 -> gsflg b1 = gsflg b2 -> b1 = b2).
  { intros [a1 g1] [a2 g2]; cbn. by intros -> ->. }
  repeat split.
  - intros p v H%getattr_Ok. apply getattr_Some.
    rewrite copy_attrs. by apply lookup_union_Some_l.
  - intros p H. unfold getattr. by rewrite copy_attrs, lookup_union_r.
  - intros g H. by rewrite copy_gsflg, H.
  - apply Heq.
    + rewrite copy_attrs. cbn. by rewrite (right_id_L ∅ (∪)).
    + rewrite copy_gsflg. cbn. by destruct (gsflg bm).
  - apply Heq.
    + rewrite !copy_attrs. by rewrite (assoc_L (∪)), (idemp_L (∪)).
    + rewrite !copy_gsflg. by destruct (gsflg bm).
Qed.

(** ** Gate *)

Lemma list_index_lookup {A : Type} (l : list A) (i : Z) x :
  0 <= i -> l !! Z.to_nat i = Some x -> list_index l i = Ok x.
Proof.
  intros Hi H. unfold list_index.
  destruct (Z.ltb_spec i 0) as [?|_]; [lia|].
  destruct (Z.ltb_spec i 0) as [?|_]; [lia|]. by rewrite H.
Qed.

Lemma set_param_Ok bm i self p l :
  0 <= i -> attrs bm !! p = Some (VList l) ->
  Gate.set_param bm i self p
  = Ok (mk_Gate (<[p := gate_value bm i p]> (gate_attrs self))).
Proof.
  intros Hi Hp. unfold Gate.set_param, gate_value, vec.
  rewrite (getattr_Some _ _ _ Hp), Hp, !Ok_bind. cbn [py_len]. rewrite Ok_bind.
  destruct (Z.ltb_spec i (Z.of_nat (length l))) as [Hlt|Hge]; cbv match.
  - destruct (lookup_lt_is_Some_2 l (Z.to_nat i)) as [x Hx]; [lia|].
    cbn [py_getitem]. by rewrite (list_index_lookup l i x), Hx.
  - rewrite lookup_ge_None_2 by lia. done.
Qed.

Lemma foldM_set_param bm i params :
  0 <= i ->
  (forall p, p ∈ params -> exists l, attrs bm !! p = Some (VList l)) ->
  forall self,
    foldM (Gate.set_param bm i) self params
    = Ok (mk_Gate (assign (gate_value bm i) params (gate_attrs self))).
Proof.
  intros Hi. induction params as [|p params IH]; intros Hp self.
  - by destruct self.
  - destruct (Hp p) as (l & Hl); [by left|].
    rewrite foldM_cons, (set_param_Ok bm i self p l), Ok_bind by done.
    rewrite IH; [done|]. intros q Hq. apply Hp. by right.
Qed.

(** X6. For an index [i >= 0] and parameters that are sequences of the beam,
    [Gate(bm, i, params)] never raises: each parameter of the gate is the
    entry of the beam's sequence at [i], and NaN where the sequence has no
    entry at [i]. *)
Theorem Gate_init_values (bm : Beam) (i : Z) (params : list string) :
  0 <= i ->
  (forall p, p ∈ params -> exists l, attrs bm !! p = Some (VList l)) ->
  exists g, Gate.__init__ bm i params (-1) = Ok g /\
    forall p, gate_attrs g !! p =
      if decide (p ∈ params) then Some (gate_value bm i p) else None.
Proof.
  intros Hi Hp. unfold Gate.__init__. rewrite foldM_set_param, Ok_bind by done.
  eexists. split; [reflexivity|]. intros p. cbn [gate_attrs].
  rewrite lookup_assign. by destruct (decide _).
Qed.

Lemma set_param_attrs b1 b2 i :
  attrs b1 = attrs b2 -> Gate.set_param b1 i = Gate.set_param b2 i.
Proof. intros H. unfold Gate.set_param, getattr. by rewrite H. Qed.

Lemma Gate_init_default bm i params :
  Gate.__init__ bm i params (-1) = foldM (Gate.set_param bm i) (mk_Gate ∅) params.
Proof. unfold Gate.__init__. by destruct (foldM _ _ _). Qed.



(** X8. A beam without scatter (empty velocity and width arrays) gets from
    [gs_estimation] the flags of criterion 3 only, an empty array: the keys
    0, 1 and 2 are absent.  A gate built from it with [gflg_type = 3] is the
    gate of the default [gflg_type]; with [gflg_type] 0, 1 or 2 the
    construction raises [KeyError]. *)
Theorem Gate_init_no_scatter (b : Beam) (i : Z) (params : list string) (g0 : Gate) :
  attrs b !! "v" = Some (VList []) ->
  attrs b !! "w_l" = Some (VList []) ->
  Gate.__init__ b i params (-1) = Ok g0 ->
  exists b', Beam.gs_estimation b = Ok b' /\
    gsflg b' = Some {[ 3 := [] ]} /\
    Gate.__init__ b' i params 3 = Ok g0 /\
    forall k, 0 <= k <= 2 -> Gate.__init__ b' i params k = Err (KeyError (pretty k)).
Proof.
  intros Hv Hw Hg0.
  assert (Hb : Beam.has_both (fun p => x ← getattr b p; mret (PyValue x)) = Ok false).
  { unfold Beam.has_both. by rewrite (getattr_Some _ _ _ Hv). }
  exists (mk_Beam (attrs b) (Some {[ 3 := [] ]})). split.
  { unfold Beam.gs_estimation, Beam.gs_flags, Beam.gs_guarded. rewrite Hb, !Ok_bind.
    unfold Beam.criterion3.
    by rewrite (getattr_Some _ _ _ Hv), (getattr_Some _ _ _ Hw). }
  split; [done|].
  rewrite Gate_init_default in Hg0. unfold Gate.__init__.
  rewrite (set_param_attrs _ b) by done. rewrite Hg0, !Ok_bind. split; [done|].
  intros k Hk. destruct (Z.leb_spec 0 k) as [_|?]; [|lia].
  unfold Gate.flags_of. cbn [gsflg].
  by rewrite lookup_singleton_ne by lia.
Qed.

Lemma Gate_init_no_scatter_witness :
  exists b', Beam.gs_estimation (mk_Beam (<["v" := VList []]> (<["w_l" := VList []]> ∅)) None)
             = Ok b' /\
    gsflg b' = Some {[ 3 := [] ]} /\
    Gate.__init__ b' 0 ["v"] 3 = Ok (mk_Gate (<["v" := nan]> ∅)) /\
    forall k, 0 <= k <= 2 -> Gate.__init__ b' 0 ["v"] k = Err (KeyError (pretty k)).
Proof.
  apply (Gate_init_no_scatter (mk_Beam (<["v" := VList []]> (<["w_l" := VList []]> ∅)) None)
           0 ["v"] (mk_Gate (<["v" := nan]> ∅))); reflexivity.
Defined.

Lemma Gate_init_values_witness :
  exists g, Gate.__init__ (beam_vw (VFloat 12.5) (VInt 3)) 1 ["v"; "w_l"] (-1) = Ok g /\
    forall p, gate_attrs g !! p =
      if decide (p ∈ ["v"; "w_l"])
      then Some (gate_value (beam_vw (VFloat 12.5) (VInt 3)) 1 p) else None.
Proof.
  apply (Gate_init_values (beam_vw (VFloat 12.5) (VInt 3)) 1 ["v"; "w_l"]); [lia|].
  intros p Hp. repeat (apply elem_of_cons in Hp as [->|Hp]);
    [by eexists..|by apply elem_of_nil in Hp].
Defined.

(** ** Beam.set: fields that the record lacks *)

(** X9. [Beam.set] with [k] left at [None] never raises.  The beam gets the
    timestamp as [time]; every vector field is the value of the record, or
    the empty list when the record lacks it; every scalar field other than
    [scan] (and not also listed as a vector field) is the value of the
    record, or [None] when the record lacks it; the other attributes and the
    ground-scatter flags are left as they were. *)
Theorem set_defaults (self : Beam) (time : value) (d : gmap string value)
    (s_params v_params : list string) :
  exists b, Beam.set self time d s_params v_params None = Ok b /\
    attrs b !! "time" = Some time /\
    (forall p, p ∈ v_params -> p <> "time" ->
       attrs b !! p = Some (default (VList []) (d !! p))) /\
    (forall p, p ∈ s_params -> p ∉ v_params -> p <> "time" -> p <> "scan" ->
       attrs b !! p = Some (default VNone (d !! p))) /\
    (forall p, p ∉ s_params -> p ∉ v_params -> p <> "time" ->
       attrs b !! p = attrs self !! p) /\
    gsflg b = gsflg self.
Proof.
  eexists. split; [apply set_Ok|]. cbn [attrs gsflg].
  split; [by rewrite lookup_insert_eq|]. split; [|split; [|split; [|done]]].
  - intros p Hv Ht. rewrite lookup_insert_ne by done.
    rewrite lookup_assign, decide_True by done.
    unfold vector_of. by destruct (d !! p).
  - intros p Hs Hv Ht Hsc. rewrite lookup_insert_ne by done.
    rewrite lookup_assign, decide_False by done.
    rewrite lookup_assign, decide_True by done.
    unfold scalar_of. destruct (d !! p) as [x|]; [|done].
    apply String.eqb_neq in Hsc. by rewrite Hsc.
  - intros p Hs Hv Ht. rewrite lookup_insert_ne by done.
    by rewrite !lookup_assign, !decide_False.
Qed.

(** ** Beam.set_nc: the derived slist *)

Lemma argwhere_filter (mask : list bool) : forall k : nat,
  argwhere (Z.of_nat k) mask
  = map (fun j => VList [VInt (Z.of_nat j)])
        (List.filter (fun j => default false (mask !! (j - k)%nat)) (seq k (length mask))).
Proof.
  induction mask as [|m mask IH]; intros k; [done|].
  cbn [argwhere length seq List.filter]. rewrite Nat.sub_diag. cbn [lookup list_lookup default].
  replace (Z.of_nat k + 1) with (Z.of_nat (S k)) by lia. rewrite IH.
  assert (Hext : List.filter (fun j => default false ((m :: mask) !! (j - k)%nat))
                   (seq (S k) (length mask))
                 = List.filter (fun j => default false (mask !! (j - S k)%nat))
                     (seq (S k) (length mask))).
  { apply filter_ext_in. intros j [Hj _]%in_seq.
    replace (j - k)%nat with (S (j - S k)) by lia. done. }
  rewrite Hext. by destruct m.
Qed.

Lemma argwhere_not_nan row isnan :
  np_isnan row = Ok isnan ->
  VList (argwhere 0 (map negb isnan)) = derived_slist row.
Proof.
  intros H. unfold derived_slist, positions_not_nan. f_equal.
  rewrite (argwhere_filter _ 0). f_equal.
  assert (Hlen : length (map negb isnan) = size row).
  { unfold size. destruct row; try done; injection H as <-; cbn [elements];
      by rewrite !length_map. }
  rewrite Hlen. apply filter_ext_in. intros j [_ Hj]%in_seq. rewrite Nat.sub_0_r.
  unfold size in Hj.
  destruct row as [l|l|l]; try done; injection H as <-; cbn [elements] in *;
    rewrite length_map in Hj;
    destruct (lookup_lt_is_Some_2 l j) as [x Hx]; try lia;
    change map with (@fmap list _) at 1 2 3; rewrite !list_lookup_fmap, Hx; done.
Qed.

(** One step of the loop over the vector fields, on a field that can be read. *)
Lemma set_nc_vector_Ok d i v_params self p arr row kept :
  d !! p = Some arr -> np_row arr i = Ok row -> without_nan row = Some kept ->
  Beam.set_nc_vector d i v_params self p
  = Ok (setattr
          (if negb (bool_decide ("slist" ∈ v_params)) && String.eqb p "v"
           then setattr (setattr self p (VList (elements row))) "slist" (derived_slist row)
           else setattr self p (VList (elements row)))
          p (VList kept)).
Proof.
  intros Hd Hrow Hkept. unfold Beam.set_nc_vector. rewrite Hd, Hrow, Ok_bind.
  destruct (without_nan_compress _ _ Hkept) as (isnan & Hnan & <-).
  rewrite Hnan. destruct (negb _ && _); rewrite !Ok_bind; [|done].
  by rewrite (argwhere_not_nan _ _ Hnan).
Qed.

Lemma foldM_set_nc_scalar_Ok d i l :
  (forall p col, p ∈ l -> d !! p = Some col -> exists y, py_getitem col i = Ok y) ->
  forall self, exists b, foldM (Beam.set_nc_scalar d i) self l = Ok b.
Proof.
  induction l as [|p l IH]; intros Hl self; [by eexists|].
  assert (Hstep : exists self1, Beam.set_nc_scalar d i self p = Ok self1).
  { unfold Beam.set_nc_scalar. destruct (d !! p) as [col|] eqn:Hd; [|by eexists].
    destruct (Hl p col) as [y Hy]; [by left | done |]. rewrite Hy. by eexists. }
  destruct Hstep as [self1 Hstep]. rewrite foldM_cons, Hstep, Ok_bind.
  apply IH. intros q c Hq. apply Hl. by right.
Qed.

(** The loop over the vector fields: it returns, and once it has passed
    "v" the beam holds the kept velocities and the derived [slist]. *)
Lemma set_nc_loop_slist d i v_params x row kept l :
  "slist" ∉ v_params -> d !! "v" = Some x ->
  np_row x i = Ok row -> without_nan row = Some kept ->
  (forall p, p ∈ l -> p ∈ v_params) ->
  (forall p arr, p ∈ l -> d !! p = Some arr ->
     exists r k, np_row arr i = Ok r /\ without_nan r = Some k) ->
  forall self, exists b,
    foldM (Beam.set_nc_vector d i v_params) self l = Ok b /\
    ("v" ∈ l \/ (attrs self !! "v" = Some (VList kept) /\
                 attrs self !! "slist" = Some (derived_slist row)) ->
     attrs b !! "v" = Some (VList kept) /\ attrs b !! "slist" = Some (derived_slist row)).
Proof.
  intros Hsl Hx Hrow Hkept. induction l as [|p l IH]; intros Hsub Hread self.
  - exists self. split; [done|]. intros [Hin|H]; [by apply elem_of_nil in Hin | done].
  - assert (Hps : p <> "slist") by (intros ->; apply Hsl, Hsub; by left).
    assert (Hsub' : forall q, q ∈ l -> q ∈ v_params) by (intros q Hq; apply Hsub; by right).
    assert (Hread' : forall q arr, q ∈ l -> d !! q = Some arr ->
              exists r k, np_row arr i = Ok r /\ without_nan r = Some k)
      by (intros q arr Hq; apply Hread; by right).
    rewrite foldM_cons.
    destruct (decide (p = "v")) as [->|Hne].
    + rewrite (set_nc_vector_Ok d i v_params self "v" x row kept) by done.
      rewrite bool_decide_eq_false_2 by done. cbn [negb andb String.eqb Ascii.eqb Bool.eqb].
      rewrite Ok_bind.
      destruct (IH Hsub' Hread'
                  (setattr (setattr (setattr self "v" (VList (elements row))) "slist"
                              (derived_slist row)) "v" (VList kept)))
        as (b & Hb & Hinv).
      exists b. split; [done|]. intros _. apply Hinv. right.
      cbn [attrs setattr]. rewrite lookup_insert_eq.
      by rewrite lookup_insert_ne, lookup_insert_eq.
    + assert (Hstep : exists self1,
                Beam.set_nc_vector d i v_params self p = Ok self1 /\
                attrs self1 !! "v" = attrs self !! "v" /\
                attrs self1 !! "slist" = attrs self !! "slist").
      { destruct (d !! p) as [arr|] eqn:Hd.
        - destruct (Hread p arr) as (r & k & Hr & Hk); [by left | done |].
          rewrite (set_nc_vector_Ok d i v_params self p arr r k) by done.
          apply String.eqb_neq in Hne as Hne'. rewrite Hne', andb_false_r.
          eexists. split; [reflexivity|]. cbn [attrs setattr].
          by rewrite !lookup_insert_ne.
        - unfold Beam.set_nc_vector. rewrite Hd.
          eexists. split; [reflexivity|]. cbn [attrs setattr].
          by rewrite !lookup_insert_ne. }
      destruct Hstep as (self1 & -> & Hv1 & Hs1). rewrite Ok_bind.
      destruct (IH Hsub' Hread' self1) as (b & Hb & Hinv).
      exists b. split; [done|]. intros Hcase. apply Hinv.
      destruct Hcase as [[?|Hin]%elem_of_cons|H]; [done | by left | right].
      by rewrite Hv1, Hs1.
Qed.

(** X10. For field lists whose vector fields hold "v" but not "slist", and a
    columnar set with velocities whose requested fields can all be read at
    index [i], [set_nc] returns a beam whose [v] holds the velocities of row
    [i] that are not NaN, in their order, and whose [slist] is derived from
    them: one one-element row per kept velocity, holding its position in
    the row. *)
Theorem set_nc_derived_slist (self : Beam) (time : value) (d : gmap string value) (i : Z)
    (s_params v_params : list string) (x : value) :
  readable_at d i s_params v_params ->
  "v" ∈ v_params ->
  "slist" ∉ v_params ->
  d !! "v" = Some x ->
  exists b row kept,
    Beam.set_nc self time d i s_params v_params = Ok b /\
    np_row x i = Ok row /\
    without_nan row = Some kept /\
    attrs b !! "v" = Some (VList kept) /\
    attrs b !! "slist" = Some (derived_slist row).
Proof.
  intros [Hs Hvec] Hv Hsl Hx.
  destruct (Hvec "v" x Hv Hx) as (row & kept & Hrow & Hkept).
  destruct (foldM_set_nc_scalar_Ok d i s_params Hs self) as (self1 & Hself1).
  destruct (set_nc_loop_slist d i v_params x row kept v_params Hsl Hx Hrow Hkept
              ltac:(done) ltac:(intros p arr Hp; by apply Hvec) self1)
    as (self2 & Hself2 & Hinv).
  destruct Hinv as [Hv2 Hs2]; [by left|].
  exists (setattr self2 "time" time), row, kept.
  unfold Beam.set_nc. rewrite Hself1, Ok_bind, Hself2, Ok_bind.
  split; [done|]. split; [done|]. split; [done|].
  cbn [attrs setattr]. by rewrite !lookup_insert_ne.
Qed.

Lemma set_nc_derived_slist_witness :
  exists b row kept,
    Beam.set_nc Beam_init VNone
      {["v" := VList [VList [nan; VFloat 12.5; nan; VFloat 7]]]} 0 [] ["v"] = Ok b /\
    np_row (VList [VList [nan; VFloat 12.5; nan; VFloat 7]]) 0 = Ok row /\
    without_nan row = Some kept /\
    attrs b !! "v" = Some (VList kept) /\
    attrs b !! "slist" = Some (derived_slist row).
Proof.
  apply (set_nc_derived_slist Beam_init VNone
           {["v" := VList [VList [nan; VFloat 12.5; nan; VFloat 7]]]} 0 [] ["v"]
           (VList [VList [nan; VFloat 12.5; nan; VFloat 7]])).
  - split; intros p c Hp Hc; [by apply elem_of_nil in Hp|].
    apply list_elem_of_singleton in Hp as ->. vm_compute in Hc. injection Hc as <-.
    by eexists _, _.
  - by left.
  - compute_done.
  - reflexivity.
Defined.

(** In that beam the velocities 12.5 and 7 are kept, and the derived
    [slist] holds their positions 1 and 3. *)
Example set_nc_derived_slist_values :
  Beam.set_nc Beam_init VNone
    {["v" := VList [VList [nan; VFloat 12.5; nan; VFloat 7]]]} 0 [] ["v"]
  = Ok (mk_Beam (<["time" := VNone]>
                   (<["v" := VList [VFloat 12.5; VFloat 7]]>
                      (<["slist" := VList [VList [VInt 1]; VList [VInt 3]]]> ∅))) None).
Proof. vm_compute. reflexivity. Qed.

(** ** FetchData._parse_data: a record that cannot be read *)

Section BadRecord.

Variable np_mean : list value -> result value.

(** X11. One record whose timestamp cannot be assembled aborts the whole
    parse, whatever [by] is and wherever the record lies relative to the
    window: [_parse_data] raises the error of that record, which is
    [KeyError] for a record that lacks the field "time.yr". *)
Theorem parse_data_bad_record (self : FetchData) (pre post : list (gmap string value))
    (d : gmap string value) (s_params v_params : list string) (by_ : string)
    (scan_prop : gmap string value) (ts : list datetime) (e : pyexn) :
  mapM FetchData.record_time pre = Ok ts ->
  FetchData.record_time d = Err e ->
  FetchData._parse_data np_mean self (pre ++ d :: post) s_params v_params by_ scan_prop
    = Err e /\
  (d !! "time.yr" = None -> e = KeyError "time.yr").
Proof.
  intros Hpre Hd. split.
  - unfold FetchData._parse_data.
    rewrite foldM_app, (parse_loop_Ok _ _ _ _ _ _ Hpre), Ok_bind, foldM_cons.
    assert (Hp : forall _b, FetchData.parse_record self s_params v_params _b d = Err e)
      by (intros; unfold FetchData.parse_record; by rewrite Hd).
    by rewrite Hp.
  - intros Hyr. unfold FetchData.record_time, dict_get in Hd. rewrite Hyr in Hd.
    by injection Hd as <-.
Qed.

End BadRecord.

Lemma parse_data_bad_record_witness :
  FetchData._parse_data mean_seq window_2015
    ([record_at 0 0 0 1] ++ delete "time.yr" (record_at 30 0 1 0) :: [record_at 1 0 1 0])
    fields_s fields_v "beam" default_scan_prop
    = Err (KeyError "time.yr") /\
  (delete "time.yr" (record_at 30 0 1 0) !! "time.yr" = None ->
   KeyError "time.yr" = KeyError "time.yr").
Proof.
  apply (parse_data_bad_record mean_seq window_2015 [record_at 0 0 0 1] [record_at 1 0 1 0]
           (delete "time.yr" (record_at 30 0 1 0)) fields_s fields_v "beam"
           default_scan_prop [mk_dt 2015 3 17 3 0 0 0]); reflexivity.
Defined.

(** ** FetchData._parse_data: no scan is empty *)

Lemma group_scans_nonempty rest : forall prev cur,
  cur <> [] -> Forall (fun g => g <> []) (group_scans prev cur rest).
Proof.
  induction rest as [|d rest IH]; intros prev cur Hcur; cbn.
  - by constructor.
  - destruct (boundary prev d).
    + constructor; [done|]. by apply IH.
    + apply IH. by destruct cur.
Qed.

Section NonEmpty.

Variable np_mean : list value -> result value.

(** X12. Whenever [_parse_data] (by = "scan") returns, it returns at least
    one scan, and every scan holds at least one beam. *)
Theorem parse_data_scans_nonempty (self : FetchData) (data : list (gmap string value))
    (s_params v_params : list string) (scan_prop : gmap string value)
    (_b : list Beam) (_s : list Scan) :
  FetchData._parse_data np_mean self data s_params v_params "scan" scan_prop = Ok (_b, _s) ->
  _s <> [] /\ Forall (fun sc => beams sc <> []) _s.
Proof.
  intros H.
  destruct (parse_data_scans np_mean _ _ _ _ _ _ _ H) as (closed & sc & -> & Hmap & _).
  split; [destruct closed; discriminate|].
  assert (Hne : Forall (fun g => g <> []) (segments _b)).
  { destruct _b as [|b0 rest]; [constructor|]. by apply group_scans_nonempty. }
  rewrite Forall_forall in Hne. apply Forall_forall. intros sc0 Hin.
  apply Hne. rewrite <- Hmap. apply list_elem_of_fmap. by exists sc0.
Qed.

End NonEmpty.

Lemma parse_data_scans_nonempty_witness :
  scans_4 <> [] /\ Forall (fun sc => beams sc <> []) scans_4.
Proof.
  apply (parse_data_scans_nonempty mean_seq window_2015 records_4
           fields_s fields_v default_scan_prop beams_4 scans_4).
  vm_compute. reflexivity.
Defined.

(** ** FetchData.pandas_to_scans: the beam counts *)

Lemma max_list_snoc l x : max_list (l ++ [x]) = Nat.max (max_list l) x.
Proof. induction l as [|y l IH]; cbn; [lia|]. rewrite IH. lia. Qed.

Section Counts.

Variable np_mean : list value -> result value.

Lemma scan_loop_counts df smode sp vp us : forall bmax0 scans0 bmax scans,
  foldM (FetchData.scan_of_group np_mean df smode sp vp) (bmax0, scans0) us
    = Ok (bmax, scans) ->
  bmax0 = max_list (beam_counts scans0) ->
  bmax = max_list (beam_counts scans) /\
  exists new, scans = scans0 ++ new /\ Forall (finalized np_mean) new.
Proof.
  induction us as [|sn us IH]; intros bmax0 scans0 bmax scans H H0.
  - injection H as <- <-. split; [done|]. exists []. by rewrite app_nil_r.
  - rewrite foldM_cons in H. apply bind_Ok_inv in H as ([bmax1 scans1] & Hstep & H).
    unfold FetchData.scan_of_group in Hstep.
    apply bind_Ok_inv in Hstep as (o & _ & Hstep).
    apply bind_Ok_inv in Hstep as (col & _ & Hstep).
    apply bind_Ok_inv in Hstep as (us' & _ & Hstep).
    apply bind_Ok_inv in Hstep as (bs & _ & Hstep).
    apply bind_Ok_inv in Hstep as (sc & Hup & Hstep).
    injection Hstep as <- <-.
    destruct (IH _ _ _ _ H) as (Hmax & new & -> & Hfin).
    + unfold beam_counts. rewrite map_app. cbn [map]. rewrite max_list_snoc.
      rewrite (update_time_beams np_mean _ _ Hup). cbn [beams beams_extend Scan_init app].
      fold (beam_counts scans0). rewrite <- H0.
      destruct (Nat.ltb_spec bmax0 (length bs)); lia.
    + split; [done|]. exists (sc :: new). rewrite <- app_assoc. split; [done|].
      constructor; [|done]. by eexists.
Qed.

(** X13. Whenever [pandas_to_scans] returns [(scans, bmax)], [bmax] is the
    largest beam count among the returned scans (after the three-scan
    heuristic as before it). *)
Theorem pandas_to_scans_bmax (df : DataFrame) (smode : value)
    (s_params v_params : list string) (scans : list Scan) (bmax : nat) :
  FetchData.pandas_to_scans np_mean df smode s_params v_params = Ok (scans, bmax) ->
  bmax = max_list (beam_counts scans).
Proof.
  unfold FetchData.pandas_to_scans, FetchData.reconstruct_scans. intros H.
  apply bind_Ok_inv in H as ([bmax0 scans0] & Hrec & H).
  apply bind_Ok_inv in Hrec as (col & _ & Hrec).
  apply bind_Ok_inv in Hrec as (us & _ & Hloop).
  apply bind_Ok_inv in H as (scans' & Hmerge & H). injection H as <- <-.
  destruct (scan_loop_counts _ _ _ _ _ _ _ _ _ Hloop eq_refl) as (Hmax & _).
  destruct scans0 as [|s0 [|s1 [|s2 rest]]]; try discriminate Hmerge.
  rewrite merge_first_scans_3 in Hmerge.
  destruct (Nat.eqb_spec (length (beams s0) + length (beams s1)) (length (beams s2)))
    as [Heq|Hne]; [|by injection Hmerge as <-].
  apply bind_Ok_inv in Hmerge as (sc & Hup & Hmerge). injection Hmerge as <-.
  rewrite Hmax. unfold beam_counts. cbn [map max_list].
  rewrite (update_time_beams np_mean _ _ Hup). unfold merged. cbn [beams].
  rewrite length_app. unfold id. lia.
Qed.

(** X14. The three-scan heuristic neither drops, duplicates nor reorders
    beams: whenever [pandas_to_scans] returns, the beams of the returned
    scans, taken in order, are the beams of the scans rebuilt by its loop,
    and every returned scan has been through [update_time]. *)
Theorem pandas_to_scans_keeps_beams (df : DataFrame) (smode : value)
    (s_params v_params : list string) (scans : list Scan) (bmax : nat) :
  FetchData.pandas_to_scans np_mean df smode s_params v_params = Ok (scans, bmax) ->
  exists rebuilt_,
    FetchData.reconstruct_scans np_mean df smode s_params v_params = Ok (bmax, rebuilt_) /\
    concat (map beams scans) = concat (map beams rebuilt_) /\
    Forall (finalized np_mean) scans.
Proof.
  unfold FetchData.pandas_to_scans. intros H.
  apply bind_Ok_inv in H as ([bmax0 scans0] & Hrec & H).
  apply bind_Ok_inv in H as (scans' & Hmerge & H). injection H as <- <-.
  exists scans0. split; [done|].
  unfold FetchData.reconstruct_scans in Hrec.
  apply bind_Ok_inv in Hrec as (col & _ & Hrec).
  apply bind_Ok_inv in Hrec as (us & _ & Hloop).
  destruct (scan_loop_counts _ _ _ _ _ _ _ _ _ Hloop eq_refl) as (_ & new & Hnew & Hfin).
  cbn [app] in Hnew. subst new.
  destruct scans0 as [|s0 [|s1 [|s2 rest]]]; try discriminate Hmerge.
  rewrite merge_first_scans_3 in Hmerge.
  destruct (Nat.eqb_spec (length (beams s0) + length (beams s1)) (length (beams s2)))
    as [Heq|Hne]; [|by injection Hmerge as <-].
  apply bind_Ok_inv in Hmerge as (sc & Hup & Hmerge). injection Hmerge as <-.
  split.
  - cbn [map concat]. rewrite (update_time_beams np_mean _ _ Hup). unfold merged.
    cbn [beams]. by rewrite <- app_assoc.
  - constructor; [by eexists|]. by do 2 apply Forall_cons in Hfin as [_ Hfin].
Qed.

End Counts.

Lemma pandas_to_scans_bmax_witness :
  5%nat = max_list (beam_counts [merged_235; scan_at table_235 2; scan_at table_235 3]).
Proof.
  apply (pandas_to_scans_bmax mean_seq table_235 (VStr "normal") fields_st fields_v
           [merged_235; scan_at table_235 2; scan_at table_235 3] 5).
  vm_compute. reflexivity.
Defined.

Lemma pandas_to_scans_keeps_beams_witness :
  exists rebuilt_,
    FetchData.reconstruct_scans mean_seq table_235 (VStr "normal") fields_st fields_v
      = Ok (5%nat, rebuilt_) /\
    concat (map beams [merged_235; scan_at table_235 2; scan_at table_235 3])
      = concat (map beams rebuilt_) /\
    Forall (finalized mean_seq) [merged_235; scan_at table_235 2; scan_at table_235 3].
Proof.
  apply (pandas_to_scans_keeps_beams mean_seq table_235 (VStr "normal") fields_st fields_v
           [merged_235; scan_at table_235 2; scan_at table_235 3] 5).
  vm_compute. reflexivity.
Defined.

(** ** FetchData.convert_to_pandas without the field slist *)

Lemma extend_vector_None b o p o' q :
  FetchData.extend_vector b o p = Ok o' -> o !! q = None -> o' !! q = None.
Proof.
  unfold FetchData.extend_vector, dict_get. intros H Hq.
  destruct (o !! p) as [c|] eqn:Hp; [|discriminate]. rewrite Ok_bind in H.
  apply bind_Ok_inv in H as (v & _ & H). apply bind_Ok_inv in H as (xs & _ & H).
  injection H as <-. rewrite lookup_insert_ne; [done|]. intros ->. congruence.
Qed.

Lemma extend_scalar_None b l o p o' q :
  FetchData.extend_scalar b l o p = Ok o' -> o !! q = None -> o' !! q = None.
Proof.
  unfold FetchData.extend_scalar, dict_get. intros H Hq.
  destruct (o !! p) as [c|] eqn:Hp; [|discriminate]. rewrite Ok_bind in H.
  apply bind_Ok_inv in H as (v & _ & H).
  injection H as <-. rewrite lookup_insert_ne; [done|]. intros ->. congruence.
Qed.

Lemma foldM_None {A : Type} (body : gmap string (list value) -> A -> result (gmap string (list value)))
    (q : string) (l : list A) :
  (forall o x o', body o x = Ok o' -> o !! q = None -> o' !! q = None) ->
  forall o o', foldM body o l = Ok o' -> o !! q = None -> o' !! q = None.
Proof.
  intros Hbody. induction l as [|x l IH]; intros o o' H Hq.
  - by injection H as <-.
  - rewrite foldM_cons in H. apply bind_Ok_inv in H as (o1 & Hstep & H).
    apply (IH _ _ H). by apply (Hbody _ _ _ Hstep).
Qed.

Lemma beam_rows_None sp vp o b o' q :
  FetchData.beam_rows sp vp o b = Ok o' -> o !! q = None -> o' !! q = None.
Proof.
  unfold FetchData.beam_rows. intros H Hq.
  apply bind_Ok_inv in H as (sl & _ & H). apply bind_Ok_inv in H as (l & _ & H).
  apply bind_Ok_inv in H as (o1 & H1 & H).
  apply (foldM_None _ q _ (fun o x o' => extend_scalar_None b l o x o' q) _ _ H).
  by apply (foldM_None _ q _ (fun o x o' => extend_vector_None b o x o' q) _ _ H1).
Qed.

(** X15. Without "slist" among the requested fields [convert_to_pandas]
    returns no table, whatever the beams are: the length of the column
    "slist" is read to pad the others.  On an empty list of beams the error
    is the [KeyError] of that read. *)
Theorem convert_to_pandas_needs_slist (beams : list Beam) (s_params v_params : list string) :
  "slist" ∉ s_params ++ v_params ->
  (exists e, FetchData.convert_to_pandas beams s_params v_params = Err e) /\
  FetchData.convert_to_pandas [] s_params v_params = Err (KeyError "slist").
Proof.
  intros Hsl.
  assert (Hpad : forall o, o !! "slist" = None ->
            FetchData.pad_columns (s_params ++ v_params) o = Err (KeyError "slist")).
  { intros o Ho. unfold FetchData.pad_columns, dict_get. by rewrite Ho. }
  split.
  - unfold FetchData.convert_to_pandas.
    destruct (foldM _ _ beams) as [o|e] eqn:Hloop; [|by exists e].
    rewrite Ok_bind, Hpad; [by eexists|].
    apply (foldM_None _ "slist" _
             (fun o x o' => beam_rows_None s_params v_params o x o' "slist") _ _ Hloop).
    by apply new_table_None.
  - unfold FetchData.convert_to_pandas. cbn [foldM]. rewrite Ok_bind, Hpad; [done|].
    by apply new_table_None.
Qed.

Lemma convert_to_pandas_needs_slist_witness :
  (exists e, FetchData.convert_to_pandas [beam_1] fields_s ["v"] = Err e) /\
  FetchData.convert_to_pandas [] fields_s ["v"] = Err (KeyError "slist").
Proof. apply (convert_to_pandas_needs_slist [beam_1] fields_s ["v"]). compute_done. Defined.

(** ** FetchData.pandas_to_beams: one beam per beam number *)

Lemma np_unique_ints zs : np_unique (map VInt zs) = Ok (map VInt (unique_numbers zs)).
Proof.
  induction zs as [|z zs IH]; [done|].
  cbn [map np_unique]. rewrite IH, Ok_bind. apply insert_unique_number.
Qed.

Lemma mapM_Forall2 {A B : Type} (g : A -> result B) l : forall ys,
  mapM g l = Ok ys -> Forall2 (fun x y => g x = Ok y) l ys.
Proof.
  induction l as [|x l IH]; intros ys H.
  - apply mapM_nil_inv in H as ->. constructor.
  - apply mapM_cons_inv in H as (y & ys' & Hy & H & ->). constructor; [done|]. by apply IH.
Qed.

Lemma select_ints z zs :
  select (eq_mask (map VInt zs) (VInt z)) (map VInt zs)
  = map VInt (List.filter (fun z' => z' =? z) zs).
Proof.
  induction zs as [|z' zs IH]; [done|]. unfold eq_mask in *. cbn [map select py_eq List.filter].
  destruct (z' =? z); cbn [map]; by rewrite IH.
Qed.

Lemma filter_head z zs z' rest :
  List.filter (fun y => y =? z) zs = z' :: rest -> z' = z.
Proof.
  intros H. assert (Hin : List.In z' (List.filter (fun y => y =? z) zs)) by (rewrite H; by left).
  apply filter_In in Hin as [_ Heq]. by apply Z.eqb_eq in Heq.
Qed.

(** The loop [d[p] = d[p][0]] on a column of integers. *)
Lemma first_row_ints p c sp : forall d d',
  foldM FetchData.first_row d sp = Ok d' ->
  (d !! p = Some (VList (map VInt c)) /\ p ∈ sp \/
   exists z rest, c = z :: rest /\ d !! p = Some (VInt z)) ->
  exists z rest, c = z :: rest /\ d' !! p = Some (VInt z).
Proof.
  induction sp as [|q sp IH]; intros d d' H Hcase.
  - injection H as <-. destruct Hcase as [[_ Hin]|?]; [by apply elem_of_nil in Hin | done].
  - rewrite foldM_cons in H. apply bind_Ok_inv in H as (d1 & Hstep & H).
    apply (IH _ _ H). unfold FetchData.first_row, dict_get in Hstep.
    destruct (decide (q = p)) as [->|Hne].
    + right. destruct Hcase as [[Hd _]|(z & rest & -> & Hd)]; rewrite Hd, Ok_bind in Hstep.
      * destruct c as [|z rest]; [discriminate|].
        change (py_getitem (VList (map VInt (z :: rest))) 0) with (Ok (VInt z)) in Hstep.
        injection Hstep as <-. exists z, rest. by rewrite lookup_insert_eq.
      * discriminate.
    + destruct (d !! q) as [x|] eqn:Hq; [|discriminate]. rewrite Ok_bind in Hstep.
      apply bind_Ok_inv in Hstep as (y & _ & Hstep). injection Hstep as <-.
      rewrite lookup_insert_ne by done.
      destruct Hcase as [[Hd [?|Hin]%elem_of_cons]|?]; [done | by left | by right].
Qed.

Lemma beam_of_group_number df sp vp zs z b' :
  df !! "bmnum" = Some (map VInt zs) ->
  "bmnum" ∈ sp -> "bmnum" ∉ vp ->
  FetchData.beam_of_group df sp vp (VInt z) = Ok b' ->
  attrs b' !! "bmnum" = Some (VInt z).
Proof.
  intros Hcol Hs Hv H. unfold FetchData.beam_of_group, df_where, df_column in H.
  rewrite Hcol, !Ok_bind in H.
  apply bind_Ok_inv in H as (d & Hd & H).
  apply bind_Ok_inv in H as (times & _ & H).
  apply bind_Ok_inv in H as (t & _ & H).
  rewrite set_Ok in H. injection H as <-. cbn [attrs].
  destruct (first_row_ints "bmnum" (List.filter (fun z' => z' =? z) zs) sp _ _ Hd)
    as (z' & rest & Hf & Hz).
  { left. split; [|done]. by rewrite !lookup_fmap, Hcol, <- select_ints. }
  apply filter_head in Hf as ->.
  rewrite lookup_insert_ne by done.
  rewrite lookup_assign, decide_False by done.
  rewrite lookup_assign, decide_True by done.
  unfold scalar_of. by rewrite Hz.
Qed.

(** X16. Whenever [pandas_to_beams] returns on a table whose column "bmnum"
    holds integers ("bmnum" being a scalar field), it returns one beam per
    distinct beam number of the table, in ascending order of the numbers,
    whatever the order of the rows: rows with one beam number make one
    beam. *)
Theorem pandas_to_beams_groups (df : DataFrame) (s_params v_params : list string)
    (zs : list Z) (B' : list Beam) :
  df !! "bmnum" = Some (map VInt zs) ->
  "bmnum" ∈ s_params ->
  "bmnum" ∉ v_params ->
  FetchData.pandas_to_beams df s_params v_params = Ok B' ->
  map (fun b' => attrs b' !! "bmnum") B' = map (fun z => Some (VInt z)) (unique_numbers zs) /\
  StronglySorted Z.lt (unique_numbers zs) /\
  (forall z, z ∈ unique_numbers zs <-> z ∈ zs).
Proof.
  intros Hcol Hs Hv H. split; [|split; [apply unique_numbers_sorted|]];
    [|intros z; apply elem_of_unique_numbers].
  unfold FetchData.pandas_to_beams, df_column in H.
  rewrite Hcol, Ok_bind, np_unique_ints, Ok_bind in H.
  apply mapM_Forall2 in H. apply Forall2_fmap_l in H.
  induction H as [|z b' us B' Hb _ IH]; [done|].
  cbn [map]. f_equal; [|exact IH].
  by apply (beam_of_group_number df s_params v_params zs).
Qed.

Lemma pandas_to_beams_groups_witness :
  map (fun b' => attrs b' !! "bmnum") (unflat fields_st fields_v beams_33)
    = map (fun z => Some (VInt z)) (unique_numbers [3; 3]) /\
  StronglySorted Z.lt (unique_numbers [3; 3]) /\
  (forall z, z ∈ unique_numbers [3; 3] <-> z ∈ [3; 3]).
Proof.
  apply (pandas_to_beams_groups (flat fields_st fields_v beams_33) fields_st fields_v
           [3; 3] (unflat fields_st fields_v beams_33)).
  - vm_compute. reflexivity.
  - compute_done.
  - compute_done.
  - vm_compute. reflexivity.
Defined.

(** ** Lists of blocks *)

Lemma concat_map_nil {A B : Type} (g : A -> list B) (l : list A) :
  (forall a, a ∈ l -> g a = []) -> concat (map g l) = [].
Proof.
  induction l as [|a l IH]; intros H; [done|].
  cbn. rewrite H by (by left). apply IH. intros a' Ha'. apply H. by right.
Qed.

Lemma concat_map_length {A B : Type} (g : A -> list B) (cnt : A -> nat) (l : list A) :
  (forall a, a ∈ l -> length (g a) = cnt a) ->
  length (concat (map g l)) = sum_list (map cnt l).
Proof.
  induction l as [|a l IH]; intros H; [done|].
  cbn. rewrite length_app, H by (by left). f_equal. apply IH.
  intros a' Ha'. apply H. by right.
Qed.

Lemma concat_map_replicate {A B : Type} (cnt : A -> nat) (x : B) (l : list A) :
  concat (map (fun a => replicate (cnt a) x) l) = replicate (sum_list (map cnt l)) x.
Proof. induction l as [|a l IH]; [done|]. cbn. by rewrite IH, replicate_add. Qed.

Lemma concat_map_ext {A B : Type} (g h : A -> list B) (l : list A) :
  (forall a, a ∈ l -> g a = h a) -> concat (map g l) = concat (map h l).
Proof.
  intros H. f_equal. apply map_ext_in. intros a Ha%list_elem_of_In. by apply H.
Qed.

(** ** enumerate *)

Lemma enumerate_from {A : Type} (l : list A) : forall k,
  map fst (imap (fun i x => (Z.of_nat (k + i), x)) l)
  = map Z.of_nat (seq k (length l)) /\
  map snd (imap (fun i x => (Z.of_nat (k + i), x)) l) = l.
Proof.
  induction l as [|x l IH]; intros k; [done|].
  rewrite imap_cons. cbn [map length seq fst snd]. rewrite Nat.add_0_r.
  rewrite (imap_ext _ (fun i x => (Z.of_nat (S k + i), x)))
    by (intros; cbn; f_equal; lia).
  destruct (IH (S k)) as [-> ->]. done.
Qed.

Lemma enumerate_fst {A : Type} (l : list A) :
  map fst (FetchData.enumerate l) = map Z.of_nat (seq 0 (length l)).
Proof. apply (enumerate_from l 0). Qed.

Lemma enumerate_snd {A : Type} (l : list A) : map snd (FetchData.enumerate l) = l.
Proof. apply (enumerate_from l 0). Qed.

Lemma seq_sorted k n : StronglySorted Z.lt (map Z.of_nat (seq k n)).
Proof.
  revert k. induction n as [|n IH]; intros k; [constructor|].
  cbn. constructor; [apply IH|]. apply Forall_forall.
  intros z (j & -> & Hj%list_elem_of_In%in_seq)%list_elem_of_fmap. lia.
Qed.

Lemma enumerate_sorted {A : Type} (l : list A) :
  StronglySorted Z.lt (map fst (FetchData.enumerate l)).
Proof. rewrite enumerate_fst. apply seq_sorted. Qed.

Lemma sorted_shift (d : Z) (zs : list Z) :
  StronglySorted Z.lt zs -> StronglySorted Z.lt (map (fun z => z + d) zs).
Proof.
  induction 1 as [|z zs _ IH Hlt]; [constructor|].
  cbn. constructor; [done|]. apply Forall_forall.
  intros y (x & -> & Hx)%list_elem_of_fmap. rewrite Forall_forall in Hlt.
  specialize (Hlt x Hx). lia.
Qed.

Lemma sorted_NoDup (zs : list Z) : StronglySorted Z.lt zs -> NoDup zs.
Proof.
  induction 1 as [|z zs _ IH Hlt]; constructor; [|done].
  intros Hin. rewrite Forall_forall in Hlt. specialize (Hlt z Hin). lia.
Qed.

Lemma unique_numbers_of_sorted (zs : list Z) :
  StronglySorted Z.lt zs -> unique_numbers zs = zs.
Proof.
  induction 1 as [|z zs _ IH Hlt]; [done|].
  change (unique_numbers (z :: zs)) with (insert_number z (unique_numbers zs)).
  rewrite IH. destruct zs as [|y zs]; [done|]. cbn.
  apply Forall_cons in Hlt as [Hzy _].
  destruct (Z.eqb_spec z y); [lia|]. destruct (Z.ltb_spec z y); [done|lia].
Qed.

(** ** np.unique and row selection on blocks of any kind *)

Lemma np_unique_blocks_of {A : Type} (cnt : A -> nat) (num : A -> Z) (l : list A) :
  (forall a, a ∈ l -> (0 < cnt a)%nat) ->
  np_unique (concat (map (fun a => replicate (cnt a) (VInt (num a))) l))
  = Ok (map VInt (unique_numbers (map num l))).
Proof.
  induction l as [|a l IH]; intros Hc; [done|].
  change (unique_numbers (map num (a :: l)))
    with (insert_number (num a) (unique_numbers (map num l))).
  cbn [map concat]. destruct (cnt a) as [|n] eqn:En.
  - specialize (Hc a ltac:(by left)). lia.
  - apply np_unique_block. apply IH. intros a' Ha'. apply Hc. by right.
Qed.

Lemma select_blocks_of {A : Type} (cnt : A -> nat) (num : A -> Z) (g : A -> list value)
    (z : Z) (l : list A) :
  (forall a, a ∈ l -> length (g a) = cnt a) ->
  select (eq_mask (concat (map (fun a => replicate (cnt a) (VInt (num a))) l)) (VInt z))
         (concat (map g l))
  = concat (map (fun a => if num a =? z then g a else []) l).
Proof.
  induction l as [|a l IH]; intros Hlen; [done|].
  cbn [map concat]. unfold eq_mask in *.
  rewrite select_block by (apply Hlen; by left).
  cbn [py_eq]. f_equal. apply IH. intros a' Ha'. apply Hlen. by right.
Qed.

Lemma pick_block_of {A : Type} (num : A -> Z) (g : A -> list value) (l : list A) (a : A) :
  NoDup (map num l) -> a ∈ l ->
  concat (map (fun a' => if num a' =? num a then g a' else []) l) = g a.
Proof.
  induction l as [|a0 l IH]; intros Hnd Ha; [by apply elem_of_nil in Ha|].
  cbn [map concat] in *. apply NoDup_cons in Hnd as [Hnot Hnd].
  destruct (Z.eqb_spec (num a0) (num a)) as [Heq|Hne].
  - assert (Hrest : concat (map (fun a' => if num a' =? num a then g a' else []) l) = []).
    { apply concat_map_nil. intros a' Ha'. destruct (Z.eqb_spec (num a') (num a)); [|done].
      exfalso. apply Hnot. rewrite Heq. apply list_elem_of_fmap. by exists a'. }
    rewrite Hrest, app_nil_r.
    apply elem_of_cons in Ha as [->|Ha]; [done|].
    exfalso. apply Hnot. rewrite Heq. apply list_elem_of_fmap. by exists a.
  - cbn. apply IH; [done|]. by apply elem_of_cons in Ha as [->|Ha].
Qed.

(** The rows selected for the number of one block are that block. *)
Lemma select_one_block {A : Type} (cnt : A -> nat) (num : A -> Z) (g : A -> list value)
    (l : list A) (a : A) :
  NoDup (map num l) -> a ∈ l ->
  (forall a', a' ∈ l -> length (g a') = cnt a') ->
  select (eq_mask (concat (map (fun a' => replicate (cnt a') (VInt (num a'))) l))
                  (VInt (num a)))
         (concat (map g l))
  = g a.
Proof.
  intros Hnd Ha Hlen. rewrite (select_blocks_of cnt num g) by done.
  by apply pick_block_of.
Qed.

(** ** FetchData.scans_to_pandas: the table of flattenable scans *)

Lemma scan_beam_rows_eq sp vp scnum o idh b sl :
  attrs b !! "slist" = Some (VList sl) ->
  FetchData.scan_beam_rows sp vp scnum o (idh, b)
  = (o ← FetchData.beam_rows sp vp o b;
     o ← col_extend o "scnum" (replicate (gates b) (VInt scnum));
     col_extend o "sbnum" (replicate (gates b) (VInt idh))).
Proof.
  intros Hsl. unfold FetchData.scan_beam_rows, FetchData.beam_rows.
  rewrite (getattr_Some _ _ _ Hsl), !Ok_bind. cbn [py_len]. rewrite !Ok_bind.
  rewrite (gates_len _ _ Hsl).
  destruct (foldM (FetchData.extend_vector b) o vp) as [o1|e]; [|done].
  rewrite !Ok_bind. by destruct (foldM _ o1 sp).
Qed.

Lemma col_extend_Ok o p c xs :
  o !! p = Some c -> col_extend o p xs = Ok (<[p := c ++ xs]> o).
Proof. intros H. unfold col_extend, dict_get. by rewrite H. Qed.

Lemma pad_app N G c r :
  length c = N -> pad (N + G) (c ++ r) = c ++ pad G r.
Proof.
  intros <-. unfold pad. rewrite length_app, <- app_assoc. do 3 f_equal. lia.
Qed.

Section ScanTable.

Variables s_params v_params : list string.
Hypothesis Hcols : NoDup (scan_columns s_params v_params).
Hypothesis Hslist : "slist" ∈ v_params.

Lemma fields_NoDup : NoDup (s_params ++ v_params).
Proof.
  unfold scan_columns in Hcols. rewrite app_assoc in Hcols.
  by apply NoDup_app in Hcols as (? & _).
Qed.

Lemma new_col_not_field q : q ∈ FetchData.new_cols -> q ∉ s_params ++ v_params.
Proof.
  intros Hq Hin. unfold scan_columns in Hcols. rewrite app_assoc in Hcols.
  apply NoDup_app in Hcols as (_ & Hd & _). by apply (Hd q).
Qed.

Lemma scnum_not_field : "scnum" ∉ s_params ++ v_params.
Proof. apply new_col_not_field. by left. Qed.

Lemma sbnum_not_field : "sbnum" ∉ s_params ++ v_params.
Proof. apply new_col_not_field. right. by left. Qed.

Lemma scan_columns_cases q :
  q ∈ scan_columns s_params v_params <->
  q ∈ s_params ++ v_params \/ q = "scnum" \/ q = "sbnum".
Proof.
  unfold scan_columns, FetchData.new_cols.
  rewrite app_assoc, elem_of_app, !elem_of_cons, elem_of_nil. tauto.
Qed.

Lemma scan_beam_rows_lookup scnum hb o :
  readable s_params v_params hb.2 ->
  (forall p, p ∈ scan_columns s_params v_params -> is_Some (o !! p)) ->
  exists o', FetchData.scan_beam_rows s_params v_params scnum o hb = Ok o' /\
    forall q, o' !! q =
      if decide (q ∈ scan_columns s_params v_params)
      then (fun c => c ++ scan_raw_cells v_params scnum hb q) <$> o !! q
      else o !! q.
Proof.
  destruct hb as [idh b]. cbn [snd]. intros Hread Hkeys.
  destruct (proj1 Hread "slist" Hslist) as (sl & Hsl).
  rewrite (scan_beam_rows_eq _ _ _ _ _ _ sl Hsl).
  destruct (beam_rows_lookup s_params v_params fields_NoDup Hslist b o Hread)
    as (o1 & Ho1 & Hl1).
  { intros p Hp. apply Hkeys, scan_columns_cases. by left. }
  rewrite Ho1, Ok_bind.
  destruct (Hkeys "scnum") as [c1 Hc1]; [apply scan_columns_cases; auto|].
  destruct (Hkeys "sbnum") as [c2 Hc2]; [apply scan_columns_cases; auto|].
  rewrite (col_extend_Ok o1 "scnum" c1), Ok_bind
    by (by rewrite Hl1, decide_False by apply scnum_not_field).
  rewrite (col_extend_Ok _ "sbnum" c2)
    by (rewrite lookup_insert_ne by done;
        by rewrite Hl1, decide_False by apply sbnum_not_field).
  eexists. split; [reflexivity|]. intros q. unfold scan_raw_cells. cbn [fst snd].
  destruct (decide (q = "sbnum")) as [->|Hn2].
  { rewrite lookup_insert_eq, decide_True by (apply scan_columns_cases; auto).
    rewrite Hc2. cbn. by rewrite decide_False. }
  rewrite lookup_insert_ne by done.
  destruct (decide (q = "scnum")) as [->|Hn1].
  { rewrite lookup_insert_eq, decide_True by (apply scan_columns_cases; auto).
    by rewrite Hc1. }
  rewrite lookup_insert_ne, Hl1 by done.
  destruct (decide (q ∈ s_params ++ v_params)) as [Hq|Hq].
  - rewrite decide_True; [done|]. apply scan_columns_cases. by left.
  - rewrite decide_False; [done|]. rewrite scan_columns_cases. tauto.
Qed.

Lemma scan_beams_lookup scnum hbs : forall o,
  Forall (fun hb => readable s_params v_params hb.2) hbs ->
  (forall p, p ∈ scan_columns s_params v_params -> is_Some (o !! p)) ->
  exists o', foldM (FetchData.scan_beam_rows s_params v_params scnum) o hbs = Ok o' /\
    forall q, o' !! q =
      if decide (q ∈ scan_columns s_params v_params)
      then (fun c => c ++ concat (map (fun hb => scan_raw_cells v_params scnum hb q) hbs))
             <$> o !! q
      else o !! q.
Proof.
  induction hbs as [|hb hbs IH]; intros o Hread Hkeys.
  - exists o. split; [done|]. intros q. destruct (decide _); [|done].
    destruct (o !! q); [|done]. cbn. by rewrite app_nil_r.
  - apply Forall_cons in Hread as [Hb Hread].
    destruct (scan_beam_rows_lookup scnum hb o Hb Hkeys) as (o1 & Ho1 & Hl1).
    rewrite foldM_cons, Ho1, Ok_bind.
    destruct (IH o1 Hread) as (o' & Ho' & Hl').
    { intros p Hp. rewrite Hl1, decide_True by done.
      destruct (Hkeys p Hp) as [c ->]. by eexists. }
    exists o'. split; [done|]. intros q. rewrite Hl', Hl1.
    destruct (decide _); [|done]. destruct (o !! q); [|done].
    cbn. by rewrite app_assoc.
Qed.

(** The beams of a flattenable scan. *)
Section OneScan.

Variable s : Scan.
Hypothesis Hs : scan_flattenable s_params v_params s.

Lemma scan_beam_in hb : hb ∈ FetchData.enumerate (beams s) -> hb.2 ∈ beams s.
Proof.
  intros Hin. rewrite <- (enumerate_snd (beams s)). apply list_elem_of_fmap. by exists hb.
Qed.

Lemma scan_beam_gates hb : hb ∈ FetchData.enumerate (beams s) -> (0 < gates hb.2)%nat.
Proof.
  intros Hin%scan_beam_in. apply (fl_gates _ _ _ (sf_beam _ _ _ Hs _ Hin)). by left.
Qed.

Lemma scan_beams_readable :
  Forall (fun hb => readable s_params v_params hb.2) (FetchData.enumerate (beams s)).
Proof.
  apply Forall_forall. intros hb Hin%scan_beam_in.
  pose proof (flattenable_readable _ _ _ (sf_beam _ _ _ Hs _ Hin)) as H.
  by apply Forall_cons in H as [? _].
Qed.

Lemma scan_cells_length scnum hb q :
  hb ∈ FetchData.enumerate (beams s) -> q ∈ scan_columns s_params v_params ->
  length (scan_cells s_params v_params scnum hb q) = gates hb.2.
Proof.
  intros Hin%scan_beam_in Hq. unfold scan_cells.
  destruct (decide (q = "scnum")); [apply length_replicate|].
  destruct (decide (q = "sbnum")); [apply length_replicate|].
  apply (cells_length _ _ [hb.2] (sf_beam _ _ _ Hs _ Hin)); [by left|].
  apply scan_columns_cases in Hq. tauto.
Qed.

Lemma scan_gates_sum :
  sum_list (map (fun hb => gates hb.2) (FetchData.enumerate (beams s))) = scan_gates s.
Proof.
  unfold scan_gates, total_gates. rewrite <- (enumerate_snd (beams s)) at 2.
  by rewrite map_map.
Qed.

Lemma scan_block_length start idn q :
  q ∈ scan_columns s_params v_params ->
  length (scan_block s_params v_params start (idn, s) q) = scan_gates s.
Proof.
  intros Hq. unfold scan_block. cbn [fst snd]. rewrite <- scan_gates_sum.
  apply concat_map_length. intros hb Hin. by apply scan_cells_length.
Qed.

(** Padding turns the accumulated rows of the scan into its block. *)
Lemma scan_padded_column scnum q :
  q ∈ scan_columns s_params v_params ->
  pad (scan_gates s)
      (concat (map (fun hb => scan_raw_cells v_params scnum hb q)
                   (FetchData.enumerate (beams s))))
  = concat (map (fun hb => scan_cells s_params v_params scnum hb q)
                (FetchData.enumerate (beams s))).
Proof.
  intros Hq.
  assert (Hfull : (forall hb, hb ∈ FetchData.enumerate (beams s) ->
                     scan_raw_cells v_params scnum hb q
                     = scan_cells s_params v_params scnum hb q) ->
                  pad (scan_gates s)
                      (concat (map (fun hb => scan_raw_cells v_params scnum hb q)
                                   (FetchData.enumerate (beams s))))
                  = concat (map (fun hb => scan_cells s_params v_params scnum hb q)
                                (FetchData.enumerate (beams s)))).
  { intros Heq. rewrite (concat_map_ext _ _ _ Heq). apply pad_ge.
    rewrite <- scan_gates_sum.
    rewrite (concat_map_length _ (fun hb => gates hb.2)); [done|].
    intros hb Hin. by apply scan_cells_length. }
  unfold scan_raw_cells, scan_cells in *.
  destruct (decide (q = "scnum")); [by apply Hfull|].
  destruct (decide (q = "sbnum")); [by apply Hfull|].
  destruct (decide (q ∈ v_params)) as [Hv|Hv].
  - destruct (sf_vector _ _ _ Hs q Hv) as [Hf|He].
    + apply Hfull. intros hb Hin%scan_beam_in.
      unfold cells, raw_cells. rewrite !decide_True by done.
      destruct (Hf _ Hin) as (l & Hl & Hlen). unfold vec. rewrite Hl.
      by rewrite pad_ge by lia.
    + rewrite (concat_map_nil (fun hb => raw_cells v_params hb.2 q)).
      * unfold pad at 1. cbn [length app]. rewrite Nat.sub_0_r, <- scan_gates_sum.
        rewrite <- concat_map_replicate. apply concat_map_ext.
        intros hb Hin%scan_beam_in. unfold cells, vec.
        rewrite decide_True, (He _ Hin) by done.
        unfold pad. cbn [length app]. by rewrite Nat.sub_0_r.
      * intros hb Hin%scan_beam_in. unfold raw_cells, vec.
        by rewrite decide_True, (He _ Hin).
  - apply Hfull. intros hb Hin. unfold cells, raw_cells. by rewrite !decide_False.
Qed.

(** One round of the outer loop of [scans_to_pandas] appends the block of
    the scan to every column. *)
Lemma scan_rows_lookup start idn o N :
  (forall q, q ∈ scan_columns s_params v_params ->
             exists c, o !! q = Some c /\ length c = N) ->
  exists o', FetchData.scan_rows s_params v_params start o (idn, s) = Ok o' /\
    forall q, o' !! q =
      if decide (q ∈ scan_columns s_params v_params)
      then (fun c => c ++ scan_block s_params v_params start (idn, s) q) <$> o !! q
      else o !! q.
Proof.
  intros Hkeys. unfold FetchData.scan_rows.
  destruct (scan_beams_lookup (idn + start) (FetchData.enumerate (beams s)) o
              scan_beams_readable) as (o1 & Ho1 & Hl1).
  { intros p Hp. destruct (Hkeys p Hp) as (c & -> & _). by eexists. }
  rewrite Ho1, Ok_bind. unfold FetchData.pad_columns, dict_get.
  assert (Hsl : "slist" ∈ scan_columns s_params v_params).
  { apply scan_columns_cases. left. apply elem_of_app. by right. }
  destruct (Hkeys "slist" Hsl) as (csl & Hcsl & Hlsl).
  rewrite Hl1, decide_True, Hcsl by done. cbn [fmap option_fmap option_map]. rewrite Ok_bind.
  assert (Hlen : length (csl ++ concat (map (fun hb => scan_raw_cells v_params (idn + start) hb "slist")
                                            (FetchData.enumerate (beams s))))
                 = (N + scan_gates s)%nat).
  { rewrite length_app, Hlsl. f_equal. rewrite <- scan_gates_sum.
    apply concat_map_length. intros hb Hin.
    pose proof (scan_beam_in _ Hin) as Hb.
    unfold scan_raw_cells. rewrite !decide_False by done.
    unfold raw_cells, vec. rewrite decide_True by done.
    pose proof (fl_gates _ _ _ (sf_beam _ _ _ Hs _ Hb) hb.2 ltac:(by left)) as Hg.
    unfold gates in *. destruct (attrs hb.2 !! "slist") as [[| | | | |l]|]; cbn in *; lia. }
  rewrite Hlen.
  destruct (foldM_update (FetchData.pad_column (N + scan_gates s))
              (fun _ c => pad (N + scan_gates s) c) (fun _ _ => True)
              (scan_columns s_params v_params) Hcols)
    with (o := o1) as (o2 & Ho2 & Hl2).
  { intros o0 p c _ Hc _. by apply pad_column_Ok. }
  { intros p Hp. rewrite Hl1, decide_True by done.
    destruct (Hkeys p Hp) as (c & -> & _). eauto. }
  exists o2. split; [exact Ho2|]. intros q. rewrite Hl2, Hl1.
  destruct (decide _) as [Hq|Hq]; [|done].
  destruct (Hkeys q Hq) as (c & -> & Hc). cbn [fmap option_fmap option_map]. f_equal.
  rewrite (pad_app N _ c _ Hc). f_equal. unfold scan_block. cbn [fst snd].
  by apply scan_padded_column.
Qed.

End OneScan.

(** The outer loop of [scans_to_pandas]. *)
Lemma scans_rows_lookup start nss : forall o N,
  Forall (fun ns => scan_flattenable s_params v_params ns.2) nss ->
  (forall q, q ∈ scan_columns s_params v_params ->
             exists c, o !! q = Some c /\ length c = N) ->
  exists o', foldM (FetchData.scan_rows s_params v_params start) o nss = Ok o' /\
    forall q, o' !! q =
      if decide (q ∈ scan_columns s_params v_params)
      then (fun c => c ++ concat (map (fun ns => scan_block s_params v_params start ns q) nss))
             <$> o !! q
      else o !! q.
Proof.
  induction nss as [|[idn s] nss IH]; intros o N Hss Hkeys.
  - exists o. split; [done|]. intros q. destruct (decide _); [|done].
    destruct (o !! q); [|done]. cbn. by rewrite app_nil_r.
  - apply Forall_cons in Hss as [Hs Hss]. cbn [snd] in Hs.
    destruct (scan_rows_lookup s Hs start idn o N Hkeys) as (o1 & Ho1 & Hl1).
    rewrite foldM_cons, Ho1, Ok_bind.
    destruct (IH o1 (N + scan_gates s)%nat Hss) as (o' & Ho' & Hl').
    { intros q Hq. rewrite Hl1, decide_True by done.
      destruct (Hkeys q Hq) as (c & -> & Hc). eexists. split; [done|].
      by rewrite length_app, Hc, (scan_block_length s Hs). }
    exists o'. split; [done|]. intros q. rewrite Hl', Hl1.
    destruct (decide _); [|done]. destruct (o !! q); [|done].
    cbn. by rewrite app_assoc.
Qed.

(** The table that [scans_to_pandas] returns: one block of rows per scan,
    in the order of the scans. *)
Lemma scans_table scans start :
  Forall (scan_flattenable s_params v_params) scans ->
  exists df,
    FetchData.scans_to_pandas scans s_params v_params start = Ok df /\
    forall q, df !! q =
      if decide (q ∈ scan_columns s_params v_params)
      then Some (concat (map (fun ns => scan_block s_params v_params start ns q)
                             (FetchData.enumerate scans)))
      else None.
Proof.
  intros Hss. unfold FetchData.scans_to_pandas.
  destruct (scans_rows_lookup start (FetchData.enumerate scans)
              (new_table (scan_columns s_params v_params)) 0)
    as (o & Ho & Hl).
  { apply Forall_forall. intros ns Hin. rewrite Forall_forall in Hss. apply Hss.
    rewrite <- (enumerate_snd scans). apply list_elem_of_fmap. by exists ns. }
  { intros q Hq. exists []. by rewrite new_table_Some. }
  fold (scan_columns s_params v_params). rewrite Ho, Ok_bind.
  assert (Hcol : forall q, o !! q =
            if decide (q ∈ scan_columns s_params v_params)
            then Some (concat (map (fun ns => scan_block s_params v_params start ns q)
                                   (FetchData.enumerate scans)))
            else None).
  { intros q. rewrite Hl. destruct (decide _) as [Hq|Hq].
    - by rewrite new_table_Some.
    - by apply new_table_None. }
  exists o. split; [|done]. unfold from_records.
  rewrite (same_length_true o
             (sum_list (map (fun ns => scan_gates ns.2) (FetchData.enumerate scans))));
    [done|].
  intros p col Hp. rewrite Hcol in Hp. destruct (decide _) as [Hq|]; [|done].
  injection Hp as <-. apply concat_map_length. intros [idn s] Hin. cbn [snd].
  apply scan_block_length; [|done]. rewrite Forall_forall in Hss. apply Hss.
  rewrite <- (enumerate_snd scans). apply list_elem_of_fmap. by exists (idn, s).
Qed.

End ScanTable.

(** The same without the assumption on "slist", which every beam brings. *)
Lemma scans_table_of s_params v_params scans start :
  NoDup (scan_columns s_params v_params) ->
  Forall (scan_flattenable s_params v_params) scans ->
  exists df,
    FetchData.scans_to_pandas scans s_params v_params start = Ok df /\
    forall q, df !! q =
      if decide (q ∈ scan_columns s_params v_params)
      then Some (concat (map (fun ns => scan_block s_params v_params start ns q)
                             (FetchData.enumerate scans)))
      else None.
Proof.
  intros Hcols Hscans. destruct scans as [|s0 scans0].
  - exists (new_table (scan_columns s_params v_params)). split.
    + unfold FetchData.scans_to_pandas. cbn [FetchData.enumerate imap foldM].
      rewrite Ok_bind. unfold from_records.
      rewrite (same_length_true _ 0); [done|].
      intros p col Hp. by apply new_table_lookup in Hp as ->.
    + intros q. destruct (decide _) as [Hq|Hq].
      * by rewrite new_table_Some.
      * by apply new_table_None.
  - apply scans_table; [done| |done].
    apply Forall_cons in Hscans as [Hs0 _]. pose proof (sf_beams _ _ _ Hs0) as Hne.
    destruct (beams s0) as [|b0 bs] eqn:E; [done|].
    assert (Hb0 : b0 ∈ beams s0) by (rewrite E; by left).
    apply (fl_slist _ _ _ (sf_beam _ _ _ Hs0 b0 Hb0)).
Qed.

(** ** FetchData.pandas_to_beams on a table with further columns *)

Section Groups.

Variables s_params v_params : list string.
Variable B : list Beam.
Hypothesis HB : flattenable s_params v_params B.

Variable df : gmap string (list value).
Hypothesis Hdf : forall q, q ∈ s_params ++ v_params ->
  df !! q = Some (concat (map (fun b => cells s_params v_params b q) B)).

Lemma bmnum_column_of :
  df !! "bmnum"
  = Some (concat (map (fun b => replicate (gates b) (VInt (number b))) B)).
Proof.
  pose proof (fl_bmnum _ _ _ HB) as Hbm.
  rewrite Hdf by (apply elem_of_app; by left).
  f_equal. f_equal. apply map_ext_in. intros b Hb%list_elem_of_In.
  unfold cells.
  rewrite decide_False by (by apply (scalar_not_vector _ _ (fl_nodup _ _ _ HB))).
  by rewrite (number_attr _ _ _ HB).
Qed.

Lemma group_columns_of b o :
  b ∈ B ->
  df_where df "bmnum" (VInt (number b)) = Ok o ->
  forall q, q ∈ s_params ++ v_params -> o !! q = Some (cells s_params v_params b q).
Proof.
  intros Hb Ho q Hq. unfold df_where, df_column in Ho.
  rewrite bmnum_column_of, Ok_bind in Ho. injection Ho as <-.
  rewrite lookup_fmap, Hdf by done. cbn. f_equal.
  rewrite select_blocks by (intros b' Hb'; by apply (cells_length _ _ B HB)).
  apply (pick_block (fun b' => cells s_params v_params b' q)); [|done].
  apply (fl_distinct _ _ _ HB).
Qed.

Lemma beam_of_group_image b :
  b ∈ B ->
  exists b', FetchData.beam_of_group df s_params v_params (VInt (number b)) = Ok b' /\
             same_fields s_params v_params b b'.
Proof.
  intros Hb. unfold FetchData.beam_of_group.
  destruct (df_where df "bmnum" (VInt (number b))) as [o|e] eqn:Ho;
    [|by unfold df_where, df_column in Ho; rewrite bmnum_column_of in Ho].
  rewrite Ok_bind. pose proof (group_columns_of b o Hb Ho) as Hcols.
  pose proof (fl_nodup _ _ _ HB) as Hnd.
  apply NoDup_app in Hnd as (Hnds & Hdisj & Hndv).
  destruct (foldM_update FetchData.first_row (fun _ c => first_entry c)
              (fun _ c => exists v l, c = VList (v :: l)) s_params Hnds)
    with (o := VList <$> o) as (d & Hd & Hld).
  { intros d0 p c _ Hc (v & l & ->). by apply first_row_Ok. }
  { intros p Hp. destruct (fl_scalar _ _ _ HB b p Hb Hp) as [v Hv].
    destruct (scalar_cells _ _ _ HB b p v Hb Hp Hv) as (l & Hl).
    exists (VList (v :: l)). split; [|by eauto].
    rewrite lookup_fmap, Hcols by (apply elem_of_app; by left).
    cbn. by rewrite Hl. }
  rewrite Hd, Ok_bind.
  pose proof (fl_time _ _ _ HB) as Htime.
  destruct (fl_scalar _ _ _ HB b "time" Hb Htime) as [t Ht].
  destruct (scalar_cells _ _ _ HB b "time" t Hb Htime Ht) as (lt & Hlt).
  unfold df_column. rewrite Hcols, Hlt by (apply elem_of_app; by left).
  rewrite Ok_bind. change (list_index (t :: lt) 0) with (Ok t). rewrite Ok_bind.
  eexists. split; [apply set_Ok|]. split.
  - intros p Hp. cbn [attrs].
    destruct (fl_scalar _ _ _ HB b p Hb Hp) as [v Hv].
    destruct (scalar_cells _ _ _ HB b p v Hb Hp Hv) as (l & Hl).
    assert (Hdp : d !! p = Some v).
    { rewrite Hld, decide_True, lookup_fmap, Hcols
        by (done || apply elem_of_app; by left).
      cbn. by rewrite Hl. }
    destruct (decide (p = "time")) as [->|Hne].
    + rewrite lookup_insert_eq. congruence.
    + rewrite lookup_insert_ne by done.
      rewrite lookup_assign, decide_False by (by apply Hdisj).
      rewrite lookup_assign, decide_True by done.
      rewrite Hv. f_equal. unfold scalar_of. rewrite Hdp.
      destruct (String.eqb_spec p "scan") as [->|_]; [|done]. cbn.
      destruct (py_ne v (VInt 0)) eqn:Hnz; [|done].
      symmetry. by apply (fl_scan _ _ _ HB b Hb).
  - intros p Hp. cbn [attrs].
    destruct (flattenable_vector _ _ B HB b p Hb Hp) as (l & Hl & _).
    exists l. split; [done|].
    rewrite lookup_insert_ne by (intros <-; by apply (Hdisj "time")).
    rewrite lookup_assign, decide_True by done. f_equal.
    unfold vector_of.
    rewrite Hld, decide_False, lookup_fmap, Hcols
      by ((intros ?; by apply (Hdisj p)) || apply elem_of_app; by right).
    cbn. unfold cells, vec. by rewrite decide_True, Hl.
Qed.

(** Columns that are not among the requested fields do not matter. *)
Lemma pandas_to_beams_images :
  exists B', FetchData.pandas_to_beams df s_params v_params = Ok B' /\
    Forall2 (fun z b' => exists b, b ∈ B /\ number b = z /\
                                   same_fields s_params v_params b b')
            (unique_numbers (numbers B)) B'.
Proof.
  unfold FetchData.pandas_to_beams, df_column.
  rewrite bmnum_column_of, Ok_bind.
  rewrite np_unique_blocks, Ok_bind by apply (fl_gates _ _ _ HB).
  apply (mapM_map_Forall2 (FetchData.beam_of_group df s_params v_params) VInt).
  intros z Hz. apply (proj1 (elem_of_unique_numbers _ _)) in Hz.
  apply list_elem_of_fmap in Hz as (b & -> & Hb).
  destruct (beam_of_group_image b Hb) as (b' & Hb' & Hsame). eauto 6.
Qed.

End Groups.

(** The table of one beam gives back that beam. *)
Lemma pandas_to_beams_single sp vp b (df : gmap string (list value)) :
  flattenable sp vp [b] ->
  (forall q, q ∈ sp ++ vp -> df !! q = Some (cells sp vp b q)) ->
  exists b', FetchData.pandas_to_beams df sp vp = Ok [b'] /\ same_fields sp vp b b'.
Proof.
  intros HB Hdf.
  destruct (pandas_to_beams_images sp vp [b] HB df) as (B' & HB' & HF).
  { intros q Hq. cbn. by rewrite app_nil_r, Hdf. }
  change (unique_numbers (numbers [b])) with [number b] in HF.
  apply Forall2_cons_inv_l in HF as (b' & B'' & (b0 & Hb0 & _ & Hsame) & HF & ->).
  apply Forall2_nil_inv_l in HF as ->.
  apply list_elem_of_singleton in Hb0 as ->. by exists b'.
Qed.

(** ** Scan.update_time on beams with the same times and averages *)

Section SameScan.

Variable np_mean : list value -> result value.

Lemma mapM_ext_Forall2 {A B : Type} (g : A -> result B) (l l' : list A) :
  Forall2 (fun x x' => g x = g x') l l' -> mapM g l = mapM g l'.
Proof. induction 1 as [|x x' l l' Hx _ IH]; [done|]. cbn. cbn in IH. by rewrite Hx, IH. Qed.

Lemma update_time_same_fields sp vp (B B' : list Beam) a e m f0 n0 a' e' m' f0' n0' :
  "time" ∈ sp -> "tfreq" ∈ sp -> "noise.sky" ∈ sp ->
  Forall2 (same_fields sp vp) B B' ->
  Scan.update_time np_mean (mk_Scan a' e' m' B' f0' n0')
  = (u ← Scan.update_time np_mean (mk_Scan a e m B f0 n0);
     mret (mk_Scan (stime u) (etime u) m' B' (f u) (nsky u))).
Proof.
  intros Ht Hf Hn HF.
  assert (Htimes : Scan.beam_times (mk_Scan a' e' m' B' f0' n0')
                   = Scan.beam_times (mk_Scan a e m B f0 n0)).
  { unfold Scan.beam_times. cbn [beams]. symmetry. apply mapM_ext_Forall2.
    eapply Forall2_impl; [exact HF|]. intros b b' [Hs _]. unfold getattr.
    by rewrite (Hs "time" Ht). }
  assert (Havg : mapM Scan.avg_fields B' = mapM Scan.avg_fields B).
  { symmetry. apply mapM_ext_Forall2.
    eapply Forall2_impl; [exact HF|]. intros b b' [Hs _]. unfold Scan.avg_fields, getattr.
    by rewrite (Hs "tfreq" Hf), (Hs "noise.sky" Hn). }
  unfold Scan.update_time, Scan._populate_avg_params. rewrite Htimes.
  cbn [beams stime etime s_mode f nsky]. rewrite Havg.
  clear Htimes Havg.
  destruct (Scan.beam_times (mk_Scan a e m B f0 n0)) as [ts|]; [|done]. rewrite !Ok_bind.
  destruct (py_min ts) as [lo|]; [|done]. rewrite !Ok_bind.
  destruct (py_max ts) as [hi|]; [|done]. rewrite !Ok_bind.
  destruct (mapM Scan.avg_fields B) as [fn|]; [|done]. rewrite !Ok_bind.
  destruct (np_mean (map fst fn)) as [mf|]; [|done]. rewrite !Ok_bind.
  by destruct (np_mean (map snd fn)) as [mn|].
Qed.

End SameScan.

(** ** FetchData.pandas_to_scans on the table of flattenable scans *)

Section ScanRoundTrip.

Variable np_mean : list value -> result value.
Variables s_params v_params : list string.
Hypothesis Hcols : NoDup (scan_columns s_params v_params).
Hypothesis Htfreq : "tfreq" ∈ s_params.
Hypothesis Hnoise : "noise.sky" ∈ s_params.
Variable start : Z.
Variable smode : value.

(** The rows of one scan: the inner loop of [pandas_to_scans]. *)
Section InScan.

Variable s : Scan.
Hypothesis Hs : scan_flattenable s_params v_params s.
Variable scnum : Z.
Variable o : gmap string (list value).
Hypothesis Ho : forall q, q ∈ scan_columns s_params v_params ->
  o !! q = Some (concat (map (fun hb => scan_cells s_params v_params scnum hb q)
                             (FetchData.enumerate (beams s)))).

Lemma sbnum_column :
  o !! "sbnum"
  = Some (concat (map (fun hb : Z * Beam => replicate (gates hb.2) (VInt hb.1))
                      (FetchData.enumerate (beams s)))).
Proof.
  rewrite Ho by (apply scan_columns_cases; auto). reflexivity.
Qed.

Lemma sub_beams_image acc hb :
  hb ∈ FetchData.enumerate (beams s) ->
  exists b', FetchData.sub_beams s_params v_params o acc (VInt hb.1) = Ok (acc ++ [b']) /\
             same_fields s_params v_params hb.2 b'.
Proof.
  intros Hin. unfold FetchData.sub_beams, df_where, df_column.
  rewrite sbnum_column, !Ok_bind.
  destruct (pandas_to_beams_single s_params v_params hb.2
              (select (eq_mask (concat (map (fun hb : Z * Beam =>
                                               replicate (gates hb.2) (VInt hb.1))
                                            (FetchData.enumerate (beams s))))
                               (VInt hb.1)) <$> o))
    as (b' & Hb' & Hsame).
  { apply (sf_beam _ _ _ Hs). by apply scan_beam_in. }
  { intros q Hq.
    assert (Hq' : q ∈ scan_columns s_params v_params) by (apply scan_columns_cases; auto).
    rewrite lookup_fmap, Ho by done. cbn [fmap option_fmap option_map]. f_equal.
    rewrite (select_one_block (fun hb : Z * Beam => gates hb.2) fst
               (fun hb => scan_cells s_params v_params scnum hb q)).
    - unfold scan_cells. rewrite !decide_False; [done|..].
      + intros ->. by apply (sbnum_not_field s_params v_params).
      + intros ->. by apply (scnum_not_field s_params v_params).
    - apply sorted_NoDup, enumerate_sorted.
    - done.
    - intros hb' Hin'. by apply (scan_cells_length s_params v_params s Hs). }
  rewrite Hb', Ok_bind. by exists b'.
Qed.

Lemma sub_beams_loop todo : forall acc,
  (forall hb, hb ∈ todo -> hb ∈ FetchData.enumerate (beams s)) ->
  exists B', foldM (FetchData.sub_beams s_params v_params o) acc (map VInt (map fst todo))
             = Ok (acc ++ B') /\
             Forall2 (same_fields s_params v_params) (map snd todo) B'.
Proof.
  induction todo as [|hb todo IH]; intros acc Hsub.
  - exists []. rewrite app_nil_r. by split.
  - destruct (sub_beams_image acc hb) as (b' & Hb' & Hsame); [apply Hsub; by left|].
    destruct (IH (acc ++ [b'])) as (B' & HB' & HF); [intros hb' Hin; apply Hsub; by right|].
    exists (b' :: B'). cbn [map foldM]. rewrite Hb', Ok_bind, HB', <- app_assoc.
    split; [done|]. by constructor.
Qed.

(** The beams rebuilt for the scan. *)
Lemma scan_beams_image :
  exists B', (col ← df_column o "sbnum"; us ← np_unique col;
              foldM (FetchData.sub_beams s_params v_params o) [] us) = Ok B' /\
             Forall2 (same_fields s_params v_params) (beams s) B'.
Proof.
  unfold df_column. rewrite sbnum_column, Ok_bind.
  rewrite (np_unique_blocks_of (fun hb : Z * Beam => gates hb.2) fst), Ok_bind
    by (intros hb Hin; by apply (scan_beam_gates s_params v_params s Hs)).
  rewrite unique_numbers_of_sorted by apply enumerate_sorted.
  destruct (sub_beams_loop (FetchData.enumerate (beams s)) []) as (B' & HB' & HF); [done|].
  exists B'. split; [done|]. by rewrite enumerate_snd in HF.
Qed.

End InScan.

Variable scans : list Scan.
Hypothesis Hscans : Forall (scan_flattenable s_params v_params) scans.
Hypothesis Hupd : Forall (fun s => exists u, Scan.update_time np_mean s = Ok u) scans.

Variable df : gmap string (list value).
Hypothesis Hdf : forall q, q ∈ scan_columns s_params v_params ->
  df !! q = Some (concat (map (fun ns => scan_block s_params v_params start ns q)
                              (FetchData.enumerate scans))).

Lemma scan_in ns : ns ∈ FetchData.enumerate scans -> ns.2 ∈ scans.
Proof.
  intros Hin. rewrite <- (enumerate_snd scans). apply list_elem_of_fmap. by exists ns.
Qed.

Lemma scan_in_flattenable ns :
  ns ∈ FetchData.enumerate scans -> scan_flattenable s_params v_params ns.2.
Proof. intros Hin%scan_in. rewrite Forall_forall in Hscans. by apply Hscans. Qed.

Lemma scan_gates_pos s : scan_flattenable s_params v_params s -> (0 < scan_gates s)%nat.
Proof.
  intros Hs. pose proof (sf_beams _ _ _ Hs) as Hne.
  destruct (beams s) as [|b bs] eqn:E; [done|].
  assert (Hb : b ∈ beams s) by (rewrite E; by left).
  pose proof (fl_gates _ _ _ (sf_beam _ _ _ Hs b Hb) b ltac:(by left)) as Hg.
  unfold scan_gates, total_gates. rewrite E. cbn. lia.
Qed.

Lemma scnum_column :
  df !! "scnum"
  = Some (concat (map (fun ns : Z * Scan => replicate (scan_gates ns.2) (VInt (ns.1 + start)))
                      (FetchData.enumerate scans))).
Proof.
  rewrite Hdf by (apply scan_columns_cases; auto).
  apply (f_equal Some), concat_map_ext. intros [idn s] _. unfold scan_block. cbn [fst snd].
  rewrite <- scan_gates_sum, <- concat_map_replicate.
  apply concat_map_ext. intros hb _. unfold scan_cells. by rewrite decide_True.
Qed.

Lemma scan_numbers_sorted :
  StronglySorted Z.lt (map (fun ns : Z * Scan => ns.1 + start) (FetchData.enumerate scans)).
Proof.
  rewrite <- (map_map fst (fun z => z + start)). apply sorted_shift, enumerate_sorted.
Qed.

(** One round of the loop of [pandas_to_scans]. *)
Lemma scan_of_group_image bmax acc ns :
  ns ∈ FetchData.enumerate scans ->
  exists s',
    FetchData.scan_of_group np_mean df smode s_params v_params (bmax, acc)
      (VInt (ns.1 + start))
    = Ok (Nat.max bmax (length (beams ns.2)), acc ++ [s']) /\
    same_scan np_mean s_params v_params smode ns.2 s'.
Proof.
  intros Hin. pose proof (scan_in_flattenable ns Hin) as Hs.
  assert (Hw : df_where df "scnum" (VInt (ns.1 + start))
               = Ok (select (eq_mask (concat (map (fun ns : Z * Scan =>
                                                     replicate (scan_gates ns.2)
                                                               (VInt (ns.1 + start)))
                                                  (FetchData.enumerate scans)))
                                     (VInt (ns.1 + start))) <$> df)).
  { unfold df_where, df_column. by rewrite scnum_column. }
  unfold FetchData.scan_of_group. rewrite Hw, Ok_bind. clear Hw.
  destruct (scan_beams_image ns.2 Hs (ns.1 + start)
              (select (eq_mask (concat (map (fun ns : Z * Scan =>
                                               replicate (scan_gates ns.2)
                                                         (VInt (ns.1 + start)))
                                            (FetchData.enumerate scans)))
                               (VInt (ns.1 + start))) <$> df))
    as (B' & HB' & HF).
  { intros q Hq. rewrite lookup_fmap, Hdf by done.
    cbn [fmap option_fmap option_map]. f_equal.
    rewrite (select_one_block (fun ns : Z * Scan => scan_gates ns.2)
               (fun ns : Z * Scan => ns.1 + start)
               (fun ns => scan_block s_params v_params start ns q)).
    - by destruct ns.
    - apply sorted_NoDup, scan_numbers_sorted.
    - done.
    - intros [idn s] Hin'. apply scan_block_length; [|done].
      by apply (scan_in_flattenable (idn, s)). }
  apply bind_Ok_inv in HB' as (col & Hcol & HB').
  apply bind_Ok_inv in HB' as (us & Hus & HB').
  rewrite Hcol, Ok_bind, Hus, Ok_bind, HB', Ok_bind.
  pose proof (Forall2_length _ _ _ HF) as Hlen.
  rewrite Forall_forall in Hupd. destruct (Hupd ns.2 (scan_in ns Hin)) as (u & Hu).
  assert (Htime : "time" ∈ s_params).
  { pose proof (sf_beams _ _ _ Hs) as Hne.
    destruct (beams ns.2) as [|b0 bs] eqn:E; [done|].
    assert (Hb0 : b0 ∈ beams ns.2) by (rewrite E; by left).
    apply (fl_time _ _ _ (sf_beam _ _ _ Hs b0 Hb0)). }
  unfold beams_extend, Scan_init. cbn [stime etime s_mode beams f nsky app].
  destruct ns as [idn [a e m B f0 n0]]. cbn [fst snd beams] in *.
  rewrite (update_time_same_fields np_mean s_params v_params B B' a e m f0 n0)
    by done.
  rewrite Hu, !Ok_bind. eexists. split.
  - cbn [mret result_ret]. do 2 f_equal.
    destruct (Nat.ltb_spec bmax (length B')); lia.
  - split; [done|]. split; [done|]. by exists u.
Qed.

Lemma scan_loop_image todo : forall bmax acc,
  (forall ns, ns ∈ todo -> ns ∈ FetchData.enumerate scans) ->
  exists S',
    foldM (FetchData.scan_of_group np_mean df smode s_params v_params) (bmax, acc)
          (map VInt (map (fun ns : Z * Scan => ns.1 + start) todo))
    = Ok (Nat.max bmax (max_list (beam_counts (map snd todo))), acc ++ S') /\
    Forall2 (same_scan np_mean s_params v_params smode) (map snd todo) S'.
Proof.
  induction todo as [|ns todo IH]; intros bmax acc Hsub.
  - exists []. rewrite app_nil_r. cbn. rewrite Nat.max_0_r. by split.
  - destruct (scan_of_group_image bmax acc ns) as (s' & Hs' & Hsame); [apply Hsub; by left|].
    destruct (IH (Nat.max bmax (length (beams ns.2))) (acc ++ [s']))
      as (S' & HS' & HF); [intros ns' Hin; apply Hsub; by right|].
    exists (s' :: S'). cbn [map foldM]. rewrite Hs', Ok_bind, HS', <- app_assoc.
    split; [|by constructor].
    do 2 f_equal. unfold beam_counts. cbn [map max_list]. unfold id. lia.
Qed.

(** The scans rebuilt by the loop of [pandas_to_scans]. *)
Lemma reconstruct_scans_image :
  exists scans',
    FetchData.reconstruct_scans np_mean df smode s_params v_params
    = Ok (max_list (beam_counts scans), scans') /\
    Forall2 (same_scan np_mean s_params v_params smode) scans scans'.
Proof.
  unfold FetchData.reconstruct_scans, df_column. rewrite scnum_column, Ok_bind.
  rewrite (np_unique_blocks_of (fun ns : Z * Scan => scan_gates ns.2)
             (fun ns : Z * Scan => ns.1 + start)), Ok_bind
    by (intros ns Hin; by apply scan_gates_pos, scan_in_flattenable).
  rewrite unique_numbers_of_sorted by apply scan_numbers_sorted.
  destruct (scan_loop_image (FetchData.enumerate scans) 0%nat []) as (S' & HS' & HF); [done|].
  rewrite enumerate_snd in HS', HF. exists S'. by split.
Qed.

End ScanRoundTrip.

(** ** The round trip scans -> table -> scans *)

Lemma same_scan_count np_mean sp vp smode s s' :
  same_scan np_mean sp vp smode s s' -> length (beams s') = length (beams s).
Proof. intros [HF _]. symmetry. by apply (Forall2_length _ _ _ HF). Qed.

(** X17. Scans with at least one beam each, whose beams are flattenable one
    by one and whose vector fields are, within each scan, filled in all
    beams or empty in all beams, whose fields hold values of one type over
    all the beams of all the scans (so that the table stores them
    unconverted), and on which [update_time] succeeds: for
    field lists that hold "tfreq" and "noise.sky" as scalar fields and
    neither "scnum" nor "sbnum", [scans_to_pandas] succeeds and the loop of
    [pandas_to_scans] rebuilds as many scans, in their order; each rebuilt
    scan holds the images of the beams of its scan in their order (scalar
    fields identical, vector fields padded with NaN up to the gate count
    when they were empty), has the mode [smode], and the time bounds and
    averages that [update_time] gives the original scan; [bmax] is the
    largest beam count.  When the heuristic does not apply to the first
    three scans, [pandas_to_scans] returns exactly these scans. *)
Theorem scans_round_trip (np_mean : list value -> result value) (scans : list Scan)
    (s_params v_params : list string) (start_scnum : Z) (smode : value) :
  NoDup (scan_columns s_params v_params) ->
  "tfreq" ∈ s_params ->
  "noise.sky" ∈ s_params ->
  Forall (scan_flattenable s_params v_params) scans ->
  typed_columns s_params v_params (concat (map beams scans)) ->
  Forall (fun s => exists u, Scan.update_time np_mean s = Ok u) scans ->
  exists df scans',
    FetchData.scans_to_pandas scans s_params v_params start_scnum = Ok df /\
    FetchData.reconstruct_scans np_mean df smode s_params v_params
      = Ok (max_list (beam_counts scans), scans') /\
    Forall2 (same_scan np_mean s_params v_params smode) scans scans' /\
    (forall s0 s1 s2 rest, scans = s0 :: s1 :: s2 :: rest ->
       (length (beams s0) + length (beams s1) <> length (beams s2))%nat ->
       FetchData.pandas_to_scans np_mean df smode s_params v_params
       = Ok (scans', max_list (beam_counts scans))).
Proof.
  intros Hcols Htfreq Hnoise Hscans _ Hupd.
  destruct (scans_table_of s_params v_params scans start_scnum Hcols Hscans)
    as (df & Hdf & Hcol).
  destruct (reconstruct_scans_image np_mean s_params v_params Hcols Htfreq Hnoise
              start_scnum smode scans Hscans Hupd df)
    as (scans' & Hrec & HF).
  { intros q Hq. by rewrite Hcol, decide_True. }
  exists df, scans'. split; [done|]. split; [done|]. split; [done|].
  intros s0 s1 s2 rest Heq Hne. rewrite Heq in HF.
  apply Forall2_cons_inv_l in HF as (t0 & l0 & H0 & HF & ->).
  apply Forall2_cons_inv_l in HF as (t1 & l1 & H1 & HF & ->).
  apply Forall2_cons_inv_l in HF as (t2 & l2 & H2 & HF & ->).
  unfold FetchData.pandas_to_scans. rewrite Hrec, Ok_bind, merge_first_scans_3.
  rewrite (same_scan_count _ _ _ _ _ _ H0), (same_scan_count _ _ _ _ _ _ H1),
    (same_scan_count _ _ _ _ _ _ H2).
  apply Nat.eqb_neq in Hne. by rewrite Hne.
Qed.

Lemma scan_elv_flattenable : scan_flattenable fields_st fields_ve scan_elv.
Proof.
  assert (Hone : forall b, b ∈ [beam_2g; beam_1g] -> flattenable fields_st fields_ve [b]).
  { intros b Hb. constructor.
    - compute_done.
    - compute_done.
    - compute_done.
    - compute_done.
    - intros b' ->%list_elem_of_singleton. each_beam Hb; vm_compute; lia.
    - intros p Hp. repeat (apply elem_of_cons in Hp as [->|Hp]);
        [left|left|right|by apply elem_of_nil in Hp];
        intros b' ->%list_elem_of_singleton; each_beam Hb;
        try (eexists; split); vm_compute; reflexivity.
    - intros b' p ->%list_elem_of_singleton Hp. each_beam Hb;
        (repeat (apply elem_of_cons in Hp as [->|Hp]); [..|by apply elem_of_nil in Hp]);
        eexists; vm_compute; reflexivity.
    - intros b' ->%list_elem_of_singleton. each_beam Hb; eexists; vm_compute; reflexivity.
    - intros b' ->%list_elem_of_singleton. each_beam Hb; intros x Hx Hnz; vm_compute in Hx;
        injection Hx as <-; first [reflexivity | discriminate Hnz].
    - apply NoDup_singleton. }
  constructor.
  - discriminate.
  - exact Hone.
  - intros p Hp. repeat (apply elem_of_cons in Hp as [->|Hp]);
      [left|left|right|by apply elem_of_nil in Hp];
      intros b Hb; cbn [beams scan_elv] in Hb; each_beam Hb;
      try (eexists; split); vm_compute; reflexivity.
Qed.

Lemma scans_round_trip_witness :
  exists df scans',
    FetchData.scans_to_pandas [scan_elv; scan_elv] fields_st fields_ve 0 = Ok df /\
    FetchData.reconstruct_scans mean_seq df (VStr "themis") fields_st fields_ve
      = Ok (max_list (beam_counts [scan_elv; scan_elv]), scans') /\
    Forall2 (same_scan mean_seq fields_st fields_ve (VStr "themis"))
            [scan_elv; scan_elv] scans' /\
    (forall s0 s1 s2 rest, [scan_elv; scan_elv] = s0 :: s1 :: s2 :: rest ->
       (length (beams s0) + length (beams s1) <> length (beams s2))%nat ->
       FetchData.pandas_to_scans mean_seq df (VStr "themis") fields_st fields_ve
       = Ok (scans', max_list (beam_counts [scan_elv; scan_elv]))).
Proof.
  apply (scans_round_trip mean_seq [scan_elv; scan_elv] fields_st fields_ve 0 (VStr "themis")).
  - compute_done.
  - compute_done.
  - compute_done.
  - do 2 (constructor; [apply scan_elv_flattenable|]). constructor.
  - typed_columns_cells.
  - do 2 (constructor; [eexists; vm_compute; reflexivity|]). constructor.
Defined.

(** ** FetchData.scans_to_pandas: the numbering of the rows *)

(** X18. In the table that [scans_to_pandas] makes of flattenable scans,
    every gate of every beam has one row, in the order of the scans, of
    their beams and of the gates; the row carries in "scnum" the index of
    its scan in the list plus [start_scnum], and in "sbnum" the index of
    its beam in the scan. *)
Theorem scans_to_pandas_numbering (scans : list Scan) (s_params v_params : list string)
    (start_scnum : Z) :
  NoDup (scan_columns s_params v_params) ->
  Forall (scan_flattenable s_params v_params) scans ->
  exists df,
    FetchData.scans_to_pandas scans s_params v_params start_scnum = Ok df /\
    uniform (sum_list (map scan_gates scans)) df /\
    df !! "scnum"
      = Some (concat (map (fun ns : Z * Scan =>
                             replicate (scan_gates ns.2) (VInt (ns.1 + start_scnum)))
                          (FetchData.enumerate scans))) /\
    df !! "sbnum"
      = Some (concat (map (fun ns : Z * Scan =>
                             concat (map (fun hb : Z * Beam =>
                                            replicate (gates hb.2) (VInt hb.1))
                                         (FetchData.enumerate (beams ns.2))))
                          (FetchData.enumerate scans))).
Proof.
  intros Hcols Hscans.
  destruct (scans_table_of s_params v_params scans start_scnum Hcols Hscans)
    as (df & Hdf & Hcol).
  assert (Hin : forall ns, ns ∈ FetchData.enumerate scans ->
                           scan_flattenable s_params v_params ns.2).
  { intros ns Hns. rewrite Forall_forall in Hscans. apply Hscans.
    rewrite <- (enumerate_snd scans). apply list_elem_of_fmap. by exists ns. }
  exists df. split; [done|]. split; [|split].
  - intros p col Hp. rewrite Hcol in Hp. destruct (decide _) as [Hq|]; [|done].
    injection Hp as <-.
    assert (Hsum : map scan_gates scans
                   = map (fun ns : Z * Scan => scan_gates ns.2) (FetchData.enumerate scans)).
    { by rewrite <- (map_map snd scan_gates), enumerate_snd. }
    rewrite Hsum. apply concat_map_length. intros [idn s] Hns. cbn [snd].
    apply scan_block_length; [|done]. by apply (Hin (idn, s)).
  - rewrite (scnum_column s_params v_params start_scnum scans df); [done|].
    intros q Hq. by rewrite Hcol, decide_True.
  - rewrite Hcol, decide_True by (apply scan_columns_cases; auto). reflexivity.
Qed.

Lemma scans_to_pandas_numbering_witness :
  exists df,
    FetchData.scans_to_pandas [scan_elv; scan_elv] fields_st fields_ve 7 = Ok df /\
    uniform (sum_list (map scan_gates [scan_elv; scan_elv])) df /\
    df !! "scnum"
      = Some (concat (map (fun ns : Z * Scan =>
                             replicate (scan_gates ns.2) (VInt (ns.1 + 7)))
                          (FetchData.enumerate [scan_elv; scan_elv]))) /\
    df !! "sbnum"
      = Some (concat (map (fun ns : Z * Scan =>
                             concat (map (fun hb : Z * Beam =>
                                            replicate (gates hb.2) (VInt hb.1))
                                         (FetchData.enumerate (beams ns.2))))
                          (FetchData.enumerate [scan_elv; scan_elv]))).
Proof.
  apply (scans_to_pandas_numbering [scan_elv; scan_elv] fields_st fields_ve 7).
  - compute_done.
  - do 2 (constructor; [apply scan_elv_flattenable|]). constructor.
Defined.

(** The two scans of three rows each are numbered 7 and 8, their beams 0
    and 1; the absent field [elv] is NaN in all six rows. *)
Example scans_table_elv :
  match FetchData.scans_to_pandas [scan_elv; scan_elv] fields_st fields_ve 7 with
  | Ok df => (df !! "scnum", df !! "sbnum", df !! "elv")
  | Err _ => (None, None, None)
  end
  = (Some [VInt 7; VInt 7; VInt 7; VInt 8; VInt 8; VInt 8],
     Some [VInt 0; VInt 0; VInt 1; VInt 0; VInt 0; VInt 1],
     Some [nan; nan; nan; nan; nan; nan]).
Proof. vm_compute. reflexivity. Qed.

(** ** FetchData._parse_data: the segmentation reads the scan flag *)

Lemma kept_beams_attr self sp vp tds b p :
  b ∈ kept_beams self sp vp tds ->
  p ∉ sp -> p ∉ vp -> p <> "time" -> attrs b !! p = None.
Proof.
  unfold kept_beams. intros (td & -> & _)%list_elem_of_fmap Hs Hv Ht.
  unfold beam_of_record. cbn [attrs]. rewrite lookup_insert_ne by done.
  by rewrite !lookup_assign, !decide_False.
Qed.

Section NeedsScan.

Variable np_mean : list value -> result value.

(** X19. The segmentation needs the scan flag of the beams: when "scan" is
    not among the requested fields and at least two records fall inside the
    window, [_parse_data] (by = "scan") raises [AttributeError] on the
    second beam. *)
Theorem parse_data_needs_scan (self : FetchData) (data : list (gmap string value))
    (s_params v_params : list string) (scan_prop : gmap string value)
    (ts : list datetime) (b0 b1 : Beam) (rest : list Beam) :
  mapM FetchData.record_time data = Ok ts ->
  is_Some (scan_prop !! "s_mode") ->
  "scan" ∉ s_params ->
  "scan" ∉ v_params ->
  kept_beams self s_params v_params (zip ts data) = b0 :: b1 :: rest ->
  FetchData._parse_data np_mean self data s_params v_params "scan" scan_prop
  = Err (AttributeError "scan").
Proof.
  intros Hts [mode Hmode] Hs Hv Hkept. unfold FetchData._parse_data.
  rewrite (parse_loop_Ok _ _ _ _ _ _ Hts), Ok_bind. cbn [app]. rewrite Hkept.
  change (String.eqb "scan" "scan") with true. cbv match.
  unfold dict_get. rewrite Hmode, Ok_bind.
  change (list_index (b0 :: b1 :: rest) 0) with (Ok b0). rewrite Ok_bind.
  assert (Hb1 : attrs b1 !! "scan" = None).
  { apply (kept_beams_attr self s_params v_params (zip ts data)); [|done..].
    rewrite Hkept. right. by left. }
  assert (Hstep : forall _b st ix,
            FetchData.scan_step np_mean _b scan_prop st (ix, b1)
            = Err (AttributeError "scan")).
  { intros _b [s sc] ix. unfold FetchData.scan_step, FetchData.starts_scan, getattr.
    by rewrite Hb1. }
  cbn [tail]. unfold FetchData.enumerate. by rewrite imap_cons, foldM_cons, Hstep.
Qed.

End NeedsScan.

Lemma parse_data_needs_scan_witness :
  FetchData._parse_data mean_seq window_2015 records_4 ["bmnum"] fields_v "scan"
    default_scan_prop
  = Err (AttributeError "scan").
Proof.
  apply (parse_data_needs_scan mean_seq window_2015 records_4 ["bmnum"] fields_v
           default_scan_prop times_4
           (beam_of_record ["bmnum"] fields_v (mk_dt 2015 3 17 3 0 0 0) (record_at 0 0 0 1))
           (beam_of_record ["bmnum"] fields_v (mk_dt 2015 3 17 3 1 3 0) (record_at 1 3 1 0))
           [beam_of_record ["bmnum"] fields_v (mk_dt 2015 3 17 3 20 0 0) (record_at 20 0 0 1)]).
  - reflexivity.
  - by eexists.
  - compute_done.
  - compute_done.
  - reflexivity.
Defined.

(** ** FetchData.convert_to_pandas: when a table is returned *)





